(** * Logistic automation: deliveries, slots and clusters

    A shallow embedding of the business rules of [src/delivery.py],
    [src/slots.py.py] and [src/clusters.py].  The three files are Odoo
    models: their methods run on recordsets and read and write fields of
    database rows.  Here the database is an explicit [State] of tables, a
    recordset is the list of its ids, and every method is a function in a
    state-and-exception monad.  A raised exception returns the state as it
    is at the [raise]: undoing it is the host's transaction rollback, which
    the repository does not implement.  What a decorator of the host does
    to a method of the repository is part of the method: the wrapper of
    [@api.model] around [create], and the [@api.constrains] hook that
    [create] runs on a new delivery. *)

From stdpp Require Import base option list numbers strings pretty gmap.

Local Open Scope Z_scope.

(** ** The host platform

    What the Python code takes from its host and the repository does not
    define: IEEE arithmetic on [Float] fields, [uuid.uuid4], the rendering
    of an [ir.sequence] number, and the stage that the search on
    [project.task.type] of [Slot.cancel_action] finds for a task. *)

Definition uuid := N.

Class Platform := {
  float : Type;
  f_zero : float;                       (* 0.0, also the int 0 that sum() starts from *)
  f_add : float → float → float;        (* a + b *)
  f_sub : float → float → float;        (* a - b *)
  f_gt : float → float → bool;          (* a > b *)
  f_le : float → float → bool;          (* a <= b *)
  uuid4_at : nat → uuid;                (* the k-th value drawn by uuid.uuid4() *)
  seq_render : string → nat → string;   (* text of number n of the sequence with that code *)
  cancelled_stage : Z → option Z        (* id of the 'Cancelled' stage of a task's project *)
}.

(** Python's [sum]: a left fold that starts from 0. *)
Definition py_sum `{Platform} (xs : list float) : float :=
  foldl f_add f_zero xs.

(** ** Exceptions and results *)

Inductive exn :=
| UserError (msg : string)
| ValueError (msg : string)
| TypeError
| MissingError
| UnboundLocalError.

Inductive result (A : Type) :=
| Ok (a : A)
| Raise (e : exn).
Arguments Ok {A} a.
Arguments Raise {A} e.

Definition is_UserError {A} (r : result A) : Prop :=
  match r with Raise (UserError _) => True | _ => False end.

Definition is_Raise {A} (r : result A) : Prop :=
  match r with Raise _ => True | Ok _ => False end.

(** ** Tables

    A table is the list of its rows in creation order, which is the order
    of their ids and the order in which a recordset iterates. *)

Section table.
Context {R : Type} (key : R → Z).

Definition browse (tbl : list R) (i : Z) : option R :=
  List.find (λ r, bool_decide (key r = i)) tbl.

Definition write_all (ids : list Z) (f : R → R) (tbl : list R) : list R :=
  (λ r, if bool_decide (key r ∈ ids) then f r else r) <$> tbl.

Definition delete_all (ids : list Z) (tbl : list R) : list R :=
  filter (λ r, key r ∉ ids) tbl.

Definition fresh_id (tbl : list R) : Z :=
  foldr (λ r m, Z.max (key r + 1) m) 1 tbl.

End table.

(** ** The models' stored fields

    One module per model, named after the model's [_name]; only the fields
    that the methods below read or write are kept.  [False] in a field
    that holds a record, a date or a text is [None]. *)

Module logistic_slot.
Inductive STATUS := scheduled | delivered | returned | cancelled.
#[global] Instance STATUS_eq_dec : EqDecision STATUS.
Proof. solve_decision. Defined.
Record t := mk {
  id : Z;
  guid : option uuid;
  name : option string;
  description : option string;
  date : option Z;
  delivery_id : option Z;
  sale_order_line_id : option Z;
  date_delivered : option Z;
  is_delivered : bool;
  is_returned : bool;
  status : STATUS;
  zone_status_id : option Z;
  fsm_id : option Z;
  assembly_planned_date_begin : option Z
}.
Definition with_date v r := mk (id r) (guid r) (name r) (description r) v (delivery_id r) (sale_order_line_id r) (date_delivered r) (is_delivered r) (is_returned r) (status r) (zone_status_id r) (fsm_id r) (assembly_planned_date_begin r).
Definition with_delivery_id v r := mk (id r) (guid r) (name r) (description r) (date r) v (sale_order_line_id r) (date_delivered r) (is_delivered r) (is_returned r) (status r) (zone_status_id r) (fsm_id r) (assembly_planned_date_begin r).
Definition with_date_delivered v r := mk (id r) (guid r) (name r) (description r) (date r) (delivery_id r) (sale_order_line_id r) v (is_delivered r) (is_returned r) (status r) (zone_status_id r) (fsm_id r) (assembly_planned_date_begin r).
Definition with_is_delivered v r := mk (id r) (guid r) (name r) (description r) (date r) (delivery_id r) (sale_order_line_id r) (date_delivered r) v (is_returned r) (status r) (zone_status_id r) (fsm_id r) (assembly_planned_date_begin r).
Definition with_is_returned v r := mk (id r) (guid r) (name r) (description r) (date r) (delivery_id r) (sale_order_line_id r) (date_delivered r) (is_delivered r) v (status r) (zone_status_id r) (fsm_id r) (assembly_planned_date_begin r).
Definition with_status v r := mk (id r) (guid r) (name r) (description r) (date r) (delivery_id r) (sale_order_line_id r) (date_delivered r) (is_delivered r) (is_returned r) v (zone_status_id r) (fsm_id r) (assembly_planned_date_begin r).
Definition with_zone_status_id v r := mk (id r) (guid r) (name r) (description r) (date r) (delivery_id r) (sale_order_line_id r) (date_delivered r) (is_delivered r) (is_returned r) (status r) v (fsm_id r) (assembly_planned_date_begin r).
Definition with_fsm_id v r := mk (id r) (guid r) (name r) (description r) (date r) (delivery_id r) (sale_order_line_id r) (date_delivered r) (is_delivered r) (is_returned r) (status r) (zone_status_id r) v (assembly_planned_date_begin r).
End logistic_slot.

Module logistic_delivery.
Inductive STATUS := scheduled | loaded | in_transit | fulfilled | cancelled.
#[global] Instance STATUS_eq_dec : EqDecision STATUS.
Proof. solve_decision. Defined.
Record t := mk {
  id : Z;
  guid : option uuid;
  name : option string;
  vehicle_id : option Z;
  date : option Z;
  status : STATUS;
  cancelled_date : option Z
}.
Definition with_status v r := mk (id r) (guid r) (name r) (vehicle_id r) (date r) v (cancelled_date r).
Definition with_cancelled_date v r := mk (id r) (guid r) (name r) (vehicle_id r) (date r) (status r) v.
End logistic_delivery.

Module logistic_cluster.
Record t := mk {
  id : Z;
  guid : option uuid;
  name : option string
}.
End logistic_cluster.

Module logistic_zone_status.
Record t := mk {
  id : Z;
  zone_id : option Z;
  date : option Z
}.
End logistic_zone_status.

Module fleet_vehicle.
Record t `{Platform} := mk {
  id : Z;
  total_capacity : float
}.
End fleet_vehicle.

Module sale_order_line.
Record t `{Platform} := mk {
  id : Z;
  order_id : option Z;
  product_name : option string;         (* product_id.name *)
  volume : float
}.
End sale_order_line.

Module sale_order.
Record t := mk {
  id : Z;
  zone_id : option Z;
  delivery_date : option Z;
  installation_date : option Z
}.
Definition with_delivery_date v r := mk (id r) (zone_id r) v (installation_date r).
End sale_order.

Module stock_picking.
Inductive usage := transit | customer | internal.
#[global] Instance usage_eq_dec : EqDecision usage.
Proof. solve_decision. Defined.
Record t := mk {
  id : Z;
  sale_id : option Z;
  done : bool;                          (* state == "done" *)
  location_dest_usage : usage           (* location_dest_id.usage *)
}.
End stock_picking.

(** ** The database, the clock and the generators *)

Record State `{Platform} := mkState {
  slots : list logistic_slot.t;
  deliveries : list logistic_delivery.t;
  clusters : list logistic_cluster.t;
  zone_statuses : list logistic_zone_status.t;
  vehicles : list fleet_vehicle.t;
  lines : list sale_order_line.t;
  orders : list sale_order.t;
  pickings : list stock_picking.t;
  sequences : gmap string nat;          (* ir.sequence: code -> next number *)
  uuid_draws : nat;                     (* how many uuids were drawn so far *)
  chatter : list (string * Z);          (* message_post: model and record id *)
  now : Z                               (* the clock, in seconds *)
}.

Section state.
Context `{Platform}.

Definition on_slots (f : list logistic_slot.t → list logistic_slot.t) (st : State) : State :=
  mkState _ (f (slots st)) (deliveries st) (clusters st) (zone_statuses st) (vehicles st) (lines st) (orders st) (pickings st) (sequences st) (uuid_draws st) (chatter st) (now st).

Definition on_deliveries (f : list logistic_delivery.t → list logistic_delivery.t) (st : State) : State :=
  mkState _ (slots st) (f (deliveries st)) (clusters st) (zone_statuses st) (vehicles st) (lines st) (orders st) (pickings st) (sequences st) (uuid_draws st) (chatter st) (now st).

Definition on_clusters (f : list logistic_cluster.t → list logistic_cluster.t) (st : State) : State :=
  mkState _ (slots st) (deliveries st) (f (clusters st)) (zone_statuses st) (vehicles st) (lines st) (orders st) (pickings st) (sequences st) (uuid_draws st) (chatter st) (now st).

Definition on_zone_statuses (f : list logistic_zone_status.t → list logistic_zone_status.t) (st : State) : State :=
  mkState _ (slots st) (deliveries st) (clusters st) (f (zone_statuses st)) (vehicles st) (lines st) (orders st) (pickings st) (sequences st) (uuid_draws st) (chatter st) (now st).

Definition on_orders (f : list sale_order.t → list sale_order.t) (st : State) : State :=
  mkState _ (slots st) (deliveries st) (clusters st) (zone_statuses st) (vehicles st) (lines st) (f (orders st)) (pickings st) (sequences st) (uuid_draws st) (chatter st) (now st).

Definition on_sequences (f : gmap string nat → gmap string nat) (st : State) : State :=
  mkState _ (slots st) (deliveries st) (clusters st) (zone_statuses st) (vehicles st) (lines st) (orders st) (pickings st) (f (sequences st)) (uuid_draws st) (chatter st) (now st).

Definition on_uuid_draws (f : nat → nat) (st : State) : State :=
  mkState _ (slots st) (deliveries st) (clusters st) (zone_statuses st) (vehicles st) (lines st) (orders st) (pickings st) (sequences st) (f (uuid_draws st)) (chatter st) (now st).

Definition on_chatter (f : list (string * Z) → list (string * Z)) (st : State) : State :=
  mkState _ (slots st) (deliveries st) (clusters st) (zone_statuses st) (vehicles st) (lines st) (orders st) (pickings st) (sequences st) (uuid_draws st) (f (chatter st)) (now st).

(** ** The monad of a method call *)

Definition M (A : Type) : Type := State → State * result A.

Definition ret {A} (a : A) : M A := λ st, (st, Ok a).

Definition bind {A B} (m : M A) (k : A → M B) : M B :=
  λ st, match m st with
        | (st', Ok a) => k a st'
        | (st', Raise e) => (st', Raise e)
        end.

Definition raise {A} (e : exn) : M A := λ st, (st, Raise e).

Definition gets {A} (f : State → A) : M A := λ st, (st, Ok (f st)).

Definition modify (f : State → State) : M unit := λ st, (f st, Ok tt).

(** [try: ... except Exception as e: h e] *)
Definition try_except {A} (m : M A) (h : exn → M A) : M A :=
  λ st, match m st with
        | (st', Ok a) => (st', Ok a)
        | (st', Raise e) => h e st'
        end.

End state.

Declare Scope py_scope.
Delimit Scope py_scope with py.
Notation "x <- c ;; k" := (bind c (λ x, k))
  (at level 100, c at next level, right associativity) : py_scope.
Notation "c ;;; k" := (bind c (λ _, k))
  (at level 100, right associativity) : py_scope.
Local Open Scope py_scope.

Section loops.
Context `{Platform}.

(** [for x in l: body] *)
Fixpoint for_each {A} (l : list A) (body : A → M unit) : M unit :=
  match l with
  | [] => ret tt
  | x :: l' => body x ;;; for_each l' body
  end.

(** [for x in l: body], where [body] may [return b]: [Some b] is a
    [return], [None] is the end of the body; the result is [None] when
    the loop ends without a [return]. *)
Fixpoint for_each_ret {A B} (l : list A) (body : A → M (option B)) : M (option B) :=
  match l with
  | [] => ret None
  | x :: l' =>
      r <- body x ;;
      match r with
      | Some b => ret (Some b)
      | None => for_each_ret l' body
      end
  end.

(** [for i, x in enumerate(l): l[i] = body(x)] on a list of values. *)
Fixpoint for_map {A B} (l : list A) (body : A → M B) : M (list B) :=
  match l with
  | [] => ret []
  | x :: l' => y <- body x ;; ys <- for_map l' body ;; ret (y :: ys)
  end.

(** The loop variable after [for x in l], which Python leaves bound to
    the last element and unbound when [l] is empty. *)
Definition loop_variable {A} (l : list A) : M A :=
  match last l with
  | Some x => ret x
  | None => raise UnboundLocalError
  end.

End loops.

(** ** What the ORM does for the models *)

(** Values of the dictionaries passed to [create]. *)
Inductive value :=
| VFalse
| VInt (z : Z)
| VStr (s : string)
| VUuid (u : uuid).

(** The [values] argument of [create]: a dictionary, a list of
    dictionaries, or something else. *)
Inductive pyarg :=
| ADict (d : gmap string value)
| AList (ds : list (gmap string value))
| AOther (v : value).

Definition get_int (d : gmap string value) (k : string) : option Z :=
  match d !! k with Some (VInt z) => Some z | _ => None end.

Definition get_str (d : gmap string value) (k : string) : option string :=
  match d !! k with Some (VStr s) => Some s | _ => None end.

Definition get_uuid (d : gmap string value) (k : string) : option uuid :=
  match d !! k with Some (VUuid u) => Some u | _ => None end.

Definition text_value (s : option string) : value :=
  match s with Some s => VStr s | None => VFalse end.

Definition int_value (z : option Z) : value :=
  match z with Some z => VInt z | None => VFalse end.

(** The first element of [l] that is not in [seen], and so on: the ids of
    a recordset built by [mapped], without repetition. *)
Fixpoint ordered_set (seen l : list Z) : list Z :=
  match l with
  | [] => []
  | x :: l' =>
      if bool_decide (x ∈ seen) then ordered_set seen l'
      else x :: ordered_set (x :: seen) l'
  end.

Section orm.
Context `{Platform}.

(** Reading a field of a record that is not in its table. *)
Definition read {R} (key : R → Z) (tbl : State → list R) (i : Z) : M R :=
  λ st, match browse key (tbl st) i with
        | Some r => (st, Ok r)
        | None => (st, Raise MissingError)
        end.

Definition read_slot : Z → M logistic_slot.t := read logistic_slot.id slots.
Definition read_delivery : Z → M logistic_delivery.t := read logistic_delivery.id deliveries.
Definition read_order : Z → M sale_order.t := read sale_order.id orders.

(** Assigning a field on a recordset writes it on each of its records. *)
Definition write_slots (ids : list Z) (f : logistic_slot.t → logistic_slot.t) : M unit :=
  modify (on_slots (write_all logistic_slot.id ids f)).

Definition write_deliveries (ids : list Z) (f : logistic_delivery.t → logistic_delivery.t) : M unit :=
  modify (on_deliveries (write_all logistic_delivery.id ids f)).

Definition write_orders (ids : list Z) (f : sale_order.t → sale_order.t) : M unit :=
  modify (on_orders (write_all sale_order.id ids f)).

(** [self.message_post(body=...)], which wants one record. *)
Definition message_post (model : string) (self : list Z) : M unit :=
  match self with
  | [i] => modify (on_chatter (λ log, log ++ [(model, i)]))
  | _ => raise (ValueError "Expected singleton")
  end.

(** [fields.Datetime.now()] and [datetime.datetime.now()] *)
Definition datetime_now : M Z := gets now.

(** [datetime.datetime.today().date()] *)
Definition date_today : M Z := gets (λ st, now st `div` 86400).

(** [uuid.uuid4()] *)
Definition uuid4 : M uuid :=
  λ st, (on_uuid_draws S st, Ok (uuid4_at (uuid_draws st))).

(** [self.env['ir.sequence'].next_by_code(code)]: [False] when no
    sequence has that code. *)
Definition next_by_code (code : string) : M (option string) :=
  λ st, match sequences st !! code with
        | Some n => (on_sequences (<[code := S n]>) st, Ok (Some (seq_render code n)))
        | None => (st, Ok None)
        end.

(** [values[k] = v] *)
Definition setitem (values : pyarg) (k : string) (v : value) : M pyarg :=
  match values with
  | ADict d => ret (ADict (<[k := v]> d))
  | AList _ | AOther _ => raise TypeError
  end.

(** [models.Model.create]: one new row per dictionary, with the next id
    of the table; the result is the recordset of the new rows. *)
Definition orm_create (new_row : gmap string value → M Z) (values : pyarg) : M (list Z) :=
  match values with
  | ADict d => i <- new_row d ;; ret [i]
  | AList ds => for_map ds new_row
  | AOther _ => raise TypeError
  end.

(** [@api.model] on a method named [create]: the method is called as it
    is on a dictionary; of any other argument the wrapper takes the
    length and calls the method on each element in turn, the result being
    the recordset of all the records.  So a list of dictionaries is
    split, a text is split into its characters, and a value without
    length is a TypeError before the method runs. *)
Definition model_create_single (create : pyarg → M (list Z)) (arg : pyarg) : M (list Z) :=
  match arg with
  | ADict d => create (ADict d)
  | AList ds =>
      records <- for_map ds (λ vals, create (ADict vals)) ;;
      ret (concat records)
  | AOther (VStr s) =>
      records <- for_map (String.list_ascii_of_string s)
                   (λ c, create (AOther (VStr (String c EmptyString)))) ;;
      ret (concat records)
  | AOther _ => raise TypeError
  end.

(** The row of a new slot: the fields that the callers in the repository
    pass, and the defaults of the others. *)
Definition slot_of_values (i : Z) (d : gmap string value) : logistic_slot.t :=
  logistic_slot.mk i (get_uuid d "guid") (get_str d "name") (get_str d "description")
    (get_int d "date") None (get_int d "sale_order_line_id") None false false
    logistic_slot.scheduled None None (get_int d "assembly_planned_date_begin").

Definition new_slot (d : gmap string value) : M Z :=
  λ st, let i := fresh_id logistic_slot.id (slots st) in
        (on_slots (λ tbl, tbl ++ [slot_of_values i d]) st, Ok i).

Definition delivery_of_values (i : Z) (d : gmap string value) : logistic_delivery.t :=
  logistic_delivery.mk i (get_uuid d "guid") (get_str d "name") None (get_int d "date")
    logistic_delivery.scheduled None.

Definition new_delivery (d : gmap string value) : M Z :=
  λ st, let i := fresh_id logistic_delivery.id (deliveries st) in
        (on_deliveries (λ tbl, tbl ++ [delivery_of_values i d]) st, Ok i).

Definition cluster_of_values (i : Z) (d : gmap string value) : logistic_cluster.t :=
  logistic_cluster.mk i (get_uuid d "guid") (get_str d "name").

Definition new_cluster (d : gmap string value) : M Z :=
  λ st, let i := fresh_id logistic_cluster.id (clusters st) in
        (on_clusters (λ tbl, tbl ++ [cluster_of_values i d]) st, Ok i).

(** [self.env["logistic.zone.status"].search([("zone_id", "=", zone),
    ("date", "=", date)])] *)
Definition search_zone_status (st : State) (zone date : option Z) : list Z :=
  logistic_zone_status.id <$>
    filter (λ zs, logistic_zone_status.zone_id zs = zone ∧ logistic_zone_status.date zs = date)
      (zone_statuses st).

(** [self.env["logistic.zone.status"].create({"zone_id": zone, "date":
    date, "slot_ids": [(4, slot)]})]: the One2many [slot_ids] is the
    slots whose [zone_status_id] is the record. *)
Definition create_zone_status (zone date : option Z) (slot : Z) : M Z :=
  i <- gets (λ st, fresh_id logistic_zone_status.id (zone_statuses st)) ;;
  modify (on_zone_statuses (λ tbl, tbl ++ [logistic_zone_status.mk i zone date])) ;;;
  write_slots [slot] (logistic_slot.with_zone_status_id (Some i)) ;;;
  ret i.

(** *** Related and One2many fields *)

(** [delivery.slot_ids]: the slots whose [delivery_id] is the delivery. *)
Definition slot_records (st : State) (delivery : Z) : list logistic_slot.t :=
  filter (λ r, logistic_slot.delivery_id r = Some delivery) (slots st).

Definition slot_ids (st : State) (delivery : Z) : list Z :=
  logistic_slot.id <$> slot_records st delivery.

(** [slot.total_volume], related to [sale_order_line_id.volume]. *)
Definition slot_total_volume (st : State) (slot : logistic_slot.t) : float :=
  match logistic_slot.sale_order_line_id slot ≫= browse sale_order_line.id (lines st) with
  | Some line => sale_order_line.volume line
  | None => f_zero
  end.

(** [slot.sale_order_id], related to [sale_order_line_id.order_id]. *)
Definition slot_sale_order_id (st : State) (slot : logistic_slot.t) : option Z :=
  match logistic_slot.sale_order_line_id slot ≫= browse sale_order_line.id (lines st) with
  | Some line => sale_order_line.order_id line
  | None => None
  end.

(** [order.order_line] and [order.picking_ids] *)
Definition order_line (st : State) (order : Z) : list sale_order_line.t :=
  filter (λ l, sale_order_line.order_id l = Some order) (lines st).

Definition picking_ids (st : State) (order : Z) : list stock_picking.t :=
  filter (λ p, stock_picking.sale_id p = Some order) (pickings st).

(** [vehicle_id.total_capacity], 0.0 through an empty [vehicle_id]. *)
Definition vehicle_total_capacity (st : State) (vehicle : option Z) : float :=
  match vehicle ≫= browse fleet_vehicle.id (vehicles st) with
  | Some v => fleet_vehicle.total_capacity v
  | None => f_zero
  end.

End orm.

(** ** Computed fields of [logistic.delivery] ([src/delivery.py])

    A computed field that is not stored is the value that its compute
    method assigns to the record; each function below is the body of the
    [for record in self] loop of the method it is named after. *)

Module Delivery_fields.
Section fields.
Context `{Platform}.

(** [sum(slot.total_volume for slot in record.slot_ids if slot.status != "cancelled")] *)
Definition _compute_total_volume (st : State) (record : Z) : float :=
  py_sum (slot_total_volume st <$>
    filter (λ slot, logistic_slot.status slot ≠ logistic_slot.cancelled) (slot_records st record)).

(** [sum(slot.total_volume for slot in record.slot_ids if slot.is_delivered)] *)
Definition _compute_delivered_volume (st : State) (record : Z) : float :=
  py_sum (slot_total_volume st <$>
    filter (λ slot, logistic_slot.is_delivered slot = true) (slot_records st record)).

(** [record.total_volume - record.delivered_volume] *)
Definition _compute_remaining_volume (st : State) (record : Z) : float :=
  f_sub (_compute_total_volume st record) (_compute_delivered_volume st record).

(** [_compute_volume_loss]: the capacity left in the vehicle, counting
    every slot of the delivery. *)
Definition _compute_volume_loss (st : State) (delivery : logistic_delivery.t) : float :=
  match logistic_delivery.vehicle_id delivery, slot_records st (logistic_delivery.id delivery) with
  | Some v, _ :: _ =>
      let total_vehicle_volume := vehicle_total_capacity st (Some v) in
      let total_slots_volume :=
        py_sum (slot_total_volume st <$> slot_records st (logistic_delivery.id delivery)) in
      f_sub total_vehicle_volume total_slots_volume
  | _, _ => vehicle_total_capacity st (logistic_delivery.vehicle_id delivery)
  end.

(** [_compute_sale_order_ids]: [slot_ids.mapped('sale_order_id').ids] *)
Definition _compute_sale_order_ids (st : State) (delivery : Z) : list Z :=
  ordered_set [] (omap (slot_sale_order_id st) (slot_records st delivery)).

End fields.
End Delivery_fields.

(** ** [class Slot] ([src/slots.py.py]) *)

Module Slot.
Section methods.
Context `{Platform}.

(** [check_compatible], called on one slot [self]. *)
Definition check_compatible (self : Z) (delivery_id : Z) : M bool :=
  d <- read_delivery delivery_id ;;
  match logistic_delivery.vehicle_id d with
  | Some _ =>
      if bool_decide (logistic_delivery.status d = logistic_delivery.scheduled) then
        volume_loss <- gets (λ st, Delivery_fields._compute_volume_loss st d) ;;
        slot <- read_slot self ;;
        total_volume <- gets (λ st, slot_total_volume st slot) ;;
        if f_gt volume_loss total_volume then ret true else ret false
      else raise (UserError "Target delivery is not in scheduled status!")
  | None => raise (UserError "Please Assign a vehicle to target delivery!")
  end.

(** [change_delivery], called on one slot [self].  The recomputation of
    the sale order's [logistic_delivery_ids] writes no field kept here. *)
Definition change_delivery (self : Z) (delivery_id : Z) (reason : string) (date : Z) : M bool :=
  compatible <- check_compatible self delivery_id ;;
  if negb compatible then
    raise (UserError "The target delivery is not in scheduled state or the vehicle does not have the capacity to carry the product")
  else
    old_delivery_id <- read_slot self ;;
    write_slots [self] (logistic_slot.with_delivery_id (Some delivery_id)) ;;;
    message_post "logistic.slot" [self] ;;;
    ret true.

Definition cancel_action (self : list Z) : M unit :=
  for_each self (λ slot,
    r <- read_slot slot ;;
    if bool_decide (logistic_slot.status r ∈ [logistic_slot.delivered; logistic_slot.returned]) then
      raise (UserError "Cannot cancel a slot that is delivered or returned")
    else
      write_slots [slot] (logistic_slot.with_status logistic_slot.cancelled) ;;;
      match logistic_slot.fsm_id r with
      | Some task => write_slots [slot] (logistic_slot.with_fsm_id (cancelled_stage task))
      | None => ret tt
      end).

(** [get_or_create_status_record]; [order] is [None] for the empty
    recordset, whose [zone_id.id] is [False].  Reading [slot_ids] of
    a recordset of several records is an error of the ORM. *)
Definition get_or_create_status_record (slot_id : Z) (order : option Z) : M bool :=
  zone <- match order with
          | Some o => r <- read_order o ;; ret (sale_order.zone_id r)
          | None => ret None
          end ;;
  slot <- read_slot slot_id ;;
  zone_status_id <- gets (λ st, search_zone_status st zone (logistic_slot.date slot)) ;;
  match zone_status_id with
  | [] => create_zone_status zone (logistic_slot.date slot) slot_id ;;; ret true
  | [zs] => write_slots [slot_id] (logistic_slot.with_zone_status_id (Some zs)) ;;; ret true
  | _ => raise (ValueError "Expected singleton")
  end.

(** The function under [@api.model]. *)
Definition create_body (values : pyarg) : M (list Z) :=
  values <- match values with
            | ADict d =>
                name <- next_by_code "logistic.slot.code" ;;
                u <- uuid4 ;;
                ret (ADict (<["guid" := VUuid u]> (<["name" := text_value name]> d)))
            | AList ds =>
                ds <- for_map ds (λ value,
                        name <- next_by_code "logistic.slot.code" ;;
                        u <- uuid4 ;;
                        ret (<["guid" := VUuid u]> (<["name" := text_value name]> value))) ;;
                ret (AList ds)
            | AOther v => ret (AOther v)
            end ;;
  orm_create new_slot values.

(** [create] as the class has it, decorated. *)
Definition create : pyarg → M (list Z) := model_create_single create_body.

(** What [create_slots] returns: the list of the slots, or [str(e)]. *)
Inductive slots_or_text :=
| SlotIds (slot_ids : list Z)
| ErrorText (e : exn).

Definition create_slot_of_line (order : Z) (date : option Z) (line : sale_order_line.t) : M Z :=
  installation_date <- match sale_order_line.order_id line with
                       | Some o => r <- read_order o ;; ret (sale_order.installation_date r)
                       | None => ret None
                       end ;;
  created <- create (ADict (<["description" := text_value (sale_order_line.product_name line)]>
                      (<["sale_order_line_id" := VInt (sale_order_line.id line)]>
                      (<["assembly_planned_date_begin" := int_value installation_date]>
                      (<["date" := int_value date]> ∅))))) ;;
  match created with
  | [slot_id] => get_or_create_status_record slot_id (Some order) ;;; ret slot_id
  | _ => raise (ValueError "Expected singleton")
  end.

Fixpoint create_slots_loop (order : Z) (date : option Z) (order_line : list sale_order_line.t)
    (slot_ids : list Z) : M slots_or_text :=
  match order_line with
  | [] => ret (SlotIds slot_ids)
  | line :: rest =>
      r <- try_except (slot_id <- create_slot_of_line order date line ;; ret (inl slot_id))
             (λ e, ret (inr e)) ;;
      match r with
      | inl slot_id => create_slots_loop order date rest (slot_ids ++ [slot_id])
      | inr e => ret (ErrorText e)
      end
  end.

Definition create_slots (order : Z) (date : option Z) : M slots_or_text :=
  _ <- read_order order ;;
  order_line <- gets (λ st, order_line st order) ;;
  create_slots_loop order date order_line [].

Definition set_delivered (self : list Z) : M unit :=
  write_slots self (logistic_slot.with_is_delivered true) ;;;
  write_slots self (logistic_slot.with_status logistic_slot.delivered) ;;;
  t <- datetime_now ;;
  write_slots self (logistic_slot.with_date_delivered (Some t)).

Definition set_returned_driver_portal (self : list Z) : M unit :=
  write_slots self (logistic_slot.with_is_returned true) ;;;
  write_slots self (logistic_slot.with_status logistic_slot.returned) ;;;
  message_post "logistic.slot" self.

(** [unlink]: [super(Slot, self).unlink()] deletes the whole of [self]. *)
Definition unlink (self : list Z) : M bool :=
  for_each self (λ slot,
    r <- read_slot slot ;;
    if bool_decide (logistic_slot.status r ≠ logistic_slot.cancelled) then
      raise (UserError "Cannot delete a slot that is not in Canclled state")
    else modify (on_slots (delete_all logistic_slot.id self))) ;;;
  ret true.

(** [reset_to_scheduled]: the assignment is after the loop, on the loop
    variable. *)
Definition reset_to_scheduled (self : list Z) : M unit :=
  for_each self (λ slot,
    r <- read_slot slot ;;
    match logistic_slot.delivery_id r with
    | Some d =>
        delivery <- read_delivery d ;;
        if bool_decide (logistic_delivery.status delivery ≠ logistic_delivery.scheduled) then
          raise (UserError "Please reset the delivery to scheduled status before resetting the slot")
        else ret tt
    | None => ret tt
    end) ;;;
  slot <- loop_variable self ;;
  write_slots [slot] (logistic_slot.with_status logistic_slot.scheduled).

End methods.
End Slot.

(** ** [class Delivery] ([src/delivery.py]) *)

Module Delivery.
Section methods.
Context `{Platform}.

Definition VALID_STATUSES_SLOT_STATUS_CHANGE : list logistic_delivery.STATUS :=
  [logistic_delivery.scheduled; logistic_delivery.loaded].

Definition _set_slots_delivered (delivery : Z) : M unit :=
  slot_ids <- gets (λ st, slot_ids st delivery) ;;
  for_each slot_ids (λ slot, Slot.set_delivered [slot]).

Definition set_all_slots_delivered (self : list Z) : M unit :=
  for_each self (λ delivery,
    d <- read_delivery delivery ;;
    if bool_decide (logistic_delivery.status d ∉ VALID_STATUSES_SLOT_STATUS_CHANGE) then
      slots <- gets (λ st, slot_records st delivery) ;;
      match filter (λ slot, logistic_slot.status slot = logistic_slot.scheduled) slots with
      | _ :: _ =>
          _set_slots_delivered delivery ;;;
          message_post "logistic.delivery" [delivery]
      | [] => raise (UserError "No Scheduled Slots!")
      end
    else
      raise (UserError "A delivery must be at least in transit if you want to deliver a slot!")).

(** [reallocate_to]: the [return True] is inside the loop on [self]. *)
Definition reallocate_to (self : list Z) (delivery_id : Z) : M (option bool) :=
  for_each_ret self (λ delivery,
    target <- read_delivery delivery_id ;;
    if bool_decide (logistic_delivery.status target = logistic_delivery.scheduled) then
      _ <- read_delivery delivery ;;
      slot_ids <- gets (λ st, slot_ids st delivery) ;;
      for_each slot_ids (λ slot,
        t <- datetime_now ;;
        Slot.change_delivery slot delivery_id "Assignment" t ;;; ret tt) ;;;
      ret (Some true)
    else ret None).

(** [return True if delivery.date and delivery.date < today else False],
    in the loop on [self]. *)
Definition date_in_past (self : list Z) : M (option bool) :=
  for_each_ret self (λ delivery,
    d <- read_delivery delivery ;;
    match logistic_delivery.date d with
    | Some date => today <- date_today ;; ret (Some (bool_decide (date < today)))
    | None => ret (Some false)
    end).

(** The hook of [@api.constrains('date')]. *)
Definition _update_delivery_date_and_related_objects (self : list Z) : M unit :=
  for_each self (λ delivery,
    in_past <- date_in_past [delivery] ;;
    if default false in_past then raise (UserError "Delivery date cannot be in the past.")
    else
      d <- read_delivery delivery ;;
      let new_date := logistic_delivery.date d in
      slot_ids <- gets (λ st, slot_ids st delivery) ;;
      for_each slot_ids (λ slot,
        write_slots [slot] (logistic_slot.with_date new_date) ;;;
        r <- read_slot slot ;;
        sale_order_id <- gets (λ st, slot_sale_order_id st r) ;;
        write_orders (option_list sale_order_id) (sale_order.with_delivery_date new_date) ;;;
        Slot.get_or_create_status_record slot sale_order_id ;;; ret tt)).

Definition ensure_fits (self : list Z) : M (option bool) :=
  for_each_ret self (λ delivery,
    d <- read_delivery delivery ;;
    match logistic_delivery.vehicle_id d with
    | Some v =>
        total_volume <- gets (λ st, Delivery_fields._compute_total_volume st delivery) ;;
        total_capacity <- gets (λ st, vehicle_total_capacity st (Some v)) ;;
        if f_gt total_volume total_capacity then ret (Some false) else ret (Some true)
    | None => ret (Some true)
    end).

(** The hook of [@api.onchange("vehicle_id")]; [not None] is true. *)
Definition onchange_vehicle_id (self : list Z) : M unit :=
  fits <- ensure_fits self ;;
  if negb (default false fits) then
    raise (UserError "Vehicle capacity is not enough for this delivery")
  else ret tt.

(** What [models.Model.create] runs on the new records once they are in
    the table: the methods decorated with [@api.constrains] of a field
    that is in the values.  Of the four of the class, the hook of ['date']
    is the one that reads or writes a field kept here; the hooks of
    ['vehicle_id'] and ['sale_order_ids'] write [slot.vehicle_id],
    [volume_loss_percentage] and [customers], and call a method of the
    sale order that is not in the repository. *)
Definition _validate_fields (values : pyarg) (records : list Z) : M unit :=
  let has_date := match values with
                  | ADict d => bool_decide (is_Some (d !! "date"))
                  | AList ds => bool_decide (Exists (λ d, is_Some (d !! "date")) ds)
                  | AOther _ => false
                  end in
  if has_date then _update_delivery_date_and_related_objects records else ret tt.

(** The function under [@api.model]: the assignment of [values['name']]
    is after the [if], whatever [values] is. *)
Definition create_body (values : pyarg) : M (list Z) :=
  values <- match values with
            | AList ds =>
                ds <- for_map ds (λ val, u <- uuid4 ;; ret (<["guid" := VUuid u]> val)) ;;
                ret (AList ds)
            | ADict d => u <- uuid4 ;; ret (ADict (<["guid" := VUuid u]> d))
            | AOther v => ret (AOther v)
            end ;;
  name <- next_by_code "logistic.delivery.code" ;;
  values <- setitem values "name" (text_value name) ;;
  result <- orm_create new_delivery values ;;
  _validate_fields values result ;;;
  ret result.

(** [create] as the class has it, decorated: the wrapper calls the
    function once per dictionary, so on a list [values['name'] = ...] is
    run on each dictionary in turn. *)
Definition create : pyarg → M (list Z) := model_create_single create_body.

(** [unlink]: the loop on the slots is after the loop on [self], on its
    loop variable. *)
Definition unlink (self : list Z) : M bool :=
  for_each self (λ delivery,
    d <- read_delivery delivery ;;
    if bool_decide (logistic_delivery.status d ≠ logistic_delivery.cancelled) then
      raise (UserError "You can only delete cancelled deliveries")
    else ret tt) ;;;
  delivery <- loop_variable self ;;
  slot_ids <- gets (λ st, slot_ids st delivery) ;;
  for_each slot_ids (λ item, Slot.unlink [item] ;;; ret tt) ;;;
  modify (on_deliveries (delete_all logistic_delivery.id self)) ;;;
  ret true.

(** A validated transfer of [order] to a location of that usage. *)
Definition validated_pickings (st : State) (order : Z) (u : stock_picking.usage) : list stock_picking.t :=
  filter (λ picking, stock_picking.done picking = true ∧ stock_picking.location_dest_usage picking = u)
    (picking_ids st order).

(** [cancel_action]: the two assignments at the end are on [self]. *)
Definition cancel_action (self : list Z) : M unit :=
  for_each self (λ delivery,
    d <- read_delivery delivery ;;
    (if bool_decide (logistic_delivery.status d ∈ [logistic_delivery.in_transit; logistic_delivery.loaded]) then
       sale_order_ids <- gets (λ st, Delivery_fields._compute_sale_order_ids st delivery) ;;
       for_each sale_order_ids (λ order,
         validated_pickings_vehicle <- gets (λ st, validated_pickings st order stock_picking.transit) ;;
         validated_pickings_customer <- gets (λ st, validated_pickings st order stock_picking.customer) ;;
         match validated_pickings_vehicle, validated_pickings_customer with
         | [], [] => ret tt
         | _, _ => raise (UserError "Please reverse all validated  transfers cancel this delivery")
         end)
     else ret tt) ;;;
    (if bool_decide (logistic_delivery.status d = logistic_delivery.fulfilled) then
       raise (UserError "You can only cancel a delivery that is not yet fulfilled")
     else ret tt) ;;;
    slot_ids <- gets (λ st, slot_ids st delivery) ;;
    for_each slot_ids (λ slot, Slot.cancel_action [slot]) ;;;
    write_deliveries self (logistic_delivery.with_status logistic_delivery.cancelled) ;;;
    t <- datetime_now ;;
    write_deliveries self (logistic_delivery.with_cancelled_date (Some t))).

End methods.
End Delivery.

(** ** [class Cluster] ([src/clusters.py]) *)

Module Cluster.
Section methods.
Context `{Platform}.

(** The function under [@api.model]. *)
Definition create_body (values : pyarg) : M (list Z) :=
  values <- match values with
            | AList ds =>
                ds <- for_map ds (λ val, u <- uuid4 ;; ret (<["guid" := VUuid u]> val)) ;;
                ret (AList ds)
            | ADict d => u <- uuid4 ;; ret (ADict (<["guid" := VUuid u]> d))
            | AOther _ =>
                raise (ValueError "Invalid values parameter. Must be a dictionary or a list of dictionaries.")
            end ;;
  orm_create new_cluster values.

(** [create] as the class has it, decorated. *)
Definition create : pyarg → M (list Z) := model_create_single create_body.

End methods.
End Cluster.

(** ** More of [class Delivery] ([src/delivery.py]) *)

Module Delivery_actions.
Section methods.
Context `{Platform}.

(** The keys of the selection [STATUS], which the code compares with
    string literals. *)
Definition status_key (s : logistic_delivery.STATUS) : string :=
  match s with
  | logistic_delivery.scheduled => "scheduled"
  | logistic_delivery.loaded => "loaded"
  | logistic_delivery.in_transit => "in_transit"
  | logistic_delivery.fulfilled => "fulfilled"
  | logistic_delivery.cancelled => "cancelled"
  end.

Definition _set_slots_cancelled (delivery : Z) : M unit :=
  slot_ids <- gets (λ st, slot_ids st delivery) ;;
  for_each slot_ids (λ slot, Slot.cancel_action [slot]).

(** [set_all_slots_cancelled]: the loop on the scheduled slots cancels
    every slot of the delivery at each turn. *)
Definition set_all_slots_cancelled (self : list Z) : M unit :=
  for_each self (λ delivery,
    d <- read_delivery delivery ;;
    if bool_decide (logistic_delivery.status d ∉ Delivery.VALID_STATUSES_SLOT_STATUS_CHANGE) then
      slots <- gets (λ st, slot_records st delivery) ;;
      match filter (λ slot, logistic_slot.status slot = logistic_slot.scheduled) slots with
      | [] => raise (UserError "No Scheduled Slots!")
      | scheduled_slots =>
          for_each scheduled_slots (λ slot,
            _set_slots_cancelled delivery ;;;
            message_post "logistic.delivery" [delivery])
      end
    else
      raise (UserError "A delivery must be at least in transit if you want to Cancel a slot!")).

Definition reset_to_scheduled (self : list Z) : M unit :=
  for_each self (λ delivery,
    _ <- read_delivery delivery ;;
    slots <- gets (λ st,
      filter (λ slot, logistic_slot.status slot = logistic_slot.delivered
                      ∨ logistic_slot.status slot = logistic_slot.returned)
        (slot_records st delivery)) ;;
    match slots with
    | _ :: _ =>
        raise (UserError "Cannot reset to scheduled because there are slots in that are delivered/returned status")
    | [] =>
        slot_ids <- gets (λ st, slot_ids st delivery) ;;
        for_each slot_ids (λ slot,
          write_slots [slot] (logistic_slot.with_status logistic_slot.scheduled)) ;;;
        write_deliveries [delivery] (logistic_delivery.with_status logistic_delivery.scheduled)
    end).

(** [set_loaded]: the assignment of the status is after the loop, on
    [self]. *)
Definition set_loaded (self : list Z) : M unit :=
  for_each self (λ delivery,
    d <- read_delivery delivery ;;
    match logistic_delivery.vehicle_id d with
    | None => raise (UserError "Please select vehicle")
    | Some _ =>
        sale_order_ids <- gets (λ st, Delivery_fields._compute_sale_order_ids st delivery) ;;
        for_each sale_order_ids (λ sale_order,
          pickings <- gets (λ st,
            filter (λ picking, stock_picking.location_dest_usage picking = stock_picking.transit)
              (picking_ids st sale_order)) ;;
          for_each pickings (λ picking,
            if negb (stock_picking.done picking) then
              raise (UserError "Please validate  all the transfers with destination 'Transit' before setting the delivery as loaded")
            else ret tt))
    end) ;;;
  write_deliveries self (logistic_delivery.with_status logistic_delivery.loaded).

(** [ensure_slot_status_update], called on one delivery: the names of
    the slots that are neither delivered nor returned. *)
Definition ensure_slot_status_update (self : Z) : M (list (option string)) :=
  _ <- read_delivery self ;;
  slots <- gets (λ st, slot_records st self) ;;
  ret (logistic_slot.name <$>
         filter (λ slot, logistic_slot.is_delivered slot = false
                         ∧ logistic_slot.is_returned slot = false) slots).

(** [_is_sale_order_fulfilled]; [order.logistic_delivery_ids] is a field
    that the sale order gets outside the repository, taken as the
    recordset [logistic_delivery_ids]. *)
Definition _is_sale_order_fulfilled (order : Z) (logistic_delivery_ids : list Z) : M bool :=
  pickings <- gets (λ st,
    filter (λ picking, stock_picking.location_dest_usage picking = stock_picking.customer)
      (picking_ids st order)) ;;
  not_done <- for_each_ret pickings (λ picking,
    if negb (stock_picking.done picking) then ret (Some false) else ret None) ;;
  match not_done with
  | Some b => ret b
  | None =>
      deliveries <- for_map logistic_delivery_ids read_delivery ;;
      ret (bool_decide (length (filter (λ d,
             ¬ status_key (logistic_delivery.status d) = "delivered") deliveries) = 0%nat))
  end.

(** [slot.zone_id], related to [sale_order_id.zone_id]. *)
Definition slot_zone_id (st : State) (slot : logistic_slot.t) : option Z :=
  match slot_sale_order_id st slot ≫= browse sale_order.id (orders st) with
  | Some order => sale_order.zone_id order
  | None => None
  end.

(** [_compute_zone_id]: the values assigned to [zone_id] and
    [mismatched_zones]; [mapped] gives each zone once. *)
Definition _compute_zone_id (st : State) (delivery : Z) : option Z * bool :=
  let zone_ids := ordered_set [] (omap (slot_zone_id st) (slot_records st delivery)) in
  match zone_ids with
  | z :: _ =>
      if bool_decide (length (filter (λ x, x = z) zone_ids) = length zone_ids)
      then (Some z, false) else (None, true)
  | [] => (None, false)
  end.

End methods.
End Delivery_actions.

(** ** More of [class Slot] ([src/slots.py.py]) *)

Module Slot_scheduling.
Section methods.
Context `{Platform}.

(** What [create_delivery] returns: the new delivery, or [str(e)]. *)
Inductive delivery_or_text :=
| DeliveryRecs (delivery_id : list Z)
| DeliveryText (e : exn).

Definition create_delivery (order : Z) : M delivery_or_text :=
  try_except
    (o <- read_order order ;;
     delivery_id <- Delivery.create (ADict (<["date" := int_value (sale_order.delivery_date o)]> ∅)) ;;
     ret (DeliveryRecs delivery_id))
    (λ e, ret (DeliveryText e)).

(** [assign_slot_delivery]: [delivery_id.slot_ids += slot_id] writes the
    [delivery_id] of the slot once more. *)
Definition assign_slot_delivery (delivery_id : Z) (slot_ids : list Z) : M bool :=
  for_each slot_ids (λ slot_id,
    write_slots [slot_id] (logistic_slot.with_delivery_id (Some delivery_id)) ;;;
    _ <- read_delivery delivery_id ;;
    write_slots [slot_id] (logistic_slot.with_delivery_id (Some delivery_id))) ;;;
  ret true.

(** What [schedule] returns: True, or the exception it caught, which is
    an AttributeError when a text is used as a record. *)
Inductive caught :=
| Exn (e : exn)
| AttributeError.

Inductive schedule_result :=
| Scheduled
| Failed (e : caught).

(** [schedule]; the texts of the exceptions are not empty, so the loop
    of [assign_slot_delivery] on a text fails on its first character. *)
Definition schedule (order : Z) : M schedule_result :=
  delivery_id <- create_delivery order ;;
  match delivery_id with
  | DeliveryText _ => ret (Failed AttributeError)
  | DeliveryRecs [delivery] =>
      try_except
        (d <- read_delivery delivery ;;
         slot_ids <- Slot.create_slots order (logistic_delivery.date d) ;;
         match slot_ids with
         | Slot.SlotIds slot_ids => assign_slot_delivery delivery slot_ids ;;; ret Scheduled
         | Slot.ErrorText _ => ret (Failed AttributeError)
         end)
        (λ e, ret (Failed (Exn e)))
  | DeliveryRecs _ => ret (Failed (Exn (ValueError "Expected singleton")))
  end.

End methods.
End Slot_scheduling.

(** ** The vocabulary of the theorems

    The sums, invariants and conditions that the specification speaks
    of, written from its words to be compared with the code above, and
    the closed forms of what single calls write. *)

Section specification.
Context `{Platform}.

(** The sum of [total_volume] over the slots of [l] that satisfy [p],
    added from left to right to [acc]. *)
Fixpoint sum_of_volumes (st : State) (p : logistic_slot.t → bool) (acc : float)
    (l : list logistic_slot.t) : float :=
  match l with
  | [] => acc
  | slot :: l' =>
      sum_of_volumes st p (if p slot then f_add acc (slot_total_volume st slot) else acc) l'
  end.

Definition not_cancelled (slot : logistic_slot.t) : bool :=
  negb (bool_decide (logistic_slot.status slot = logistic_slot.cancelled)).

(** The slot row with that id in a state. *)
Definition slot_row (st : State) (slot : Z) : option logistic_slot.t :=
  browse logistic_slot.id (slots st) slot.

Definition delivery_row (st : State) (delivery : Z) : option logistic_delivery.t :=
  browse logistic_delivery.id (deliveries st) delivery.

(** The invariant of a slot as the specification states it: each flag is
    set exactly when the status has its value. *)
Definition flags_match (slot : logistic_slot.t) : bool :=
  eqb (logistic_slot.is_delivered slot) (bool_decide (logistic_slot.status slot = logistic_slot.delivered))
  && eqb (logistic_slot.is_returned slot) (bool_decide (logistic_slot.status slot = logistic_slot.returned)).

(** The invariant that the code keeps: a status has its flag set. *)
Definition flags_follow (slot : logistic_slot.t) : bool :=
  implb (bool_decide (logistic_slot.status slot = logistic_slot.delivered)) (logistic_slot.is_delivered slot)
  && implb (bool_decide (logistic_slot.status slot = logistic_slot.returned)) (logistic_slot.is_returned slot).

(** A method on slots keeps an invariant of the rows of the slot table,
    whether it returns or raises. *)
Definition keeps_slot_invariant (inv : logistic_slot.t → bool) (method : list Z → M unit) : Prop :=
  ∀ (st : State) (self : list Z),
    forallb inv (slots st) = true → forallb inv (slots (method self st).1) = true.

(** [slot.set_delivered()] on a row, at time [t]. *)
Definition delivered_at (t : Z) (slot : logistic_slot.t) : logistic_slot.t :=
  logistic_slot.with_date_delivered (Some t)
    (logistic_slot.with_status logistic_slot.delivered (logistic_slot.with_is_delivered true slot)).

(** [set_all_slots_delivered] as the specification states it: a slot of
    the delivery that is not scheduled is left as it is. *)
Definition delivers_scheduled_slots_only (st : State) (delivery : Z) : Prop :=
  ∀ slot r, slot ∈ slot_ids st delivery → slot_row st slot = Some r →
    logistic_slot.status r ≠ logistic_slot.scheduled →
    slot_row (Delivery.set_all_slots_delivered [delivery] st).1 slot = Some r.

(** A sale order of a slot of the delivery has a validated (done)
    transfer to a transit or customer location. *)
Definition has_validated_transfer (st : State) (delivery : Z) : Prop :=
  ∃ slot order picking,
    slot ∈ slot_records st delivery ∧ slot_sale_order_id st slot = Some order ∧
    picking ∈ pickings st ∧ stock_picking.sale_id picking = Some order ∧
    stock_picking.done picking = true ∧
    stock_picking.location_dest_usage picking ∈ [stock_picking.transit; stock_picking.customer].

(** A slot that [Slot.cancel_action] refuses. *)
Definition delivered_or_returned (slot : logistic_slot.t) : Prop :=
  logistic_slot.status slot ∈ [logistic_slot.delivered; logistic_slot.returned].

(** What [Slot.cancel_action] writes on the rows of a slot whose row
    read [r]. *)
Definition cancelled_row (r : logistic_slot.t) (row : logistic_slot.t) : logistic_slot.t :=
  match logistic_slot.fsm_id r with
  | Some task =>
      logistic_slot.with_fsm_id (cancelled_stage task)
        (logistic_slot.with_status logistic_slot.cancelled row)
  | None => logistic_slot.with_status logistic_slot.cancelled row
  end.

(** What [change_delivery] does with a slot that fits. *)
Definition moved_to (delivery_id slot : Z) (st : State) : State :=
  on_chatter (λ log, log ++ [("logistic.slot", slot)])
    (on_slots (write_all logistic_slot.id [slot]
       (logistic_slot.with_delivery_id (Some delivery_id))) st).

(** The name that [next_by_code] returns in a state, and the state after. *)
Definition name_of_sequence (code : string) (st : State) : option string :=
  seq_render code <$> sequences st !! code.

Definition bump_sequence (code : string) (st : State) : State :=
  match sequences st !! code with
  | Some n => on_sequences (<[code := S n]>) st
  | None => st
  end.

(** At most one status record for a zone and a date. *)
Definition status_unique (st : State) : Prop :=
  ∀ zone date, (length (search_zone_status st zone date) ≤ 1)%nat.

(** The slot is registered in a status record of that zone and date. *)
Definition registered_in (st : State) (zone date : option Z) (slot : logistic_slot.t) : Prop :=
  ∃ row, row ∈ zone_statuses st ∧
    logistic_slot.zone_status_id slot = Some (logistic_zone_status.id row) ∧
    logistic_zone_status.zone_id row = zone ∧ logistic_zone_status.date row = date.


(** Two rows of the same slot, on the same delivery and order line. *)
Definition same_slot (r r' : logistic_slot.t) : Prop :=
  logistic_slot.id r' = logistic_slot.id r ∧
  logistic_slot.delivery_id r' = logistic_slot.delivery_id r ∧
  logistic_slot.sale_order_line_id r' = logistic_slot.sale_order_line_id r.

(** The sale order of every slot of the delivery is in the database. *)
Definition orders_of_slots_exist (st : State) (delivery : Z) : Prop :=
  ∀ slot r order, slot ∈ slot_ids st delivery → slot_row st slot = Some r →
    slot_sale_order_id st r = Some order → is_Some (browse sale_order.id (orders st) order).

(** The state and the result of a call satisfy [Q]. *)
Definition wp {A} (m : M A) (st : State) (Q : State → result A → Prop) : Prop :=
  Q (m st).1 (m st).2.

End specification.

(** ** A platform to run the model on

    Volumes in whole units, uuids numbered in the order they are drawn. *)

Definition demo_platform : Platform := {|
  float := Z;
  f_zero := 0;
  f_add := Z.add;
  f_sub := Z.sub;
  f_gt := Z.gtb;
  f_le := Z.leb;
  uuid4_at := N.of_nat;
  seq_render := λ code n, code +:+ "/" +:+ pretty n;
  cancelled_stage := λ _, None
|}.

Definition demo_slot (i : Z) (delivery line : option Z) (s : logistic_slot.STATUS) : logistic_slot.t :=
  logistic_slot.mk i None None None None delivery line None
    (bool_decide (s = logistic_slot.delivered)) (bool_decide (s = logistic_slot.returned))
    s None None None.

Definition demo_delivery (i : Z) (vehicle : option Z) (s : logistic_delivery.STATUS) : logistic_delivery.t :=
  logistic_delivery.mk i None None vehicle (Some 20000) s None.

(** Two deliveries, the first in transit with a scheduled and a cancelled
    slot, the second scheduled and empty, on a vehicle of capacity 10. *)
Definition demo_state : @State demo_platform :=
  mkState demo_platform
    [demo_slot 1 (Some 1) (Some 1) logistic_slot.scheduled;
     demo_slot 2 (Some 1) (Some 2) logistic_slot.cancelled]
    [demo_delivery 1 (Some 1) logistic_delivery.in_transit;
     demo_delivery 2 (Some 1) logistic_delivery.scheduled]
    []
    []
    [fleet_vehicle.mk demo_platform 1 10]
    [sale_order_line.mk demo_platform 1 (Some 1) None 3;
     sale_order_line.mk demo_platform 2 (Some 1) None 4]
    [sale_order.mk 1 (Some 1) None None]
    []
    {["logistic.slot.code" := 0%nat; "logistic.delivery.code" := 0%nat]}
    0%nat
    []
    (20000 * 86400).

(** Two cancelled deliveries, the first with a cancelled slot. *)
Definition unlink_state : @State demo_platform :=
  mkState demo_platform
    [demo_slot 1 (Some 1) None logistic_slot.cancelled]
    [demo_delivery 1 None logistic_delivery.cancelled;
     demo_delivery 2 None logistic_delivery.cancelled]
    [] [] [] [] [] [] ∅ 0%nat [] 0.

(** The first database with the first delivery scheduled. *)
Definition scheduled_state : @State demo_platform :=
  on_deliveries (write_all logistic_delivery.id [1]
    (logistic_delivery.with_status logistic_delivery.scheduled)) demo_state.

(** The first database with the second delivery fulfilled. *)
Definition fulfilled_state : @State demo_platform :=
  on_deliveries (write_all logistic_delivery.id [2]
    (logistic_delivery.with_status logistic_delivery.fulfilled)) demo_state.


(** The first database with two status records for zone 1 and no date. *)
Definition twin_status_state : @State demo_platform :=
  on_zone_statuses (λ _, [logistic_zone_status.mk 1 (Some 1) None;
                          logistic_zone_status.mk 2 (Some 1) None]) demo_state.

(** ** The vocabulary of the further theorems *)

Section more_vocabulary.
Context `{Platform}.

(** [Slot.reset_to_scheduled] accepts the slot: it has no delivery, or
    its delivery is scheduled. *)
Definition reset_allowed (st : State) (slot : Z) : Prop :=
  ∃ r, slot_row st slot = Some r ∧
    (logistic_slot.delivery_id r = None
     ∨ ∃ d dr, logistic_slot.delivery_id r = Some d ∧ delivery_row st d = Some dr ∧
         logistic_delivery.status dr = logistic_delivery.scheduled).

(** [Slot.reset_to_scheduled] refuses the slot: its delivery is not
    scheduled. *)
Definition reset_blocked (st : State) (slot : Z) : Prop :=
  ∃ r d dr, slot_row st slot = Some r ∧ logistic_slot.delivery_id r = Some d ∧
    delivery_row st d = Some dr ∧
    logistic_delivery.status dr ≠ logistic_delivery.scheduled.

End more_vocabulary.

Section more_vocabulary_2.
Context `{Platform}.

(** A sale order of the delivery has a transfer to a transit location
    that is not validated. *)
Definition has_open_transit_transfer (st : State) (delivery : Z) : Prop :=
  ∃ order picking,
    order ∈ Delivery_fields._compute_sale_order_ids st delivery ∧
    picking ∈ picking_ids st order ∧
    stock_picking.location_dest_usage picking = stock_picking.transit ∧
    stock_picking.done picking = false.

(** The zones of the slots of a delivery. *)
Definition zone_of_delivery (st : State) (delivery : Z) (zone : Z) : Prop :=
  ∃ slot, slot ∈ slot_records st delivery ∧ Delivery_actions.slot_zone_id st slot = Some zone.

End more_vocabulary_2.

Section more_vocabulary_3.
Context `{Platform}.

(** A row of a slot after some slots were cancelled: the same slot, as
    it was or cancelled. *)
Definition kept_or_cancelled (r r' : logistic_slot.t) : Prop :=
  same_slot r r' ∧ (r' = r ∨ logistic_slot.status r' = logistic_slot.cancelled).

(** No slot of the delivery is delivered or returned. *)
Definition cancellable_slots (st : State) (delivery : Z) : Prop :=
  ∀ slot r, slot ∈ slot_ids st delivery → slot_row st slot = Some r →
    ¬ delivered_or_returned r.

End more_vocabulary_3.

Section more_vocabulary_4.
Context `{Platform}.

(** The delivery of every slot is in the database: [delivery_id] is a
    reference that the database keeps. *)
Definition deliveries_of_slots_exist (st : State) : Prop :=
  ∀ r d, r ∈ slots st → logistic_slot.delivery_id r = Some d → is_Some (delivery_row st d).

(** The dictionary has a date before today. *)
Definition past_date (st : State) (d : gmap string value) : Prop :=
  ∃ date, get_int d "date" = Some date ∧ date < now st `div` 86400.

(** The row that [Delivery.create] makes of a dictionary, and the
    database with it. *)
Definition created_delivery (st : State) (d : gmap string value) : logistic_delivery.t :=
  delivery_of_values (fresh_id logistic_delivery.id (deliveries st))
    (<["name" := text_value (name_of_sequence "logistic.delivery.code" st)]>
       (<["guid" := VUuid (uuid4_at (uuid_draws st))]> d)).

Definition with_created_delivery (st : State) (d : gmap string value) : State :=
  on_deliveries (λ tbl, tbl ++ [created_delivery st d])
    (bump_sequence "logistic.delivery.code" (on_uuid_draws S st)).

End more_vocabulary_4.

(** * Theorems *)

Section monad_facts.
Context `{Platform}.

Lemma py_sum_from (st : State) (P : logistic_slot.t → Prop) `{!∀ x, Decision (P x)}
    (p : logistic_slot.t → bool) (l : list logistic_slot.t) (acc : float) :
  (∀ x, P x ↔ p x = true) →
  foldl f_add acc (slot_total_volume st <$> filter P l) = sum_of_volumes st p acc l.
Proof.
  intros HP. revert acc. induction l as [|slot l IH]; intros acc; simpl; [done|].
  rewrite filter_cons. destruct (p slot) eqn:Hp.
  - rewrite decide_True by (by apply HP). simpl. apply IH.
  - rewrite decide_False by (rewrite HP, Hp; done). apply IH.
Qed.

End monad_facts.

Section volumes.
Context `{Platform}.

(** C7.  The computed fields of a delivery: [total_volume] is the sum of
    [total_volume] over its slots that are not cancelled, [delivered_volume]
    the sum over its slots with [is_delivered] set, and [remaining_volume]
    their difference. *)
Theorem computed_volumes (st : State) (record : Z) :
  Delivery_fields._compute_total_volume st record
    = sum_of_volumes st not_cancelled f_zero (slot_records st record) ∧
  Delivery_fields._compute_delivered_volume st record
    = sum_of_volumes st logistic_slot.is_delivered f_zero (slot_records st record) ∧
  Delivery_fields._compute_remaining_volume st record
    = f_sub (sum_of_volumes st not_cancelled f_zero (slot_records st record))
            (sum_of_volumes st logistic_slot.is_delivered f_zero (slot_records st record)).
Proof.
  assert (Ht : Delivery_fields._compute_total_volume st record
    = sum_of_volumes st not_cancelled f_zero (slot_records st record)).
  { apply py_sum_from. intros x. unfold not_cancelled.
    rewrite negb_true_iff, bool_decide_eq_false. done. }
  assert (Hd : Delivery_fields._compute_delivered_volume st record
    = sum_of_volumes st logistic_slot.is_delivered f_zero (slot_records st record)).
  { apply py_sum_from. done. }
  split; [done|]. split; [done|].
  unfold Delivery_fields._compute_remaining_volume. by rewrite Ht, Hd.
Qed.

(** C1.  On a delivery without vehicle [ensure_fits] returns True; with a
    vehicle it returns whether [total_volume] is not greater than the
    vehicle's [total_capacity], which is whether it is at most the
    capacity as soon as [<=] and [>] are opposite on these two numbers
    (they are unless one is not a number); [onchange_vehicle_id] raises
    UserError exactly when [ensure_fits] returns False, and changes
    nothing. *)
Theorem ensure_fits_onchange_vehicle_id (st : State) (delivery : Z) (d : logistic_delivery.t) :
  delivery_row st delivery = Some d →
  (logistic_delivery.vehicle_id d = None →
     Delivery.ensure_fits [delivery] st = (st, Ok (Some true))) ∧
  (∀ v, logistic_delivery.vehicle_id d = Some v →
     let total_volume := Delivery_fields._compute_total_volume st delivery in
     let total_capacity := vehicle_total_capacity st (Some v) in
     Delivery.ensure_fits [delivery] st
     = (st, Ok (Some (negb (f_gt total_volume total_capacity)))) ∧
     (f_le total_volume total_capacity = negb (f_gt total_volume total_capacity) →
      Delivery.ensure_fits [delivery] st
      = (st, Ok (Some (f_le total_volume total_capacity))))) ∧
  (is_UserError (Delivery.onchange_vehicle_id [delivery] st).2
     ↔ (Delivery.ensure_fits [delivery] st).2 = Ok (Some false)) ∧
  (Delivery.onchange_vehicle_id [delivery] st).1 = st ∧
  (¬ is_UserError (Delivery.onchange_vehicle_id [delivery] st).2 →
     Delivery.onchange_vehicle_id [delivery] st = (st, Ok tt)).
Proof.
  intros Hd. unfold delivery_row in Hd.
  unfold Delivery.onchange_vehicle_id, Delivery.ensure_fits, for_each_ret, bind, read_delivery, read, gets, ret, raise.
  rewrite Hd. destruct (logistic_delivery.vehicle_id d) as [v|]; simpl.
  - destruct (f_gt _ _) eqn:Hgt; simpl.
    + split; [done|]. split; [|naive_solver].
      intros v' [= <-]. rewrite Hgt. split; [done|]. by intros ->.
    + split; [done|]. split; [|naive_solver].
      intros v' [= <-]. rewrite Hgt. split; [done|]. by intros ->.
  - naive_solver.
Qed.
End volumes.

(** ** Facts on tables *)

Section table_facts.
Context {R : Type} (key : R → Z).
Implicit Types (tbl : list R) (ids : list Z).

Lemma browse_Some tbl i r : browse key tbl i = Some r → key r = i ∧ r ∈ tbl.
Proof.
  unfold browse. intros Hf. apply find_some in Hf as [Hin Hk].
  apply bool_decide_eq_true in Hk. by rewrite <- list_elem_of_In in Hin.
Qed.

Lemma browse_elem tbl r : r ∈ tbl → is_Some (browse key tbl (key r)).
Proof.
  induction 1 as [r tbl|r r' tbl _ IH]; unfold browse; simpl.
  - rewrite bool_decide_eq_true_2 by done. eauto.
  - destruct (bool_decide _); eauto.
Qed.

Lemma browse_write_all ids f tbl i :
  (∀ r, key (f r) = key r) →
  browse key (write_all key ids f tbl) i
  = (λ r, if bool_decide (i ∈ ids) then f r else r) <$> browse key tbl i.
Proof.
  intros Hkey. unfold browse, write_all.
  induction tbl as [|r tbl IH]; simpl; [done|].
  assert (key (if bool_decide (key r ∈ ids) then f r else r) = key r) as ->
    by (destruct (bool_decide (key r ∈ ids)); auto).
  destruct (bool_decide (key r = i)) eqn:Hk; [|done].
  apply bool_decide_eq_true in Hk. by rewrite Hk.
Qed.

Lemma write_all_compose ids f g tbl :
  (∀ r, key (g r) = key r) →
  write_all key ids f (write_all key ids g tbl) = write_all key ids (f ∘ g) tbl.
Proof.
  intros Hkey. unfold write_all. rewrite <- list_fmap_compose.
  apply list_fmap_ext. intros _ r _. simpl.
  destruct (bool_decide (key r ∈ ids)) eqn:Hin; [|by rewrite Hin].
  by rewrite Hkey, Hin.
Qed.

Lemma write_all_nil f tbl : write_all key [] f tbl = tbl.
Proof.
  unfold write_all. rewrite <- (list_fmap_id tbl) at 2.
  apply list_fmap_ext. intros _ r _. by rewrite bool_decide_eq_false_2 by apply not_elem_of_nil.
Qed.

(** Writing the same idempotent change on two recordsets in turn. *)
Lemma write_all_app ids1 ids2 f tbl :
  (∀ r, key (f r) = key r) → (∀ r, f (f r) = f r) →
  write_all key ids2 f (write_all key ids1 f tbl) = write_all key (ids1 ++ ids2) f tbl.
Proof.
  intros Hkey Hidem. unfold write_all. rewrite <- list_fmap_compose.
  apply list_fmap_ext. intros _ r _. simpl.
  destruct (decide (key r ∈ ids1)) as [H1|H1], (decide (key r ∈ ids2)) as [H2|H2];
    rewrite ?Hkey, ?(bool_decide_eq_true_2 _ H1), ?(bool_decide_eq_false_2 _ H1),
            ?(bool_decide_eq_true_2 _ H2), ?(bool_decide_eq_false_2 _ H2), ?Hkey,
            ?(bool_decide_eq_true_2 _ H2), ?(bool_decide_eq_false_2 _ H2);
    try rewrite Hidem.
  - rewrite bool_decide_eq_true_2; [done|]. apply elem_of_app; auto.
  - rewrite bool_decide_eq_true_2; [done|]. apply elem_of_app; auto.
  - rewrite bool_decide_eq_true_2; [done|]. apply elem_of_app; auto.
  - rewrite bool_decide_eq_false_2; [done|]. rewrite elem_of_app. tauto.
Qed.

Lemma forallb_write_all (inv : R → bool) ids f tbl :
  (∀ r, inv r = true → inv (f r) = true) →
  forallb inv tbl = true → forallb inv (write_all key ids f tbl) = true.
Proof.
  intros Hf. unfold write_all. induction tbl as [|r tbl IH]; simpl; [done|].
  rewrite !andb_true_iff. intros [Hr Htbl]. split; [|auto].
  destruct (bool_decide _); auto.
Qed.

Lemma fresh_id_above tbl r : r ∈ tbl → key r < fresh_id key tbl.
Proof.
  induction 1 as [r tbl|r r' tbl _ IH]; simpl; lia.
Qed.

Lemma browse_fresh_id tbl : browse key tbl (fresh_id key tbl) = None.
Proof.
  destruct (browse key tbl (fresh_id key tbl)) as [r|] eqn:Hb; [|done].
  apply browse_Some in Hb as [Hk Hin]. apply fresh_id_above in Hin. lia.
Qed.

Lemma browse_app tbl tbl' i :
  browse key (tbl ++ tbl') i
  = match browse key tbl i with Some r => Some r | None => browse key tbl' i end.
Proof.
  unfold browse. induction tbl as [|r tbl IH]; simpl; [done|].
  by destruct (bool_decide (key r = i)).
Qed.

End table_facts.

(** ** Reasoning on method calls *)

Section wp.
Context `{Platform}.

Lemma wp_bind {A B} (m : M A) (k : A → M B) st Q :
  wp m st (λ st' r, match r with Ok a => wp (k a) st' Q | Raise e => Q st' (Raise e) end) →
  wp (bind m k) st Q.
Proof. unfold wp, bind. by destruct (m st) as [st' [a|e]]. Qed.

Lemma wp_mono {A} (m : M A) st (Q Q' : State → result A → Prop) :
  wp m st Q → (∀ st' r, Q st' r → Q' st' r) → wp m st Q'.
Proof. unfold wp. auto. Qed.

(** A loop with an invariant [I] on the elements done so far; a raise
    in the body ends the loop in [E]. *)
Lemma wp_for_each {A} (I : list A → State → Prop) (E : State → exn → Prop)
    (l : list A) (body : A → M unit) st :
  I [] st →
  (∀ done x rest st', l = done ++ x :: rest → I done st' →
     wp (body x) st' (λ st'' r, match r with Ok _ => I (done ++ [x]) st'' | Raise e => E st'' e end)) →
  wp (for_each l body) st (λ st' r, match r with Ok _ => I l st' | Raise e => E st' e end).
Proof.
  intros HI Hbody.
  cut (∀ done rest st', l = done ++ rest → I done st' →
         wp (for_each rest body) st'
           (λ st'' r, match r with Ok _ => I l st'' | Raise e => E st'' e end)).
  { intros Hgen. by apply (Hgen [] l st). }
  intros done rest. revert done. induction rest as [|x rest IH]; intros done st' Hl Hd.
  - rewrite app_nil_r in Hl. subst. done.
  - simpl. apply wp_bind. eapply wp_mono; [by eapply Hbody|].
    intros st'' [[]|e]; [|done]. intros Hx. apply (IH (done ++ [x])); [|done].
    by rewrite <- app_assoc.
Qed.

(** The same for a state invariant that does not look at the progress. *)
Lemma for_each_keeps {A} (I : State → Prop) (l : list A) (body : A → M unit) st :
  I st → (∀ x st', I st' → I (body x st').1) → I (for_each l body st).1.
Proof.
  intros HI Hbody.
  pose proof (wp_for_each (λ _, I) (λ st' _, I st') l body st HI) as Hwp.
  unfold wp in Hwp. destruct (for_each l body st) as [st' [[]|e]] eqn:Hrun; simpl in *.
  - apply Hwp. intros done x rest st'' _ Hst''. specialize (Hbody x st'' Hst'').
    by destruct (body x st'') as [? [[]|?]].
  - apply Hwp. intros done x rest st'' _ Hst''. specialize (Hbody x st'' Hst'').
    by destruct (body x st'') as [? [[]|?]].
Qed.

(** One step of a call, for rewriting. *)
Lemma bind_run {A B} (m : M A) (k : A → M B) st :
  bind m k st = match m st with
                | (st', Ok a) => k a st'
                | (st', Raise e) => (st', Raise e)
                end.
Proof. done. Qed.

Lemma ret_run {A} (a : A) st : ret a st = (st, Ok a).
Proof. done. Qed.

Lemma raise_run {A} e st : raise (A:=A) e st = (st, Raise e).
Proof. done. Qed.

Lemma gets_run {A} (f : State → A) st : gets f st = (st, Ok (f st)).
Proof. done. Qed.

Lemma modify_run f st : modify f st = (f st, Ok tt).
Proof. done. Qed.

Lemma read_run {R} (key : R → Z) (tbl : State → list R) i st :
  read key tbl i st = match browse key (tbl st) i with
                      | Some r => (st, Ok r)
                      | None => (st, Raise MissingError)
                      end.
Proof. done. Qed.

End wp.

Ltac run :=
  repeat first
    [ rewrite bind_run | rewrite ret_run | rewrite raise_run | rewrite gets_run
    | rewrite modify_run | rewrite read_run | progress cbv beta iota ].

(** The fields of an updated state. *)
Ltac fields :=
  unfold on_slots, on_deliveries, on_clusters, on_zone_statuses, on_orders,
    on_sequences, on_uuid_draws, on_chatter;
  cbn [slots deliveries clusters zone_statuses vehicles lines orders pickings
       sequences uuid_draws chatter now].

(** ** Slots: flags and status *)

Section slot_flags.
Context `{Platform}.

Lemma set_delivered_run (self : list Z) (st : State) :
  Slot.set_delivered self st
  = (on_slots (write_all logistic_slot.id self (delivered_at (now st))) st, Ok tt).
Proof.
  unfold Slot.set_delivered, write_slots, datetime_now, bind, modify, gets, on_slots. simpl.
  rewrite !write_all_compose by done. done.
Qed.

Lemma set_returned_slots (self : list Z) (st : State) :
  slots (Slot.set_returned_driver_portal self st).1
  = write_all logistic_slot.id self
      (logistic_slot.with_status logistic_slot.returned ∘ logistic_slot.with_is_returned true)
      (slots st).
Proof.
  unfold Slot.set_returned_driver_portal, write_slots, message_post, bind, modify, raise.
  destruct self as [|i [|j self]]; simpl; by rewrite write_all_compose.
Qed.

Lemma cancel_action_keeps (st : State) (self : list Z) :
  forallb flags_follow (slots st) = true →
  forallb flags_follow (slots (Slot.cancel_action self st).1) = true.
Proof.
  intros Hst. unfold Slot.cancel_action.
  apply (for_each_keeps (λ st, forallb flags_follow (slots st) = true)); [done|].
  clear st Hst. intros slot st Hst.
  unfold bind, read_slot, read, raise, write_slots, modify, ret.
  destruct (browse _ _ _) as [r|]; simpl; [|done].
  destruct (bool_decide _); simpl; [done|].
  destruct (logistic_slot.fsm_id r); simpl;
    repeat apply forallb_write_all; try done; by intros [].
Qed.

Lemma reset_to_scheduled_keeps (st : State) (self : list Z) :
  forallb flags_follow (slots st) = true →
  forallb flags_follow (slots (Slot.reset_to_scheduled self st).1) = true.
Proof.
  intros Hst. unfold Slot.reset_to_scheduled, bind.
  match goal with |- context [for_each self ?b st] =>
    pose proof (for_each_keeps (λ st, forallb flags_follow (slots st) = true) self b st Hst) as Hloop;
    destruct (for_each self b st) as [st' [[]|e]]
  end; simpl in *.
  - assert (Hst' : forallb flags_follow (slots st') = true).
    { apply Hloop. clear. intros slot st Hst.
      unfold bind, read_slot, read_delivery, read, raise, ret.
      destruct (browse _ _ _) as [r|]; simpl; [|done].
      destruct (logistic_slot.delivery_id r); simpl; [|done].
      destruct (browse _ _ _) as [d|]; simpl; [|done].
      by destruct (bool_decide _). }
    unfold loop_variable. destruct (last self); simpl; [|done].
    apply forallb_write_all; [|done]. by intros [].
  - apply Hloop. clear. intros slot st Hst.
    unfold bind, read_slot, read_delivery, read, raise, ret.
    destruct (browse _ _ _) as [r|]; simpl; [|done].
    destruct (logistic_slot.delivery_id r); simpl; [|done].
    destruct (browse _ _ _) as [d|]; simpl; [|done].
    by destruct (bool_decide _).
Qed.

(** C8, amended.  A new slot is scheduled with both flags unset, and
    [set_delivered], [set_returned_driver_portal], [cancel_action] and
    [reset_to_scheduled] keep, on every slot and whether they return or
    raise, that a delivered slot has [is_delivered] set and a returned slot
    has [is_returned] set. *)
Theorem slot_flags_follow_status :
  (∀ i values, flags_match (slot_of_values i values) = true
               ∧ flags_follow (slot_of_values i values) = true) ∧
  keeps_slot_invariant flags_follow Slot.set_delivered ∧
  keeps_slot_invariant flags_follow Slot.set_returned_driver_portal ∧
  keeps_slot_invariant flags_follow Slot.cancel_action ∧
  keeps_slot_invariant flags_follow Slot.reset_to_scheduled.
Proof.
  split; [done|]. repeat split; intros st self Hst.
  - rewrite set_delivered_run. simpl. apply forallb_write_all; [|done]. by intros [].
  - rewrite set_returned_slots. apply forallb_write_all; [|done].
    by intros [].
  - by apply cancel_action_keeps.
  - by apply reset_to_scheduled_keeps.
Qed.

End slot_flags.

(** ** Delivering the slots of a delivery *)

Section deliver_slots.
Context `{Platform}.

Lemma set_delivered_each (st : State) (done ids : list Z) :
  for_each ids (λ slot, Slot.set_delivered [slot])
    (on_slots (write_all logistic_slot.id done (delivered_at (now st))) st)
  = (on_slots (write_all logistic_slot.id (done ++ ids) (delivered_at (now st))) st, Ok tt).
Proof.
  revert done. induction ids as [|slot ids IH]; intros done; simpl.
  - by rewrite app_nil_r.
  - unfold bind at 1. rewrite set_delivered_run. simpl.
    replace (on_slots _ (on_slots _ st))
      with (on_slots (write_all logistic_slot.id (done ++ [slot]) (delivered_at (now st))) st).
    + rewrite IH. by rewrite <- app_assoc.
    + unfold on_slots. simpl. f_equal. by rewrite write_all_app.
Qed.

Lemma _set_slots_delivered_run (st : State) (delivery : Z) :
  Delivery._set_slots_delivered delivery st
  = (on_slots (write_all logistic_slot.id (slot_ids st delivery) (delivered_at (now st))) st, Ok tt).
Proof.
  unfold Delivery._set_slots_delivered, bind, gets. simpl.
  pose proof (set_delivered_each st [] (slot_ids st delivery)) as Hrun.
  replace (on_slots (write_all logistic_slot.id [] (delivered_at (now st))) st) with st in Hrun.
  - by rewrite Hrun.
  - destruct st. unfold on_slots. simpl. by rewrite write_all_nil.
Qed.

(** C4, amended.  [set_all_slots_delivered] raises UserError on a
    delivery that is scheduled or loaded, raises UserError when no slot of
    the delivery is scheduled, and otherwise sets every slot of the
    delivery to delivered, whatever its status, and leaves the slots
    of other deliveries as they are. *)
Theorem set_all_slots_delivered_every_slot (st : State) (delivery : Z) (d : logistic_delivery.t) :
  delivery_row st delivery = Some d →
  (logistic_delivery.status d ∈ [logistic_delivery.scheduled; logistic_delivery.loaded] →
     is_UserError (Delivery.set_all_slots_delivered [delivery] st).2) ∧
  (Forall (λ r, logistic_slot.status r ≠ logistic_slot.scheduled) (slot_records st delivery) →
     is_UserError (Delivery.set_all_slots_delivered [delivery] st).2) ∧
  (logistic_delivery.status d ∉ [logistic_delivery.scheduled; logistic_delivery.loaded] →
   Exists (λ r, logistic_slot.status r = logistic_slot.scheduled) (slot_records st delivery) →
     (Delivery.set_all_slots_delivered [delivery] st).2 = Ok tt ∧
     ∀ slot r, slot_row st slot = Some r →
       slot_row (Delivery.set_all_slots_delivered [delivery] st).1 slot
       = Some (if bool_decide (slot ∈ slot_ids st delivery) then delivered_at (now st) r else r)).
Proof.
  intros Hd. unfold delivery_row in Hd.
  unfold Delivery.set_all_slots_delivered, Delivery.VALID_STATUSES_SLOT_STATUS_CHANGE.
  unfold for_each, bind, read_delivery, read, gets, raise, ret. rewrite Hd.
  split; [|split].
  - intros Hin. by rewrite bool_decide_eq_false_2 by (by intros Hn).
  - intros Hnone. destruct (bool_decide _); [|done].
    replace (filter _ (slot_records st delivery)) with (@nil logistic_slot.t); [done|].
    symmetry. induction Hnone as [|r l Hr _ IH]; [done|].
    rewrite filter_cons, decide_False by done. done.
  - intros Hvalid Hsome. rewrite bool_decide_eq_true_2 by done.
    destruct (filter _ (slot_records st delivery)) as [|r0 l0] eqn:Hf.
    { exfalso. apply Exists_exists in Hsome as (r & Hin & Hr).
      assert (r ∈ filter (λ slot, logistic_slot.status slot = logistic_slot.scheduled)
                (slot_records st delivery)) as Hin' by (by apply list_elem_of_filter).
      rewrite Hf in Hin'. by apply not_elem_of_nil in Hin'. }
    rewrite _set_slots_delivered_run. simpl.
    split; [done|]. intros slot r Hr. unfold slot_row in *. simpl.
    rewrite browse_write_all by done. by rewrite Hr.
Qed.

End deliver_slots.

(** ** Cancelling a delivery *)

Section cancel.
Context `{Platform}.

Lemma ordered_set_elem (seen l : list Z) (x : Z) :
  x ∈ ordered_set seen l ↔ x ∈ l ∧ x ∉ seen.
Proof.
  revert seen. induction l as [|y l IH]; intros seen; simpl.
  - split; [by intros ?%not_elem_of_nil|by intros [?%not_elem_of_nil _]].
  - case_bool_decide as Hy.
    + rewrite IH, elem_of_cons. split; [tauto|]. intros [[->|?] ?]; tauto.
    + rewrite !elem_of_cons, IH, elem_of_cons. split.
      * intros [->|[? ?]]; [tauto|]. split; [tauto|]. tauto.
      * intros [[->|?] ?]; [tauto|]. destruct (decide (x = y)); tauto.
Qed.

Lemma validated_pickings_nil (st : State) (order : Z) (u : stock_picking.usage) :
  Delivery.validated_pickings st order u = [] ↔
  ¬ ∃ picking, picking ∈ pickings st ∧ stock_picking.sale_id picking = Some order ∧
      stock_picking.done picking = true ∧ stock_picking.location_dest_usage picking = u.
Proof.
  unfold Delivery.validated_pickings, picking_ids. split.
  - intros Hnil (p & Hin & Hs & Hd & Hu).
    assert (p ∈ filter (λ picking, stock_picking.done picking = true
                          ∧ stock_picking.location_dest_usage picking = u)
              (filter (λ p, stock_picking.sale_id p = Some order) (pickings st))) as Hp.
    { apply list_elem_of_filter. split; [done|]. by apply list_elem_of_filter. }
    rewrite Hnil in Hp. by apply not_elem_of_nil in Hp.
  - intros Hno. destruct (filter _ _) as [|p l] eqn:Hf; [done|]. exfalso. apply Hno.
    assert (p ∈ p :: l) as Hp by apply list_elem_of_here. rewrite <- Hf in Hp.
    apply list_elem_of_filter in Hp as [[Hd Hu] Hp].
    apply list_elem_of_filter in Hp as [Hs Hp]. eauto 6.
Qed.

(** The loop of [cancel_action] on the sale orders reads only. *)
Lemma check_orders_run (st : State) (orders : list Z) :
  let out :=
    for_each orders (λ order,
      validated_pickings_vehicle <- gets (λ st, Delivery.validated_pickings st order stock_picking.transit) ;;
      validated_pickings_customer <- gets (λ st, Delivery.validated_pickings st order stock_picking.customer) ;;
      match validated_pickings_vehicle, validated_pickings_customer with
      | [], [] => ret tt
      | _, _ => raise (UserError "Please reverse all validated  transfers cancel this delivery")
      end) st in
  out.1 = st ∧
  ((out.2 = Ok tt ∧ ∀ order, order ∈ orders →
      Delivery.validated_pickings st order stock_picking.transit = [] ∧
      Delivery.validated_pickings st order stock_picking.customer = [])
   ∨ (is_UserError out.2 ∧ ∃ order, order ∈ orders ∧
      ¬ (Delivery.validated_pickings st order stock_picking.transit = [] ∧
         Delivery.validated_pickings st order stock_picking.customer = []))).
Proof.
  cbv zeta. induction orders as [|order orders IH].
  - split; [done|]. left. split; [done|]. intros ? Hin. by apply elem_of_nil in Hin.
  - cbn [for_each]. run.
    destruct (Delivery.validated_pickings st order stock_picking.transit) eqn:Ht;
    [destruct (Delivery.validated_pickings st order stock_picking.customer) eqn:Hc|].
    + destruct IH as [Hst [[Hok Hall]|[Herr (o & Hin & Ho)]]].
      * split; [exact Hst|]. left. split; [exact Hok|].
        intros o [->|Hin]%elem_of_cons; [done|by apply Hall].
      * split; [exact Hst|]. right. split; [exact Herr|]. exists o. split; [by right|done].
    + split; [done|]. right. split; [done|]. exists order. split; [by left|].
      rewrite Ht, Hc. by intros [_ ?].
    + split; [done|]. right. split; [done|]. exists order. split; [by left|].
      rewrite Ht. by intros [? _].
Qed.

End cancel.

Section cancel_delivery.
Context `{Platform}.

Lemma cancel_one_run (st : State) (slot : Z) (r : logistic_slot.t) :
  slot_row st slot = Some r →
  Slot.cancel_action [slot] st
  = if bool_decide (delivered_or_returned r)
    then (st, Raise (UserError "Cannot cancel a slot that is delivered or returned"))
    else (on_slots (write_all logistic_slot.id [slot] (cancelled_row r)) st, Ok tt).
Proof.
  intros Hr. unfold slot_row in Hr. unfold Slot.cancel_action, read_slot, write_slots.
  cbn [for_each]. run. rewrite Hr. unfold delivered_or_returned.
  destruct (bool_decide _); run; [done|].
  unfold cancelled_row. destruct (logistic_slot.fsm_id r); run; [|done].
  fields. by rewrite write_all_compose.
Qed.

Lemma cancelled_row_status r row :
  logistic_slot.status (cancelled_row r row) = logistic_slot.cancelled.
Proof. unfold cancelled_row. by destruct (logistic_slot.fsm_id r). Qed.

Lemma cancelled_row_id r row : logistic_slot.id (cancelled_row r row) = logistic_slot.id row.
Proof. unfold cancelled_row. by destruct (logistic_slot.fsm_id r). Qed.

Lemma cancel_slots_run (st : State) (ids : list Z) :
  (∀ slot, slot ∈ ids → is_Some (slot_row st slot)) →
  wp (for_each ids (λ slot, Slot.cancel_action [slot])) st (λ st' r,
    deliveries st' = deliveries st ∧ now st' = now st ∧
    match r with
    | Ok _ =>
        (∀ slot r0, slot ∈ ids → slot_row st slot = Some r0 → ¬ delivered_or_returned r0) ∧
        (∀ slot, slot ∈ ids →
           ∃ r', slot_row st' slot = Some r' ∧ logistic_slot.status r' = logistic_slot.cancelled)
    | Raise e =>
        (∃ msg, e = UserError msg) ∧
        ∃ slot r0, slot ∈ ids ∧ slot_row st slot = Some r0 ∧ delivered_or_returned r0
    end).
Proof.
  intros Hex.
  pose (I := λ (done : list Z) (st' : State),
    deliveries st' = deliveries st ∧ now st' = now st ∧
    ∀ slot r0, slot_row st slot = Some r0 →
      ∃ r', slot_row st' slot = Some r' ∧
        (slot ∈ done → logistic_slot.status r' = logistic_slot.cancelled ∧ ¬ delivered_or_returned r0) ∧
        (slot ∉ done → r' = r0)).
  pose (E := λ (st' : State) (e : exn),
    deliveries st' = deliveries st ∧ now st' = now st ∧ (∃ msg, e = UserError msg) ∧
    ∃ slot r0, slot ∈ ids ∧ slot_row st slot = Some r0 ∧ delivered_or_returned r0).
  eapply wp_mono; [apply (wp_for_each I E)|].
  - split; [done|]. split; [done|]. intros slot r0 Hr0. exists r0.
    split; [done|]. split; [by intros ?%elem_of_nil|done].
  - intros done x rest st' Hids (Hd & Hn & Hrows).
    assert (x ∈ ids) as Hx by (rewrite Hids, elem_of_app, elem_of_cons; auto).
    destruct (Hex x Hx) as [r0 Hr0].
    destruct (Hrows x r0 Hr0) as (r' & Hr' & Hdone & Hnew).
    unfold wp. rewrite (cancel_one_run st' x r' Hr').
    case_bool_decide as Hbad; cbn [fst snd].
    + split; [done|]. split; [done|]. split; [eauto|].
      exists x, r0. split; [done|]. split; [done|].
      destruct (decide (x ∈ done)) as [Hin|Hin].
      * destruct (Hdone Hin) as [Hc _]. unfold delivered_or_returned in Hbad.
        rewrite Hc in Hbad. by repeat apply elem_of_cons in Hbad as [?|Hbad];
          try apply elem_of_nil in Hbad.
      * by rewrite <- (Hnew Hin).
    + split; [done|]. split; [done|]. intros slot s0 Hs0.
      destruct (Hrows slot s0 Hs0) as (s' & Hs' & Hsdone & Hsnew).
      unfold slot_row in *. fields.
      rewrite browse_write_all by apply cancelled_row_id. rewrite Hs'. cbn [fmap option_fmap option_map].
      destruct (decide (slot = x)) as [->|Hne].
      * rewrite bool_decide_eq_true_2 by apply list_elem_of_singleton, eq_refl.
        eexists. split; [done|]. split.
        -- intros _. split; [apply cancelled_row_status|].
           assert (s0 = r0) as -> by congruence.
           destruct (decide (x ∈ done)) as [Hin|Hin]; [by apply Hdone|].
           assert (s' = r') as -> by congruence. by rewrite <- (Hnew Hin).
        -- intros Hnot. exfalso. apply Hnot. rewrite elem_of_app, list_elem_of_singleton. auto.
      * rewrite bool_decide_eq_false_2 by (by rewrite list_elem_of_singleton).
        exists s'. split; [done|]. split.
        -- intros [Hin|Hin%list_elem_of_singleton]%elem_of_app; [auto|done].
        -- intros Hnot. apply Hsnew. intros Hin. apply Hnot, elem_of_app. auto.
  - intros st' [[]|e]; unfold I, E.
    + intros (Hd & Hn & Hrows). split; [done|]. split; [done|]. split.
      * intros slot r0 Hin Hr0. destruct (Hrows slot r0 Hr0) as (r' & _ & Hdone & _).
        by apply Hdone.
      * intros slot Hin. destruct (Hex slot Hin) as [r0 Hr0].
        destruct (Hrows slot r0 Hr0) as (r' & Hr' & Hdone & _).
        exists r'. split; [done|]. by apply Hdone.
    + tauto.
Qed.

End cancel_delivery.

Section cancel_delivery_action.
Context `{Platform}.

Lemma slot_ids_exist (st : State) (delivery slot : Z) :
  slot ∈ slot_ids st delivery → is_Some (slot_row st slot).
Proof.
  unfold slot_ids, slot_records, slot_row.
  intros (r & -> & Hr)%list_elem_of_fmap. apply list_elem_of_filter in Hr as [_ Hr].
  by apply browse_elem.
Qed.

Lemma has_validated_transfer_orders (st : State) (delivery : Z) :
  has_validated_transfer st delivery ↔
  ∃ order, order ∈ Delivery_fields._compute_sale_order_ids st delivery ∧
    ¬ (Delivery.validated_pickings st order stock_picking.transit = [] ∧
       Delivery.validated_pickings st order stock_picking.customer = []).
Proof.
  unfold has_validated_transfer, Delivery_fields._compute_sale_order_ids. split.
  - intros (slot & order & p & Hslot & Horder & Hp & Hs & Hd & Hu).
    exists order. split.
    + apply ordered_set_elem. split; [|apply not_elem_of_nil].
      apply list_elem_of_omap. eauto.
    + rewrite !validated_pickings_nil. intros [Ht Hc].
      apply elem_of_cons in Hu as [Hu|Hu]; [apply Ht; eauto 6|].
      apply list_elem_of_singleton in Hu. apply Hc; eauto 6.
  - intros (order & Hin & Hno).
    apply ordered_set_elem in Hin as [Hin _].
    apply list_elem_of_omap in Hin as (slot & Hslot & Horder).
    destruct (Delivery.validated_pickings st order stock_picking.transit) as [|p l] eqn:Ht.
    + destruct (Delivery.validated_pickings st order stock_picking.customer) as [|p l] eqn:Hc;
        [by destruct Hno|].
      assert (p ∈ Delivery.validated_pickings st order stock_picking.customer) as Hp
        by (rewrite Hc; apply list_elem_of_here).
      apply list_elem_of_filter in Hp as [[Hd Hu] Hp].
      apply list_elem_of_filter in Hp as [Hs Hp].
      exists slot, order, p. rewrite Hu. repeat split; try done.
      apply elem_of_cons. right. by apply list_elem_of_singleton.
    + assert (p ∈ Delivery.validated_pickings st order stock_picking.transit) as Hp
        by (rewrite Ht; apply list_elem_of_here).
      apply list_elem_of_filter in Hp as [[Hd Hu] Hp].
      apply list_elem_of_filter in Hp as [Hs Hp].
      exists slot, order, p. rewrite Hu. repeat split; try done.
      apply list_elem_of_here.
Qed.

(** What a call of [cancel_action] on one delivery ends in. *)
Lemma cancel_action_run (st : State) (delivery : Z) (d : logistic_delivery.t) :
  delivery_row st delivery = Some d →
  wp (Delivery.cancel_action [delivery]) st (λ st' r,
    match r with
    | Ok _ =>
        logistic_delivery.status d ≠ logistic_delivery.fulfilled ∧
        ¬ (logistic_delivery.status d ∈ [logistic_delivery.in_transit; logistic_delivery.loaded]
           ∧ has_validated_transfer st delivery) ∧
        (∀ slot r0, slot ∈ slot_ids st delivery → slot_row st slot = Some r0 →
           ¬ delivered_or_returned r0) ∧
        (∀ slot, slot ∈ slot_ids st delivery →
           ∃ r', slot_row st' slot = Some r' ∧ logistic_slot.status r' = logistic_slot.cancelled) ∧
        delivery_row st' delivery
        = Some (logistic_delivery.with_cancelled_date (Some (now st))
                  (logistic_delivery.with_status logistic_delivery.cancelled d))
    | Raise e =>
        (∃ msg, e = UserError msg) ∧ deliveries st' = deliveries st ∧
        (logistic_delivery.status d = logistic_delivery.fulfilled
         ∨ (logistic_delivery.status d ∈ [logistic_delivery.in_transit; logistic_delivery.loaded]
            ∧ has_validated_transfer st delivery)
         ∨ ∃ slot r0, slot ∈ slot_ids st delivery ∧ slot_row st slot = Some r0
                      ∧ delivered_or_returned r0)
    end).
Proof.
  intros Hd. pose proof Hd as Hd'. unfold delivery_row in Hd.
  unfold wp, Delivery.cancel_action, read_delivery, write_deliveries, datetime_now.
  cbn [for_each]. run. rewrite Hd. run.
  pose proof (check_orders_run st (Delivery_fields._compute_sale_order_ids st delivery)) as Hchk.
  cbv zeta in Hchk.
  pose proof (has_validated_transfer_orders st delivery) as Hhvt.
  pose proof (cancel_slots_run st (slot_ids st delivery) (slot_ids_exist st delivery)) as Hloop.
  unfold wp in Hloop.
  assert (Hfinal : ∀ st2 : State, deliveries st2 = deliveries st → now st2 = now st →
    delivery_row
      (on_deliveries (write_all logistic_delivery.id [delivery]
          (logistic_delivery.with_cancelled_date
             (Some (now (on_deliveries (write_all logistic_delivery.id [delivery]
                (logistic_delivery.with_status logistic_delivery.cancelled)) st2)))))
        (on_deliveries (write_all logistic_delivery.id [delivery]
            (logistic_delivery.with_status logistic_delivery.cancelled)) st2)) delivery
    = Some (logistic_delivery.with_cancelled_date (Some (now st))
              (logistic_delivery.with_status logistic_delivery.cancelled d))).
  { intros st2 Hd2 Hn2. unfold delivery_row. fields.
    rewrite !browse_write_all by done. rewrite Hd2, Hd, Hn2. cbn [fmap option_fmap option_map].
    by rewrite bool_decide_eq_true_2 by apply list_elem_of_here. }
  case_bool_decide as Hst; run.
  - destruct (for_each (Delivery_fields._compute_sale_order_ids st delivery) _ st)
      as [st1 [[]|e]]; cbn [fst snd] in Hchk; destruct Hchk as [-> Hchk]; run.
    + destruct Hchk as [[_ Hall]|[[] _]].
      case_bool_decide as Hful; run.
      { cbn [fst snd]. split; [eauto|]. split; [done|]. by left. }
      destruct (for_each (slot_ids st delivery) _ st) as [st2 [[]|e]];
        cbn [fst snd] in Hloop; destruct Hloop as (Hd2 & Hn2 & Hloop); run; cbn [fst snd].
      * destruct Hloop as [Hgood Hcan]. split; [done|]. split.
        { intros [_ (order & Hin & Hno)%Hhvt]. apply Hno. by apply Hall. }
        split; [done|]. split; [|by apply Hfinal].
        intros slot Hin. destruct (Hcan slot Hin) as (r' & Hr' & Hs). exists r'. split; [|done].
        unfold slot_row in *. by fields.
      * destruct Hloop as [Hmsg Hbad]. split; [done|]. split; [done|]. right. by right.
    + destruct Hchk as [[[=] _]|[Herr Hbad]]. cbn [fst snd].
      split; [by destruct e; eauto|]. split; [done|]. right. left. split; [done|].
      by apply Hhvt.
  - clear Hchk. case_bool_decide as Hful; run.
    { cbn [fst snd]. split; [eauto|]. split; [done|]. by left. }
    destruct (for_each (slot_ids st delivery) _ st) as [st2 [[]|e]];
      cbn [fst snd] in Hloop; destruct Hloop as (Hd2 & Hn2 & Hloop); run; cbn [fst snd].
    + destruct Hloop as [Hgood Hcan]. split; [done|]. split; [by intros [? _]|].
      split; [done|]. split; [|by apply Hfinal].
      intros slot Hin. destruct (Hcan slot Hin) as (r' & Hr' & Hs). exists r'. split; [|done].
      unfold slot_row in *. by fields.
    + destruct Hloop as [Hmsg Hbad]. split; [done|]. split; [done|]. right. by right.
Qed.

(** C3.  [cancel_action] on a delivery raises UserError when the delivery
    is fulfilled, and when it is in transit or loaded and a sale order of
    its slots has a validated transfer to a transit or customer location;
    otherwise it cancels every slot, then sets the delivery's status to
    cancelled and [cancelled_date] to the current time, unless a slot is
    delivered or returned, which the cancelling of a slot refuses with
    UserError; whenever it raises, the delivery's row is as before. *)
Theorem cancel_action_delivery (st : State) (delivery : Z) (d : logistic_delivery.t) :
  delivery_row st delivery = Some d →
  (logistic_delivery.status d = logistic_delivery.fulfilled →
     is_UserError (Delivery.cancel_action [delivery] st).2) ∧
  (logistic_delivery.status d ∈ [logistic_delivery.in_transit; logistic_delivery.loaded] →
   has_validated_transfer st delivery →
     is_UserError (Delivery.cancel_action [delivery] st).2) ∧
  (logistic_delivery.status d ≠ logistic_delivery.fulfilled →
   ¬ (logistic_delivery.status d ∈ [logistic_delivery.in_transit; logistic_delivery.loaded]
      ∧ has_validated_transfer st delivery) →
   (∀ slot r, slot ∈ slot_ids st delivery → slot_row st slot = Some r →
      ¬ delivered_or_returned r) →
     (Delivery.cancel_action [delivery] st).2 = Ok tt ∧
     (∀ slot, slot ∈ slot_ids st delivery →
        ∃ r', slot_row (Delivery.cancel_action [delivery] st).1 slot = Some r'
              ∧ logistic_slot.status r' = logistic_slot.cancelled) ∧
     delivery_row (Delivery.cancel_action [delivery] st).1 delivery
     = Some (logistic_delivery.with_cancelled_date (Some (now st))
               (logistic_delivery.with_status logistic_delivery.cancelled d))) ∧
  (∀ slot r, slot ∈ slot_ids st delivery → slot_row st slot = Some r →
     delivered_or_returned r → is_UserError (Delivery.cancel_action [delivery] st).2) ∧
  (∀ slot r, slot_row st slot = Some r → delivered_or_returned r →
     is_UserError (Slot.cancel_action [slot] st).2 ∧ (Slot.cancel_action [slot] st).1 = st) ∧
  (is_Raise (Delivery.cancel_action [delivery] st).2 →
     delivery_row (Delivery.cancel_action [delivery] st).1 delivery = Some d).
Proof.
  intros Hd. pose proof (cancel_action_run st delivery d Hd) as Hrun. unfold wp in Hrun.
  destruct (Delivery.cancel_action [delivery] st) as [st' [[]|e]]; cbn [fst snd] in *.
  - destruct Hrun as (Hful & Hhvt & Hgood & Hcan & Hrow).
    split; [done|]. split; [by intros ? ?; destruct Hhvt|]. split; [done|].
    split; [by intros slot r Hin Hr ?; destruct (Hgood slot r)|].
    split; [|done]. intros slot r Hr Hbad. rewrite (cancel_one_run st slot r Hr).
    by rewrite bool_decide_eq_true_2.
  - destruct Hrun as ([msg ->] & Hdel & Hwhy).
    split; [done|]. split; [done|]. split.
    { intros Hful Hhvt Hgood. destruct Hwhy as [?|[?|(slot & r & Hin & Hr & Hbad)]]; [done..|].
      by destruct (Hgood slot r). }
    split; [done|]. split.
    { intros slot r Hr Hbad. rewrite (cancel_one_run st slot r Hr).
      by rewrite bool_decide_eq_true_2. }
    intros _. unfold delivery_row in *. by rewrite Hdel.
Qed.


End cancel_delivery_action.

(** ** Moving slots to another delivery *)

Section reallocate.
Context `{Platform}.

Lemma change_delivery_run (st : State) (slot delivery_id : Z) (reason : string) (date : Z)
    (r : logistic_slot.t) (t : logistic_delivery.t) :
  slot_row st slot = Some r → delivery_row st delivery_id = Some t →
  Slot.change_delivery slot delivery_id reason date st
  = match logistic_delivery.vehicle_id t with
    | None => (st, Raise (UserError "Please Assign a vehicle to target delivery!"))
    | Some _ =>
        if bool_decide (logistic_delivery.status t = logistic_delivery.scheduled) then
          if f_gt (Delivery_fields._compute_volume_loss st t) (slot_total_volume st r)
          then (moved_to delivery_id slot st, Ok true)
          else (st, Raise (UserError "The target delivery is not in scheduled state or the vehicle does not have the capacity to carry the product"))
        else (st, Raise (UserError "Target delivery is not in scheduled status!"))
    end.
Proof.
  unfold slot_row, delivery_row. intros Hr Ht.
  unfold Slot.change_delivery, Slot.check_compatible, read_delivery, read_slot, write_slots,
    message_post.
  run. rewrite Ht. run. destruct (logistic_delivery.vehicle_id t); run; [|done].
  case_bool_decide; run; [|done]. rewrite Hr. run.
  destruct (f_gt _ _); run; cbn [negb]; run; [|done].
  rewrite Hr. run. done.
Qed.

Lemma moved_to_row (st : State) (delivery_id slot s : Z) :
  slot_row (moved_to delivery_id slot st) s
  = (λ r, if bool_decide (s ∈ [slot])
          then logistic_slot.with_delivery_id (Some delivery_id) r else r) <$> slot_row st s.
Proof. unfold slot_row, moved_to. fields. by rewrite browse_write_all. Qed.

Lemma reallocate_slots_run (st : State) (delivery_id : Z) (t : logistic_delivery.t) (ids : list Z) :
  delivery_row st delivery_id = Some t →
  (∀ slot, slot ∈ ids → is_Some (slot_row st slot)) →
  wp (for_each ids (λ slot,
        t <- datetime_now ;;
        Slot.change_delivery slot delivery_id "Assignment" t ;;; ret tt)) st
    (λ st' r,
       match r with
       | Ok _ => ∀ slot, slot ∈ ids →
           ∃ r', slot_row st' slot = Some r' ∧ logistic_slot.delivery_id r' = Some delivery_id
       | Raise e => ∃ msg, e = UserError msg
       end).
Proof.
  intros Ht Hex.
  pose (I := λ (done : list Z) (st' : State),
    deliveries st' = deliveries st ∧
    (∀ slot, is_Some (slot_row st slot) → is_Some (slot_row st' slot)) ∧
    ∀ slot, slot ∈ done →
      ∃ r', slot_row st' slot = Some r' ∧ logistic_slot.delivery_id r' = Some delivery_id).
  eapply wp_mono; [apply (wp_for_each I (λ _ e, ∃ msg, e = UserError msg))|].
  - split; [done|]. split; [done|]. by intros ? ?%elem_of_nil.
  - intros done x rest st' Hids (Hd & Hkeep & Hmoved).
    assert (x ∈ ids) as Hx by (rewrite Hids, elem_of_app, elem_of_cons; auto).
    destruct (Hkeep x (Hex x Hx)) as [r' Hr'].
    assert (delivery_row st' delivery_id = Some t) as Ht' by (unfold delivery_row; by rewrite Hd).
    unfold wp, datetime_now. run.
    rewrite (change_delivery_run st' x delivery_id _ _ r' t Hr' Ht').
    destruct (logistic_delivery.vehicle_id t); [|cbn; eauto].
    case_bool_decide; [|cbn; eauto].
    destruct (f_gt _ _); [|cbn; eauto]. run. cbn [fst snd].
    split; [done|]. split.
    + intros slot Hs. rewrite moved_to_row. destruct (Hkeep slot Hs) as [s' ->]. by eexists.
    + intros slot Hin. rewrite moved_to_row.
      destruct (decide (slot = x)) as [->|Hne].
      * rewrite Hr'. cbn. rewrite bool_decide_eq_true_2 by apply list_elem_of_here. eauto.
      * apply elem_of_app in Hin as [Hin|Hin%list_elem_of_singleton]; [|done].
        destruct (Hmoved slot Hin) as (s' & -> & Hs'). cbn.
        rewrite bool_decide_eq_false_2 by (by rewrite list_elem_of_singleton). eauto.
  - intros st' [[]|e]; [|done]. by intros (_ & _ & ?).
Qed.

(** C2.  [reallocate_to] returns True only when the target delivery is
    scheduled, and then every slot of the source is on the target; on a
    target that is not scheduled it moves nothing.  [change_delivery]
    raises UserError, and changes nothing, when the target has no
    vehicle, when it is not scheduled, and when its [volume_loss] is not
    greater than the slot's [total_volume]; otherwise it moves the slot. *)
Theorem reallocate_to_change_delivery (st : State) (source target : Z) (t : logistic_delivery.t) :
  delivery_row st target = Some t →
  (∀ st', Delivery.reallocate_to [source] target st = (st', Ok (Some true)) →
     logistic_delivery.status t = logistic_delivery.scheduled ∧
     ∀ slot, slot ∈ slot_ids st source →
       ∃ r', slot_row st' slot = Some r' ∧ logistic_slot.delivery_id r' = Some target) ∧
  (logistic_delivery.status t ≠ logistic_delivery.scheduled →
     Delivery.reallocate_to [source] target st = (st, Ok None)) ∧
  (logistic_delivery.status t = logistic_delivery.scheduled →
   is_Some (delivery_row st source) →
     (Delivery.reallocate_to [source] target st).2 = Ok (Some true)
     ∨ is_UserError (Delivery.reallocate_to [source] target st).2) ∧
  (∀ slot r reason date, slot_row st slot = Some r →
     logistic_delivery.vehicle_id t = None
     ∨ logistic_delivery.status t ≠ logistic_delivery.scheduled
     ∨ f_gt (Delivery_fields._compute_volume_loss st t) (slot_total_volume st r) = false →
     is_UserError (Slot.change_delivery slot target reason date st).2 ∧
     (Slot.change_delivery slot target reason date st).1 = st) ∧
  (∀ slot r reason date, slot_row st slot = Some r →
     is_Some (logistic_delivery.vehicle_id t) →
     logistic_delivery.status t = logistic_delivery.scheduled →
     f_gt (Delivery_fields._compute_volume_loss st t) (slot_total_volume st r) = true →
     Slot.change_delivery slot target reason date st = (moved_to target slot st, Ok true)).
Proof.
  intros Ht.
  assert (Hrun : Delivery.reallocate_to [source] target st
    = if bool_decide (logistic_delivery.status t = logistic_delivery.scheduled) then
        match delivery_row st source with
        | Some _ =>
            match for_each (slot_ids st source) (λ slot,
                    t <- datetime_now ;;
                    Slot.change_delivery slot target "Assignment" t ;;; ret tt) st with
            | (st', Ok _) => (st', Ok (Some true))
            | (st', Raise e) => (st', Raise e)
            end
        | None => (st, Raise MissingError)
        end
      else (st, Ok None)).
  { unfold Delivery.reallocate_to, read_delivery, delivery_row in *. cbn [for_each_ret]. run.
    rewrite Ht. run. case_bool_decide; run; [|done].
    destruct (browse _ _ source); run; [|done].
    destruct (for_each _ _ st) as [st' [[]|e]]; by run. }
  pose proof (reallocate_slots_run st target t (slot_ids st source) Ht
                (slot_ids_exist st source)) as Hloop.
  unfold wp in Hloop. rewrite Hrun. clear Hrun.
  split; [|split; [|split; [|split]]].
  - intros st'. case_bool_decide; [|done].
    destruct (delivery_row st source); [|done].
    destruct (for_each _ _ st) as [st2 [[]|e]]; [|done].
    intros [= <-]. done.
  - intros Hne. by rewrite bool_decide_eq_false_2.
  - intros Hs [d ->]. rewrite bool_decide_eq_true_2 by done.
    destruct (for_each _ _ st) as [st2 [[]|e]]; cbn [fst snd] in *; [by left|].
    right. by destruct Hloop as [msg ->].
  - intros slot r reason date Hr Hwhy.
    rewrite (change_delivery_run st slot target reason date r t Hr Ht).
    destruct Hwhy as [->|[Hne|Hgt]]; [done|..].
    + destruct (logistic_delivery.vehicle_id t); [|done]. by rewrite bool_decide_eq_false_2.
    + destruct (logistic_delivery.vehicle_id t); [|done].
      case_bool_decide; [|done]. by rewrite Hgt.
  - intros slot r reason date Hr [v Hv] Hs Hgt.
    rewrite (change_delivery_run st slot target reason date r t Hr Ht).
    by rewrite Hv, bool_decide_eq_true_2, Hgt.
Qed.


End reallocate.

(** ** Creating slots and their status records *)

Section create_slots.
Context `{Platform}.


Lemma next_by_code_run (code : string) (st : State) :
  next_by_code code st = (bump_sequence code st, Ok (name_of_sequence code st)).
Proof.
  unfold next_by_code, bump_sequence, name_of_sequence. by destruct (sequences st !! code).
Qed.

Lemma bump_sequence_fields (code : string) (st : State) :
  slots (bump_sequence code st) = slots st ∧
  zone_statuses (bump_sequence code st) = zone_statuses st ∧
  lines (bump_sequence code st) = lines st ∧
  orders (bump_sequence code st) = orders st ∧
  deliveries (bump_sequence code st) = deliveries st ∧
  clusters (bump_sequence code st) = clusters st ∧
  uuid_draws (bump_sequence code st) = uuid_draws st.
Proof. unfold bump_sequence. by destruct (sequences st !! code). Qed.

Lemma Slot_create_dict_run (d : gmap string value) (st : State) :
  Slot.create (ADict d) st
  = (on_slots (λ tbl, tbl ++ [slot_of_values (fresh_id logistic_slot.id (slots st))
        (<["guid" := VUuid (uuid4_at (uuid_draws st))]>
           (<["name" := text_value (name_of_sequence "logistic.slot.code" st)]> d))])
       (on_uuid_draws S (bump_sequence "logistic.slot.code" st)),
     Ok [fresh_id logistic_slot.id (slots st)]).
Proof.
  unfold Slot.create, model_create_single, Slot.create_body, orm_create, new_slot, uuid4.
  run. rewrite next_by_code_run. run.
  destruct (bump_sequence_fields "logistic.slot.code" st) as (Hs & _ & _ & _ & _ & _ & Hu).
  fields. by rewrite Hs, Hu.
Qed.

Lemma search_zone_status_app (st : State) (f : list logistic_slot.t → list logistic_slot.t)
    (new : list logistic_zone_status.t) (zone date : option Z) :
  search_zone_status (on_slots f (on_zone_statuses (λ tbl, tbl ++ new) st)) zone date
  = search_zone_status st zone date
    ++ (logistic_zone_status.id <$>
          filter (λ zs, logistic_zone_status.zone_id zs = zone ∧ logistic_zone_status.date zs = date) new).
Proof. unfold search_zone_status. fields. by rewrite filter_app, fmap_app. Qed.

(** [get_or_create_status_record] on a state with at most one record for
    a zone and a date. *)
Lemma get_or_create_status_record_run (st : State) (slot : Z) (order : option Z)
    (zone : option Z) (r : logistic_slot.t) :
  slot_row st slot = Some r →
  match order with
  | Some o => ∃ ord, browse sale_order.id (orders st) o = Some ord ∧ sale_order.zone_id ord = zone
  | None => zone = None
  end →
  status_unique st →
  ∃ zs new,
    Slot.get_or_create_status_record slot order st
    = (on_slots (write_all logistic_slot.id [slot] (logistic_slot.with_zone_status_id (Some zs)))
         (on_zone_statuses (λ tbl, tbl ++ new) st), Ok true) ∧
    (search_zone_status st zone (logistic_slot.date r) = [zs] ∧ new = []
     ∨ search_zone_status st zone (logistic_slot.date r) = [] ∧
       zs = fresh_id logistic_zone_status.id (zone_statuses st) ∧
       new = [logistic_zone_status.mk zs zone (logistic_slot.date r)]).
Proof.
  unfold slot_row. intros Hr Hzone Huniq.
  assert (Hz : (match order with
                | Some o => r <- read_order o ;; ret (sale_order.zone_id r)
                | None => ret None
                end) st = (st, Ok zone)).
  { destruct order as [o|]; [|by subst]. destruct Hzone as (ord & Hord & <-).
    unfold read_order. run. by rewrite Hord. }
  unfold Slot.get_or_create_status_record, read_slot, create_zone_status, write_slots.
  run. rewrite Hz. run. rewrite Hr. run.
  pose proof (Huniq zone (logistic_slot.date r)) as Hlen.
  destruct (search_zone_status st zone (logistic_slot.date r)) as [|zs [|zs' l]] eqn:Hs;
    [| |simpl in Hlen; lia]; run.
  - eexists _, _. split; [|right; done]. done.
  - exists zs, []. split; [|left; done]. f_equal. unfold on_slots, on_zone_statuses.
    cbn [slots deliveries clusters zone_statuses vehicles lines orders pickings
         sequences uuid_draws chatter now].
    rewrite app_nil_r. by destruct st.
Qed.

(** The state after [get_or_create_status_record] still has at most one
    record for a zone and a date, and has one for the slot's. *)
Lemma registered_state (st : State) (f : list logistic_slot.t → list logistic_slot.t)
    (zone date : option Z) (zs : Z) (new : list logistic_zone_status.t) :
  status_unique st →
  (search_zone_status st zone date = [zs] ∧ new = []
   ∨ search_zone_status st zone date = [] ∧
     zs = fresh_id logistic_zone_status.id (zone_statuses st) ∧
     new = [logistic_zone_status.mk zs zone date]) →
  let st' := on_slots f (on_zone_statuses (λ tbl, tbl ++ new) st) in
  status_unique st' ∧
  search_zone_status st' zone date = [zs] ∧
  (∃ row, row ∈ zone_statuses st' ∧ logistic_zone_status.id row = zs ∧
     logistic_zone_status.zone_id row = zone ∧ logistic_zone_status.date row = date) ∧
  (search_zone_status st zone date ≠ [] → new = []).
Proof.
  intros Huniq Hcase st'. subst st'.
  destruct Hcase as [[Hs ->]|(Hs & Hzs & ->)].
  - split; [|split; [|split; [|done]]].
    + intros z d. rewrite search_zone_status_app, filter_nil, app_nil_r. apply Huniq.
    + by rewrite search_zone_status_app, filter_nil, app_nil_r.
    + assert (zs ∈ search_zone_status st zone date) as Hin by (rewrite Hs; apply list_elem_of_here).
      unfold search_zone_status in Hin. apply list_elem_of_fmap in Hin as (row & -> & Hrow).
      apply list_elem_of_filter in Hrow as [[Hz Hd] Hrow].
      exists row. fields. rewrite app_nil_r. done.
  - split; [|split; [|split; [|done]]].
    + intros z d. rewrite search_zone_status_app.
      rewrite filter_cons, filter_nil. case_decide as Hzd; simpl in Hzd.
      * destruct Hzd as [<- <-]. rewrite Hs. simpl. lia.
      * rewrite app_nil_r. apply Huniq.
    + rewrite search_zone_status_app, Hs, filter_cons, filter_nil.
      by rewrite decide_True.
    + exists (logistic_zone_status.mk zs zone date). fields.
      split; [|done]. apply elem_of_app. right. apply list_elem_of_here.
Qed.

End create_slots.

Section create_slots_loop.
Context `{Platform}.

Lemma order_line_elem (st : State) (order : Z) (line : sale_order_line.t) :
  line ∈ order_line st order ↔ sale_order_line.order_id line = Some order ∧ line ∈ lines st.
Proof. unfold order_line. by rewrite list_elem_of_filter. Qed.




Lemma try_except_run {A} (m : M A) (h : exn → M A) st :
  try_except m h st = match m st with
                      | (st', Ok a) => (st', Ok a)
                      | (st', Raise e) => h e st'
                      end.
Proof. done. Qed.




End create_slots_loop.

(** ** Changing the date of a delivery *)

Section delivery_date.
Context `{Platform}.

Lemma same_slot_write_all (ids : list Z) (f : logistic_slot.t → logistic_slot.t)
    (tbl tbl' : list logistic_slot.t) :
  (∀ r, same_slot r (f r)) →
  Forall2 same_slot tbl tbl' →
  Forall2 same_slot tbl (write_all logistic_slot.id ids f tbl').
Proof.
  intros Hf. unfold write_all. induction 1 as [|r r' tbl tbl' Hr _ IH]; [constructor|].
  rewrite fmap_cons. constructor; [|done].
  destruct (bool_decide _); [|done].
  destruct Hr as (H1 & H2 & H3), (Hf r') as (H1' & H2' & H3').
  unfold same_slot. by rewrite H1', H2', H3'.
Qed.

Lemma same_slot_refl (tbl : list logistic_slot.t) : Forall2 same_slot tbl tbl.
Proof. induction tbl; constructor; done. Qed.

Lemma same_slot_browse (tbl tbl' : list logistic_slot.t) (i : Z) (r : logistic_slot.t) :
  Forall2 same_slot tbl tbl' →
  browse logistic_slot.id tbl i = Some r →
  ∃ r', browse logistic_slot.id tbl' i = Some r' ∧ same_slot r r'.
Proof.
  unfold browse. induction 1 as [|r0 r0' tbl tbl' Hr _ IH]; [done|]. cbn [List.find].
  destruct Hr as (H1 & H2 & H3). rewrite H1.
  destruct (bool_decide (logistic_slot.id r0 = i)); [|done].
  intros [= <-]. by exists r0'.
Qed.

Lemma same_slot_ids (st st' : State) (delivery : Z) :
  Forall2 same_slot (slots st) (slots st') → slot_ids st' delivery = slot_ids st delivery.
Proof.
  unfold slot_ids, slot_records.
  induction 1 as [|r r' tbl tbl' (H1 & H2 & H3) _ IH]; [done|].
  rewrite !filter_cons, H2. case_decide; [|done]. by rewrite !fmap_cons, H1, IH.
Qed.

Lemma date_in_past_run (st : State) (delivery : Z) (d : logistic_delivery.t) :
  delivery_row st delivery = Some d →
  Delivery.date_in_past [delivery] st
  = (st, Ok (Some match logistic_delivery.date d with
                  | Some date => bool_decide (date < now st `div` 86400)
                  | None => false
                  end)).
Proof.
  unfold delivery_row. intros Hd.
  unfold Delivery.date_in_past, read_delivery, date_today. cbn [for_each_ret]. run.
  rewrite Hd. run. destruct (logistic_delivery.date d); by run.
Qed.

(** The loop of the hook on the slots of the delivery. *)
Lemma update_slots_run (st : State) (delivery : Z) (new_date : option Z) :
  status_unique st →
  orders_of_slots_exist st delivery →
  wp (for_each (slot_ids st delivery) (λ slot,
        write_slots [slot] (logistic_slot.with_date new_date) ;;;
        r <- read_slot slot ;;
        sale_order_id <- gets (λ st, slot_sale_order_id st r) ;;
        write_orders (option_list sale_order_id) (sale_order.with_delivery_date new_date) ;;;
        Slot.get_or_create_status_record slot sale_order_id ;;; ret tt)) st
    (λ st' res,
       res = Ok tt ∧
       deliveries st' = deliveries st ∧ lines st' = lines st ∧
       Forall2 same_slot (slots st) (slots st') ∧
       (∀ order, is_Some (browse sale_order.id (orders st) order) →
          is_Some (browse sale_order.id (orders st') order)) ∧
       (∀ slot r', slot ∈ slot_ids st delivery → slot_row st' slot = Some r' →
          logistic_slot.date r' = new_date) ∧
       (∀ slot r order ord', slot ∈ slot_ids st delivery → slot_row st slot = Some r →
          slot_sale_order_id st r = Some order →
          browse sale_order.id (orders st') order = Some ord' →
          sale_order.delivery_date ord' = new_date)).
Proof.
  intros Huniq Hexist.
  pose (I := λ (done : list Z) (st' : State),
    deliveries st' = deliveries st ∧ lines st' = lines st ∧ status_unique st' ∧
    Forall2 same_slot (slots st) (slots st') ∧
    (∀ order, is_Some (browse sale_order.id (orders st) order) →
       is_Some (browse sale_order.id (orders st') order)) ∧
    (∀ slot r', slot ∈ done → slot_row st' slot = Some r' → logistic_slot.date r' = new_date) ∧
    (∀ slot r order ord', slot ∈ done → slot_row st slot = Some r →
       slot_sale_order_id st r = Some order →
       browse sale_order.id (orders st') order = Some ord' →
       sale_order.delivery_date ord' = new_date)).
  eapply wp_mono; [apply (wp_for_each I (λ _ _, False))|].
  - unfold I. split; [done|]. split; [done|]. split; [done|].
    split; [apply same_slot_refl|]. split; [done|].
    split; [by intros ? ? ?%elem_of_nil|by intros ? ? ? ? ?%elem_of_nil].
  - intros done x rest st' Hids (Hd & Hl & Hu & Hsame & Hord & Hdates & Hodates).
    assert (x ∈ slot_ids st delivery) as Hx by (rewrite Hids, elem_of_app, elem_of_cons; auto).
    destruct (slot_ids_exist st delivery x Hx) as [r Hr].
    destruct (same_slot_browse _ _ x r Hsame Hr) as (r' & Hr' & Hrr').
    unfold wp, write_slots, read_slot, write_orders. run.
    set (stA := on_slots (write_all logistic_slot.id [x] (logistic_slot.with_date new_date)) st').
    assert (HrA : slot_row stA x = Some (logistic_slot.with_date new_date r')).
    { unfold slot_row, stA in *. fields. rewrite browse_write_all by done. rewrite Hr'. cbn.
      by rewrite bool_decide_eq_true_2 by apply list_elem_of_here. }
    unfold slot_row in HrA. rewrite HrA. run.
    set (ox := slot_sale_order_id stA (logistic_slot.with_date new_date r')).
    assert (Hox : ox = slot_sale_order_id st r).
    { unfold ox, slot_sale_order_id, stA. fields. rewrite Hl.
      destruct Hrr' as (_ & _ & Hline). cbn [logistic_slot.sale_order_line_id logistic_slot.with_date].
      by rewrite Hline. }
    set (stB := on_orders (write_all sale_order.id (option_list ox)
                             (sale_order.with_delivery_date new_date)) stA).
    assert (HordB : ∀ order, browse sale_order.id (orders stB) order
              = (λ o, if bool_decide (order ∈ option_list ox)
                      then sale_order.with_delivery_date new_date o else o)
                <$> browse sale_order.id (orders st') order).
    { intros order. unfold stB, stA. fields. by rewrite browse_write_all. }
    assert (∃ zone, match ox with
                    | Some o => ∃ ord, browse sale_order.id (orders stB) o = Some ord
                                       ∧ sale_order.zone_id ord = zone
                    | None => zone = None
                    end) as [zone Hzone].
    { destruct ox as [o|] eqn:Hoeq; [|by exists None].
      destruct (Hord o) as [ord Hordo]; [by eapply Hexist|].
      eexists. eexists. rewrite HordB, Hordo. cbn. split; done. }
    assert (HuB : status_unique stB).
    { intros z dt. unfold search_zone_status, stB, stA. fields. apply Hu. }
    destruct (get_or_create_status_record_run stB x ox zone
                (logistic_slot.with_date new_date r')) as (zs & new & Hrun & Hcase);
      [by unfold slot_row, stB; fields|done|done|].
    rewrite Hrun. run. cbn [fst snd].
    destruct (registered_state stB
                (write_all logistic_slot.id [x] (logistic_slot.with_zone_status_id (Some zs)))
                zone new_date zs new HuB Hcase) as (HuC & _).
    unfold I. split; [by fields|]. split; [by fields|]. split; [done|].
    split.
    { unfold stB, stA. fields. repeat apply same_slot_write_all; [by intros ?..|done]. }
    split.
    { intros order Ho. fields.
      rewrite HordB. destruct (Hord order Ho) as [o' ->]. by eexists. }
    split.
    { intros slot s' Hin. unfold slot_row, stB, stA. fields.
      rewrite !browse_write_all by done.
      destruct (browse logistic_slot.id (slots st') slot) as [s0|] eqn:Hs0; [|done]. cbn.
      destruct (decide (slot = x)) as [->|Hne].
      - rewrite bool_decide_eq_true_2 by apply list_elem_of_here. by intros [= <-].
      - rewrite bool_decide_eq_false_2 by (by rewrite list_elem_of_singleton).
        intros [= <-]. apply (Hdates slot); [|done].
        apply elem_of_app in Hin as [?|?%list_elem_of_singleton]; done. }
    intros slot s order ord' Hin Hs Hso. fields.
    rewrite HordB.
    destruct (browse sale_order.id (orders st') order) as [o0|] eqn:Ho0; [|done]. cbn.
    case_bool_decide as Hw; [by intros [= <-]|]. intros [= <-].
    apply elem_of_app in Hin as [Hin|Hin%list_elem_of_singleton].
    + by apply (Hodates slot s order).
    + subst slot. exfalso. apply Hw. assert (s = r) as -> by congruence.
      rewrite Hox, Hso. apply list_elem_of_here.
  - intros st' [[]|e]; [|done]. unfold I.
    intros (Hd & Hl & _ & Hsame & Hord & Hdates & Hodates). done.
Qed.

(** C5.  On a database where a zone and a date have at most one status
    record and the sale orders of the slots exist, the hook on the date of
    a delivery raises UserError when the date is earlier than today, and
    otherwise assigns the date to every slot of the delivery and to the
    [delivery_date] of each slot's sale order: afterwards every slot of
    the delivery carries the delivery's date. *)
Theorem update_delivery_date (st : State) (delivery : Z) (d : logistic_delivery.t) :
  delivery_row st delivery = Some d →
  status_unique st →
  orders_of_slots_exist st delivery →
  (∀ date, logistic_delivery.date d = Some date → date < now st `div` 86400 →
     is_UserError (Delivery._update_delivery_date_and_related_objects [delivery] st).2 ∧
     (Delivery._update_delivery_date_and_related_objects [delivery] st).1 = st) ∧
  ((∀ date, logistic_delivery.date d = Some date → now st `div` 86400 ≤ date) →
     let st' := (Delivery._update_delivery_date_and_related_objects [delivery] st).1 in
     (Delivery._update_delivery_date_and_related_objects [delivery] st).2 = Ok tt ∧
     delivery_row st' delivery = Some d ∧
     slot_ids st' delivery = slot_ids st delivery ∧
     ∀ slot, slot ∈ slot_ids st' delivery →
       ∃ r', slot_row st' slot = Some r' ∧
         logistic_slot.date r' = logistic_delivery.date d ∧
         ∀ order, slot_sale_order_id st' r' = Some order →
           ∃ ord', browse sale_order.id (orders st') order = Some ord' ∧
             sale_order.delivery_date ord' = logistic_delivery.date d).
Proof.
  intros Hd Huniq Hexist.
  pose proof (update_slots_run st delivery (logistic_delivery.date d) Huniq Hexist) as Hloop.
  unfold wp in Hloop.
  unfold Delivery._update_delivery_date_and_related_objects. cbn [for_each]. run.
  rewrite (date_in_past_run st delivery d Hd). run. cbn [from_option id].
  split.
  - intros date Hdate Hpast. rewrite Hdate, bool_decide_eq_true_2 by done. by run.
  - intros Hfuture.
    assert (match logistic_delivery.date d with
            | Some date => bool_decide (date < now st `div` 86400)
            | None => false
            end = false) as ->.
    { destruct (logistic_delivery.date d) as [date|]; [|done].
      apply bool_decide_eq_false_2. specialize (Hfuture date eq_refl). lia. }
    run. unfold read_delivery. run. pose proof Hd as Hd'. unfold delivery_row in Hd'.
    rewrite Hd'. run.
    destruct (for_each _ _ st) as [st' res]. cbn [fst snd] in *.
    destruct Hloop as (-> & Hdel & Hl & Hsame & Hord & Hdates & Hodates). run. cbn [fst snd].
    split; [done|]. split; [by unfold delivery_row; rewrite Hdel|].
    split; [by apply same_slot_ids|].
    rewrite (same_slot_ids st st' delivery Hsame). intros slot Hin.
    destruct (slot_ids_exist st delivery slot Hin) as [r Hr].
    destruct (same_slot_browse _ _ slot r Hsame Hr) as (r' & Hr' & _ & _ & Hline).
    exists r'. split; [done|]. split; [by apply (Hdates slot)|].
    intros order Ho.
    assert (slot_sale_order_id st r = Some order) as Ho'.
    { unfold slot_sale_order_id in *. by rewrite <- Hl, <- Hline. }
    destruct (Hord order) as [ord' Hord']; [by apply (Hexist slot r)|].
    exists ord'. split; [done|]. by apply (Hodates slot r order).
Qed.


End delivery_date.

(** ** Creating records *)

Section create.
Context `{Platform}.

Lemma uuid4_run (st : State) :
  uuid4 st = (on_uuid_draws S st, Ok (uuid4_at (uuid_draws st))).
Proof. done. Qed.

Lemma filter_none {A} (P : A → Prop) `{!∀ x, Decision (P x)} (l : list A) :
  (∀ x, x ∈ l → ¬ P x) → filter P l = [].
Proof.
  induction l as [|x l IH]; intros Hno; [done|].
  rewrite filter_cons, decide_False by (apply Hno, list_elem_of_here).
  apply IH. intros y Hy. apply Hno. by apply list_elem_of_further.
Qed.

Lemma concat_singletons (ids : list Z) : concat ((λ i, [i]) <$> ids) = ids.
Proof. induction ids as [|i ids IH]; [done|]. rewrite fmap_cons. cbn [concat app]. by rewrite IH. Qed.

(** The wrapper of [@api.model] on a list of dictionaries, for a
    function that makes one record of a dictionary: [look] reads the
    table of the records, [G st k] is what holds of the record made of the
    k-th dictionary from [st] on. *)
Lemma for_map_create_run {R} (look : State → Z → option R) (body : pyarg → M (list Z))
    (Inv : State → Prop) (ok : gmap string value → Prop) (G : State → nat → R → Prop) :
  (∀ st d, Inv st → ok d →
     ∃ st1 i r, body (ADict d) st = (st1, Ok [i]) ∧ Inv st1 ∧
       look st i = None ∧ look st1 i = Some r ∧ G st 0%nat r ∧
       (∀ j r', look st j = Some r' → look st1 j = Some r') ∧
       (∀ k r', G st1 k r' → G st (S k) r')) →
  ∀ ds st, Inv st → Forall ok ds →
  ∃ st' ids,
    model_create_single body (AList ds) st = (st', Ok ids) ∧ Inv st' ∧
    length ids = length ds ∧
    (∀ j r', look st j = Some r' → look st' j = Some r') ∧
    ∀ k i, ids !! k = Some i →
      look st i = None ∧ ∃ r, look st' i = Some r ∧ G st k r.
Proof.
  intros Hstep ds.
  cut (∀ st, Inv st → Forall ok ds →
       ∃ st' ids,
         for_map ds (λ vals, body (ADict vals)) st = (st', Ok ((λ i, [i]) <$> ids)) ∧ Inv st' ∧
         length ids = length ds ∧
         (∀ j r', look st j = Some r' → look st' j = Some r') ∧
         ∀ k i, ids !! k = Some i →
           look st i = None ∧ ∃ r, look st' i = Some r ∧ G st k r).
  { intros Hloop st Hinv Hok. destruct (Hloop st Hinv Hok) as (st' & ids & Hrun & Hrest).
    exists st', ids. unfold model_create_single. run. rewrite Hrun. run.
    by rewrite concat_singletons. }
  induction ds as [|d ds IH]; intros st Hinv Hok.
  - exists st, []. cbn [for_map]. run. split; [done|]. split; [done|]. split; [done|].
    split; [done|]. by intros k i [=].
  - apply Forall_cons in Hok as [Hd Hok].
    destruct (Hstep st d Hinv Hd) as (st1 & i & r & Hrun & Hinv1 & Hnew & Hrow & Hg & Hstable & Hshift).
    destruct (IH st1 Hinv1 Hok) as (st' & ids & Hloop & Hinv' & Hlen & Hstable' & Hall).
    exists st', (i :: ids). cbn [for_map]. run. rewrite Hrun. run. rewrite Hloop. run.
    split; [done|]. split; [done|]. split; [by cbn; rewrite Hlen|].
    split; [by auto|].
    intros [|k] j Hk; cbn in Hk.
    + injection Hk as <-. split; [done|]. exists r. split; [by apply Hstable'|done].
    + destruct (Hall k j Hk) as (Hfresh & r' & Hr' & Hg'). split.
      * destruct (look st j) as [r0|] eqn:Hr0; [|done]. apply Hstable in Hr0. congruence.
      * exists r'. split; [done|]. by apply Hshift.
Qed.

(** The hook of ['date'] on a record that [create] has just made. *)
Lemma new_delivery_hook_run (st : State) (i : Z) (row : logistic_delivery.t) :
  delivery_row st i = Some row →
  slot_ids st i = [] →
  Delivery._update_delivery_date_and_related_objects [i] st
  = (st, match logistic_delivery.date row with
         | Some date =>
             if bool_decide (date < now st `div` 86400)
             then Raise (UserError "Delivery date cannot be in the past.")
             else Ok tt
         | None => Ok tt
         end).
Proof.
  intros Hrow Hslots. unfold Delivery._update_delivery_date_and_related_objects.
  cbn [for_each]. run. rewrite (date_in_past_run st i row Hrow). run.
  unfold read_delivery. unfold delivery_row in Hrow.
  destruct (logistic_delivery.date row) as [date|]; cbn [from_option id].
  - case_bool_decide; run; [done|]. rewrite Hrow. run. rewrite Hslots. cbn [for_each]. by run.
  - run. rewrite Hrow. run. rewrite Hslots. cbn [for_each]. by run.
Qed.

Lemma with_created_delivery_fields (st : State) (d : gmap string value) :
  slots (with_created_delivery st d) = slots st ∧
  now (with_created_delivery st d) = now st ∧
  uuid_draws (with_created_delivery st d) = S (uuid_draws st) ∧
  deliveries (with_created_delivery st d) = deliveries st ++ [created_delivery st d] ∧
  sequences (with_created_delivery st d) !! "logistic.delivery.code"
  = S <$> sequences st !! "logistic.delivery.code" ∧
  lines (with_created_delivery st d) = lines st ∧
  orders (with_created_delivery st d) = orders st ∧
  zone_statuses (with_created_delivery st d) = zone_statuses st.
Proof.
  unfold with_created_delivery, bump_sequence. fields.
  destruct (sequences st !! "logistic.delivery.code") as [n|] eqn:Hn; fields.
  - by rewrite lookup_insert_eq.
  - by rewrite Hn.
Qed.

Lemma created_delivery_row (st : State) (d : gmap string value) :
  delivery_row st (fresh_id logistic_delivery.id (deliveries st)) = None ∧
  delivery_row (with_created_delivery st d) (fresh_id logistic_delivery.id (deliveries st))
  = Some (created_delivery st d) ∧
  (∀ j r, delivery_row st j = Some r → delivery_row (with_created_delivery st d) j = Some r) ∧
  logistic_delivery.guid (created_delivery st d) = Some (uuid4_at (uuid_draws st)) ∧
  logistic_delivery.name (created_delivery st d) = name_of_sequence "logistic.delivery.code" st ∧
  logistic_delivery.date (created_delivery st d) = get_int d "date" ∧
  logistic_delivery.status (created_delivery st d) = logistic_delivery.scheduled.
Proof.
  destruct (with_created_delivery_fields st d) as (_ & _ & _ & Hd & _).
  unfold delivery_row. rewrite Hd. split; [apply browse_fresh_id|]. split.
  { rewrite browse_app, browse_fresh_id. unfold browse. cbn [List.find].
    by rewrite bool_decide_eq_true_2. }
  split. { intros j r Hj. by rewrite browse_app, Hj. }
  unfold created_delivery, delivery_of_values, get_uuid, get_str, get_int.
  cbn [logistic_delivery.guid logistic_delivery.name logistic_delivery.date
       logistic_delivery.status].
  rewrite !lookup_insert_eq, !lookup_insert_ne, lookup_insert_eq by done.
  split; [done|]. split; [by destruct (name_of_sequence _ _)|].
  by rewrite !lookup_insert_ne by done.
Qed.

(** [Delivery.create] on a dictionary: the record is made, and the hook
    of ['date'] refuses it afterwards when its date is in the past. *)
Lemma Delivery_create_dict_run (d : gmap string value) (st : State) :
  deliveries_of_slots_exist st →
  Delivery.create (ADict d) st
  = (with_created_delivery st d,
     match get_int d "date" with
     | Some date =>
         if bool_decide (date < now st `div` 86400)
         then Raise (UserError "Delivery date cannot be in the past.")
         else Ok [fresh_id logistic_delivery.id (deliveries st)]
     | None => Ok [fresh_id logistic_delivery.id (deliveries st)]
     end).
Proof.
  intros Hint.
  destruct (created_delivery_row st d) as (Hfresh & Hrow & _ & _ & _ & Hdate & _).
  destruct (with_created_delivery_fields st d) as (Hs & Hnow & _).
  assert (Hslots : slot_ids (with_created_delivery st d)
                     (fresh_id logistic_delivery.id (deliveries st)) = []).
  { unfold slot_ids, slot_records. rewrite Hs, filter_none; [done|].
    intros r Hr Hd. destruct (Hint r _ Hr Hd) as [row Hrow']. congruence. }
  pose proof (new_delivery_hook_run _ _ _ Hrow Hslots) as Hhook.
  rewrite Hdate, Hnow in Hhook.
  assert (Hrun : Delivery.create (ADict d) st
    = (_ <- Delivery._validate_fields
              (ADict (<["name" := text_value (name_of_sequence "logistic.delivery.code" st)]>
                        (<["guid" := VUuid (uuid4_at (uuid_draws st))]> d)))
              [fresh_id logistic_delivery.id (deliveries st)] ;;
       ret [fresh_id logistic_delivery.id (deliveries st)]) (with_created_delivery st d)).
  { unfold Delivery.create, model_create_single, Delivery.create_body, orm_create, new_delivery,
      setitem. run. rewrite uuid4_run. run. rewrite next_by_code_run. run.
    destruct (bump_sequence_fields "logistic.delivery.code" (on_uuid_draws S st))
      as (_ & _ & _ & _ & Hd & _).
    rewrite Hd. by fields. }
  rewrite Hrun. unfold Delivery._validate_fields. run.
  unfold get_int in *. rewrite !lookup_insert_ne by done.
  destruct (d !! "date") as [v|] eqn:Hv.
  - rewrite bool_decide_eq_true_2 by done. rewrite Hhook.
    destruct v as [|date| |]; try done. by case_bool_decide.
  - by rewrite bool_decide_eq_false_2 by (by intros [? ?]).
Qed.

Lemma bump_sequence_lookup (code : string) (st : State) :
  sequences (bump_sequence code st) !! code = S <$> sequences st !! code.
Proof.
  unfold bump_sequence. destruct (sequences st !! code) as [n|] eqn:Hn; fields.
  - by rewrite lookup_insert_eq.
  - by rewrite Hn.
Qed.

(** What holds of the record made of the k-th dictionary of a list: its
    [guid] is the k-th uuid drawn from [st] on, its [name] the k-th next
    number of the sequence. *)
Lemma guid_and_name_next (code : string) (u u1 : nat) (sq sq1 : option nat) (k : nat)
    (guid : option uuid) (name : option string) :
  u1 = S u → sq1 = S <$> sq →
  guid = Some (uuid4_at (u1 + k)) ∧
  name = seq_render code <$> ((λ n, n + k)%nat <$> sq1) →
  guid = Some (uuid4_at (u + S k)) ∧
  name = seq_render code <$> ((λ n, n + S k)%nat <$> sq).
Proof.
  intros -> -> [-> ->]. split; [do 2 f_equal; lia|].
  destruct sq as [n|]; [|done].
  cbn [fmap option_fmap option_map]. do 2 f_equal. lia.
Qed.

Lemma guid_and_name_first (code : string) (st : State)
    (guid : option uuid) (name : option string) :
  guid = Some (uuid4_at (uuid_draws st)) →
  name = name_of_sequence code st →
  guid = Some (uuid4_at (uuid_draws st + 0)) ∧
  name = seq_render code <$> ((λ n, n + 0)%nat <$> sequences st !! code).
Proof.
  intros -> ->. rewrite Nat.add_0_r. split; [done|]. unfold name_of_sequence.
  destruct (sequences st !! code) as [n|]; [|done].
  cbn [fmap option_fmap option_map]. by rewrite Nat.add_0_r.
Qed.

(** [Slot.create] on a list of dictionaries. *)
Lemma Slot_create_list_run (ds : list (gmap string value)) (st : State) :
  ∃ st' ids,
    Slot.create (AList ds) st = (st', Ok ids) ∧
    length ids = length ds ∧
    (∀ s r, slot_row st s = Some r → slot_row st' s = Some r) ∧
    ∀ (k : nat) (i : Z), ids !! k = Some i →
      slot_row st i = None ∧
      ∃ r, slot_row st' i = Some r ∧
        logistic_slot.guid r = Some (uuid4_at (uuid_draws st + k)) ∧
        logistic_slot.name r
        = seq_render "logistic.slot.code" <$>
            ((λ n, n + k)%nat <$> sequences st !! "logistic.slot.code").
Proof.
  destruct (for_map_create_run slot_row Slot.create_body (λ _, True) (λ _, True)
    (λ st k r, logistic_slot.guid r = Some (uuid4_at (uuid_draws st + k)) ∧
       logistic_slot.name r
       = seq_render "logistic.slot.code" <$>
           ((λ n, n + k)%nat <$> sequences st !! "logistic.slot.code"))) with ds st
    as (st' & ids & Hrun & _ & Hlen & Hstable & Hall); [|done|by apply Forall_true|by exists st', ids].
  clear st. intros st d _ _.
  change (Slot.create_body (ADict d) st) with (Slot.create (ADict d) st).
  rewrite Slot_create_dict_run.
  destruct (bump_sequence_fields "logistic.slot.code" st) as (Hbs & _ & _ & _ & _ & _ & Hbu).
  eexists _, _, _. split; [done|]. split; [done|].
  unfold slot_row. fields. rewrite Hbs, Hbu.
  split; [apply browse_fresh_id|]. split.
  { rewrite browse_app, browse_fresh_id. unfold browse. cbn [List.find].
    by rewrite bool_decide_eq_true_2. }
  split.
  { apply guid_and_name_first; unfold slot_of_values, get_uuid, get_str;
      cbn [logistic_slot.guid logistic_slot.name].
    - by rewrite lookup_insert_eq.
    - rewrite lookup_insert_ne, lookup_insert_eq by done. by destruct (name_of_sequence _ _). }
  split. { intros j r' Hj. by rewrite browse_app, Hj. }
  intros k r'. apply guid_and_name_next; [done|]. apply bump_sequence_lookup.
Qed.

(** [Delivery.create] on a list of dictionaries without a date in the
    past. *)
Lemma Delivery_create_list_run (ds : list (gmap string value)) (st : State) :
  deliveries_of_slots_exist st →
  Forall (λ d, ¬ past_date st d) ds →
  ∃ st' ids,
    Delivery.create (AList ds) st = (st', Ok ids) ∧
    length ids = length ds ∧
    (∀ j r, delivery_row st j = Some r → delivery_row st' j = Some r) ∧
    ∀ (k : nat) (i : Z), ids !! k = Some i →
      delivery_row st i = None ∧
      ∃ r, delivery_row st' i = Some r ∧
        logistic_delivery.guid r = Some (uuid4_at (uuid_draws st + k)) ∧
        logistic_delivery.name r
        = seq_render "logistic.delivery.code" <$>
            ((λ n, n + k)%nat <$> sequences st !! "logistic.delivery.code").
Proof.
  intros Hint Hok.
  destruct (for_map_create_run delivery_row Delivery.create_body
    (λ st', deliveries_of_slots_exist st' ∧ now st' = now st)
    (λ d, ¬ past_date st d)
    (λ st k r, logistic_delivery.guid r = Some (uuid4_at (uuid_draws st + k)) ∧
       logistic_delivery.name r
       = seq_render "logistic.delivery.code" <$>
           ((λ n, n + k)%nat <$> sequences st !! "logistic.delivery.code"))) with ds st
    as (st' & ids & Hrun & _ & Hlen & Hstable & Hall); [|done|done|by exists st', ids].
  clear Hint Hok. intros st0 d [Hint Hnow] Hd.
  change (Delivery.create_body (ADict d) st0) with (Delivery.create (ADict d) st0).
  rewrite (Delivery_create_dict_run d st0 Hint).
  destruct (created_delivery_row st0 d) as (Hfresh & Hrow & Hkept & Hguid & Hname & _).
  destruct (with_created_delivery_fields st0 d) as (Hs & Hn & Hu & _ & Hseq & _).
  exists (with_created_delivery st0 d), (fresh_id logistic_delivery.id (deliveries st0)),
    (created_delivery st0 d).
  split.
  { f_equal. destruct (get_int d "date") as [date|] eqn:Hdate; [|done].
    rewrite bool_decide_eq_false_2; [done|]. intros Hpast. apply Hd. exists date.
    by rewrite <- Hnow. }
  split.
  { split; [|congruence]. intros r d' Hr Hd'. rewrite Hs in Hr.
    destruct (Hint r d' Hr Hd') as [row Hrow']. exists row. by apply Hkept. }
  split; [done|]. split; [done|]. split; [by apply guid_and_name_first|].
  split; [done|]. intros k r'. by apply guid_and_name_next.
Qed.

(** [Cluster.create] on a list of dictionaries. *)
Lemma Cluster_create_list_run (ds : list (gmap string value)) (st : State) :
  ∃ st' ids,
    Cluster.create (AList ds) st = (st', Ok ids) ∧
    length ids = length ds ∧
    ∀ (k : nat) (i : Z), ids !! k = Some i →
      browse logistic_cluster.id (clusters st) i = None ∧
      ∃ r, browse logistic_cluster.id (clusters st') i = Some r ∧
        logistic_cluster.guid r = Some (uuid4_at (uuid_draws st + k)).
Proof.
  destruct (for_map_create_run (λ st i, browse logistic_cluster.id (clusters st) i)
    Cluster.create_body (λ _, True) (λ _, True)
    (λ st k r, logistic_cluster.guid r = Some (uuid4_at (uuid_draws st + k)))) with ds st
    as (st' & ids & Hrun & _ & Hlen & _ & Hall); [|done|by apply Forall_true|by exists st', ids].
  clear st. intros st d _ _.
  unfold Cluster.create_body, uuid4, orm_create, new_cluster. run.
  eexists _, _, _. split; [done|]. split; [done|]. fields.
  split; [apply browse_fresh_id|]. split.
  { rewrite browse_app, browse_fresh_id. unfold browse. cbn [List.find].
    by rewrite bool_decide_eq_true_2. }
  split.
  { unfold cluster_of_values, get_uuid. cbn [logistic_cluster.guid].
    by rewrite lookup_insert_eq, Nat.add_0_r. }
  split. { intros j r' Hj. by rewrite browse_app, Hj. }
  intros k r' ->. do 2 f_equal. lia.
Qed.

(** What holds of the three [create] on a dictionary: each stores the
    uuid drawn by the call in [guid], and [Slot.create] and
    [Delivery.create] store the next number of their sequence in [name].
    [Delivery.create] makes the record and raises UserError afterwards
    when the date of the dictionary is in the past. *)
Lemma create_dict (d : gmap string value) (st : State) :
  (∃ i r, (Slot.create (ADict d) st).2 = Ok [i] ∧
     slot_row (Slot.create (ADict d) st).1 i = Some r ∧
     logistic_slot.guid r = Some (uuid4_at (uuid_draws st)) ∧
     logistic_slot.name r = name_of_sequence "logistic.slot.code" st) ∧
  (deliveries_of_slots_exist st →
   ∃ i r, delivery_row st i = None ∧
     delivery_row (Delivery.create (ADict d) st).1 i = Some r ∧
     logistic_delivery.guid r = Some (uuid4_at (uuid_draws st)) ∧
     logistic_delivery.name r = name_of_sequence "logistic.delivery.code" st ∧
     (¬ past_date st d → (Delivery.create (ADict d) st).2 = Ok [i]) ∧
     (past_date st d → is_UserError (Delivery.create (ADict d) st).2)) ∧
  (∃ i r, (Cluster.create (ADict d) st).2 = Ok [i] ∧
     browse logistic_cluster.id (clusters (Cluster.create (ADict d) st).1) i = Some r ∧
     logistic_cluster.guid r = Some (uuid4_at (uuid_draws st))).
Proof.
  split; [|split].
  - rewrite Slot_create_dict_run. cbn [fst snd]. eexists _, _. split; [done|].
    unfold slot_row. fields.
    destruct (bump_sequence_fields "logistic.slot.code" st) as (-> & _).
    rewrite browse_app, browse_fresh_id. unfold browse. cbn [List.find].
    rewrite bool_decide_eq_true_2 by done. split; [done|].
    unfold slot_of_values, get_uuid, get_str. cbn [logistic_slot.guid logistic_slot.name].
    rewrite lookup_insert_eq, lookup_insert_ne, lookup_insert_eq by done.
    split; [done|]. by destruct (name_of_sequence _ _).
  - intros Hint. rewrite (Delivery_create_dict_run d st Hint). cbn [fst snd].
    destruct (created_delivery_row st d) as (Hfresh & Hrow & _ & Hguid & Hname & _).
    eexists _, _. split; [done|]. split; [done|]. split; [done|]. split; [done|].
    unfold past_date. destruct (get_int d "date") as [date|]; [|by split; [|intros (? & [=] & _)]].
    case_bool_decide as Hpast.
    + split; [|done]. intros Hno. destruct Hno. by exists date.
    + split; [done|]. intros (date' & [= <-] & Hlt). done.
  - unfold Cluster.create, model_create_single, Cluster.create_body, uuid4, orm_create,
      new_cluster. run. cbn [fst snd].
    eexists _, _. split; [done|]. fields.
    rewrite browse_app, browse_fresh_id. unfold browse. cbn [List.find].
    rewrite bool_decide_eq_true_2 by done. split; [done|].
    unfold cluster_of_values, get_uuid. cbn [logistic_cluster.guid].
    by rewrite lookup_insert_eq.
Qed.

(** C10, the defect.  [Cluster.create] does not raise ValueError on every
    argument that is neither a dictionary nor a list: the wrapper of
    [@api.model] takes the length of the argument before the function
    runs, so a value without length (False, a number, a uuid) is a
    TypeError, and the empty text, which has no character to call the
    function on, gives the empty recordset without any error.  The
    ValueError of the function is raised for a text that has a
    character.  Nothing is created in any of these cases. *)
Theorem Cluster_create_not_ValueError (st : State) :
  Cluster.create (AOther VFalse) st = (st, Raise TypeError) ∧
  (∀ z, Cluster.create (AOther (VInt z)) st = (st, Raise TypeError)) ∧
  (∀ u, Cluster.create (AOther (VUuid u)) st = (st, Raise TypeError)) ∧
  Cluster.create (AOther (VStr EmptyString)) st = (st, Ok []) ∧
  (∀ c s, ∃ msg,
     Cluster.create (AOther (VStr (String c s))) st = (st, Raise (ValueError msg))).
Proof.
  split; [done|]. split; [done|]. split; [done|]. split; [done|].
  intros c s. unfold Cluster.create, model_create_single, Cluster.create_body.
  cbn [String.list_ascii_of_string for_map]. run. by eexists.
Qed.

End create.

(** * The claims on a database *)

(** C9, the defect.  [Delivery.unlink] on two cancelled deliveries deletes
    both and returns True, and the cancelled slot of the first is still in
    the database: only the slots of the last delivery are deleted. *)
Theorem Delivery_unlink_keeps_slots :
  (Delivery.unlink [1; 2] unlink_state).2 = Ok true ∧
  deliveries (Delivery.unlink [1; 2] unlink_state).1 = [] ∧
  slot_ids unlink_state 1 = [1] ∧
  slot_row (Delivery.unlink [1; 2] unlink_state).1 1
  = Some (demo_slot 1 (Some 1) None logistic_slot.cancelled).
Proof. by vm_compute. Qed.

Lemma demo_status_unique : status_unique demo_state.
Proof. intros zone date. cbn. lia. Qed.


Lemma demo_orders_exist : orders_of_slots_exist demo_state 1.
Proof.
  intros slot r order Hin Hr Ho. change (slot ∈ [1; 2]) in Hin.
  apply elem_of_cons in Hin as [->|Hin]; [|apply list_elem_of_singleton in Hin as ->];
    vm_compute in Hr; injection Hr as <-; vm_compute in Ho; injection Ho as <-;
    by eexists.
Qed.

(** C1 on the first delivery: its volume 3 fits the capacity 10. *)
Lemma ensure_fits_onchange_vehicle_id_witness :
  delivery_row demo_state 1 = Some (demo_delivery 1 (Some 1) logistic_delivery.in_transit) ∧
  Delivery.ensure_fits [1] demo_state = (demo_state, Ok (Some true)) ∧
  Delivery.onchange_vehicle_id [1] demo_state = (demo_state, Ok tt).
Proof.
  destruct (ensure_fits_onchange_vehicle_id demo_state 1 _ eq_refl)
    as (_ & Hfits & _ & _ & Hsame).
  split; [reflexivity|]. split; [exact (proj2 (Hfits 1 eq_refl) eq_refl)|].
  apply Hsame. vm_compute. exact (λ x, x).
Defined.

(** C2: the two slots of the first delivery are moved to the second. *)
Lemma reallocate_to_change_delivery_witness :
  delivery_row demo_state 2 = Some (demo_delivery 2 (Some 1) logistic_delivery.scheduled) ∧
  (Delivery.reallocate_to [1] 2 demo_state).2 = Ok (Some true) ∧
  ∀ slot, slot ∈ slot_ids demo_state 1 →
    ∃ r', slot_row (Delivery.reallocate_to [1] 2 demo_state).1 slot = Some r'
          ∧ logistic_slot.delivery_id r' = Some 2.
Proof.
  split; [reflexivity|]. split; [by vm_compute|].
  refine (proj2 (proj1 (reallocate_to_change_delivery demo_state 1 2 _ eq_refl) _ _)).
  by vm_compute.
Defined.

(** C3: the first delivery, in transit without validated transfer and
    without delivered or returned slot, is cancelled. *)
Lemma cancel_action_delivery_witness :
  delivery_row demo_state 1 = Some (demo_delivery 1 (Some 1) logistic_delivery.in_transit) ∧
  (Delivery.cancel_action [1] demo_state).2 = Ok tt ∧
  delivery_row (Delivery.cancel_action [1] demo_state).1 1
  = Some (logistic_delivery.with_cancelled_date (Some (now demo_state))
            (logistic_delivery.with_status logistic_delivery.cancelled
               (demo_delivery 1 (Some 1) logistic_delivery.in_transit))).
Proof.
  destruct (cancel_action_delivery demo_state 1 _ eq_refl) as (_ & _ & Hcancel & _).
  destruct Hcancel as (Hok & _ & Hrow).
  - discriminate.
  - intros [_ (slot & order & p & _ & _ & Hp & _)]. by apply elem_of_nil in Hp.
  - intros slot r Hin Hr Hbad. change (slot ∈ [1; 2]) in Hin. unfold delivered_or_returned in Hbad.
    apply elem_of_cons in Hin as [->|Hin]; [|apply list_elem_of_singleton in Hin as ->];
      vm_compute in Hr; injection Hr as <-;
      repeat (apply elem_of_cons in Hbad as [Hbad|Hbad]; [discriminate|]);
      by apply elem_of_nil in Hbad.
  - split; [reflexivity|]. split; [exact Hok|exact Hrow].
Defined.

(** C4, amended: the cancelled slot 2 of the first delivery is delivered. *)
Lemma set_all_slots_delivered_every_slot_witness :
  delivery_row demo_state 1 = Some (demo_delivery 1 (Some 1) logistic_delivery.in_transit) ∧
  (Delivery.set_all_slots_delivered [1] demo_state).2 = Ok tt ∧
  slot_row (Delivery.set_all_slots_delivered [1] demo_state).1 2
  = Some (delivered_at (now demo_state) (demo_slot 2 (Some 1) (Some 2) logistic_slot.cancelled)).
Proof.
  destruct (set_all_slots_delivered_every_slot demo_state 1 _ eq_refl) as (_ & _ & Hall).
  destruct Hall as [Hok Hrows].
  - intros Hin. repeat (apply elem_of_cons in Hin as [Hin|Hin]; [discriminate|]).
    by apply elem_of_nil in Hin.
  - by apply Exists_cons_hd.
  - split; [reflexivity|]. split; [exact Hok|]. exact (Hrows 2 _ eq_refl).
Defined.

(** C4 as stated fails: slot 2 of the first delivery is cancelled, not
    scheduled, and [set_all_slots_delivered] changes it. *)
Lemma set_all_slots_delivered_changes_cancelled_slot :
  ¬ delivers_scheduled_slots_only demo_state 1.
Proof.
  intros Hspec.
  specialize (Hspec 2 (demo_slot 2 (Some 1) (Some 2) logistic_slot.cancelled)).
  assert (2 ∈ slot_ids demo_state 1) as Hin
    by (change (2 ∈ [1; 2]); apply list_elem_of_further, list_elem_of_here).
  specialize (Hspec Hin eq_refl). vm_compute in Hspec.
  assert (logistic_slot.cancelled ≠ logistic_slot.scheduled) as Hne by discriminate.
  specialize (Hspec Hne). discriminate.
Qed.

(** C5: the date of the first delivery is today. *)
Lemma update_delivery_date_witness :
  delivery_row demo_state 1 = Some (demo_delivery 1 (Some 1) logistic_delivery.in_transit) ∧
  status_unique demo_state ∧ orders_of_slots_exist demo_state 1 ∧
  (Delivery._update_delivery_date_and_related_objects [1] demo_state).2 = Ok tt ∧
  ∀ slot, slot ∈ slot_ids (Delivery._update_delivery_date_and_related_objects [1] demo_state).1 1 →
    ∃ r', slot_row (Delivery._update_delivery_date_and_related_objects [1] demo_state).1 slot
          = Some r' ∧ logistic_slot.date r' = Some 20000.
Proof.
  destruct (update_delivery_date demo_state 1 _ eq_refl demo_status_unique demo_orders_exist)
    as [_ Hupdate].
  destruct Hupdate as (Hok & _ & _ & Hslots).
  - intros date [= <-]. by vm_compute.
  - split; [reflexivity|]. split; [exact demo_status_unique|].
    split; [exact demo_orders_exist|]. split; [exact Hok|].
    intros slot Hin. destruct (Hslots slot Hin) as (r' & Hr' & Hdate & _). by exists r'.
Defined.


(** C8 as stated fails: a new slot, returned and then delivered, is
    delivered with [is_returned] set. *)
Lemma slot_flags_match_not_kept :
  let st1 := (Slot.create (ADict ∅) demo_state).1 in
  let st2 := (Slot.set_returned_driver_portal [3] st1).1 in
  let st3 := (Slot.set_delivered [3] st2).1 in
  (Slot.create (ADict ∅) demo_state).2 = Ok [3] ∧
  forallb flags_match (slots st1) = true ∧
  forallb flags_match (slots st2) = true ∧
  forallb flags_match (slots st3) = false ∧
  ¬ keeps_slot_invariant (H:=demo_platform) flags_match Slot.set_delivered.
Proof.
  cbv zeta. repeat (split; [by vm_compute|]).
  intros Hkeeps.
  specialize (Hkeeps (Slot.set_returned_driver_portal [3] (Slot.create (ADict ∅) demo_state).1).1 [3]).
  vm_compute in Hkeeps. specialize (Hkeeps eq_refl). discriminate.
Qed.

(** * More of the code *)

(** ** Deleting rows *)

Section delete_facts.
Context {R : Type} (key : R → Z).
Implicit Types (tbl : list R) (ids : list Z).

Lemma browse_delete_all ids tbl i :
  browse key (delete_all key ids tbl) i
  = if bool_decide (i ∈ ids) then None else browse key tbl i.
Proof.
  unfold browse, delete_all. induction tbl as [|r tbl IH]; [by case_bool_decide|].
  rewrite filter_cons. cbn [List.find].
  destruct (decide (key r ∉ ids)) as [Hr|Hr]; cbn [List.find]; rewrite IH.
  - destruct (decide (key r = i)) as [<-|Hk].
    + by rewrite bool_decide_eq_true_2, bool_decide_eq_false_2.
    + by rewrite (bool_decide_eq_false_2 (key r = i)).
  - apply dec_stable in Hr. destruct (decide (key r = i)) as [<-|Hk].
    + by rewrite (bool_decide_eq_true_2 (key r ∈ ids)).
    + by rewrite (bool_decide_eq_false_2 (key r = i)).
Qed.

Lemma delete_all_app ids1 ids2 tbl :
  delete_all key ids2 (delete_all key ids1 tbl) = delete_all key (ids1 ++ ids2) tbl.
Proof.
  unfold delete_all. induction tbl as [|r tbl IH]; [done|].
  rewrite !filter_cons.
  destruct (decide (key r ∉ ids1)) as [H1|H1].
  - rewrite filter_cons. destruct (decide (key r ∉ ids2)) as [H2|H2].
    + rewrite decide_True by (rewrite elem_of_app; tauto). by rewrite IH.
    + rewrite decide_False by (rewrite elem_of_app; tauto). by rewrite IH.
  - rewrite decide_False by (rewrite elem_of_app; tauto). by rewrite IH.
Qed.

Lemma delete_all_nil tbl : delete_all key [] tbl = tbl.
Proof.
  unfold delete_all. induction tbl as [|r tbl IH]; [done|].
  rewrite filter_cons, decide_True by apply not_elem_of_nil. by rewrite IH.
Qed.

End delete_facts.

Section unlink.
Context `{Platform}.

(** The first loop of [Delivery.unlink] reads only. *)
Lemma unlink_check_run (st : State) (self : list Z) :
  (∀ d, d ∈ self → is_Some (delivery_row st d)) →
  let out := for_each self (λ delivery,
      d <- read_delivery delivery ;;
      if bool_decide (logistic_delivery.status d ≠ logistic_delivery.cancelled) then
        raise (UserError "You can only delete cancelled deliveries")
      else ret tt) st in
  out.1 = st ∧
  ((out.2 = Ok tt ∧ ∀ d r, d ∈ self → delivery_row st d = Some r →
      logistic_delivery.status r = logistic_delivery.cancelled)
   ∨ (is_UserError out.2 ∧ ∃ d r, d ∈ self ∧ delivery_row st d = Some r ∧
        logistic_delivery.status r ≠ logistic_delivery.cancelled)).
Proof.
  cbv zeta. unfold delivery_row, read_delivery.
  induction self as [|d self IH]; intros Hex.
  - split; [done|]. left. split; [done|]. intros ? ? Hin. by apply elem_of_nil in Hin.
  - cbn [for_each]. run. destruct (Hex d) as [r Hr]; [apply list_elem_of_here|].
    rewrite Hr. run. case_bool_decide as Hs; run.
    + split; [done|]. right. split; [done|]. exists d, r. split; [apply list_elem_of_here|done].
    + destruct IH as [Hst [[Hok Hall]|[Herr (d' & r' & Hin & Hr' & Hs')]]].
      { intros d' Hin. apply Hex. by apply list_elem_of_further. }
      * split; [exact Hst|]. left. split; [exact Hok|].
        intros d' r' [->|Hin]%elem_of_cons Hr'; [|by eapply Hall].
        congruence.
      * split; [exact Hst|]. right. split; [exact Herr|]. exists d', r'.
        split; [by apply list_elem_of_further|done].
Qed.

(** X1.  [Delivery.unlink] raises UserError, and deletes nothing, when a
    delivery of the recordset is not cancelled. *)
Theorem Delivery_unlink_not_cancelled (st : State) (self : list Z) (d : Z)
    (r : logistic_delivery.t) :
  (∀ d', d' ∈ self → is_Some (delivery_row st d')) →
  d ∈ self → delivery_row st d = Some r →
  logistic_delivery.status r ≠ logistic_delivery.cancelled →
  is_UserError (Delivery.unlink self st).2 ∧ (Delivery.unlink self st).1 = st.
Proof.
  intros Hex Hin Hr Hs. pose proof (unlink_check_run st self Hex) as Hchk. cbv zeta in Hchk.
  unfold Delivery.unlink. run.
  destruct (for_each self _ st) as [st' [[]|e]]; cbn [fst snd] in *;
    destruct Hchk as [-> [[Hok Hall]|[Herr _]]]; try done.
  by destruct (Hs (Hall d r Hin Hr)).
Qed.

Lemma Slot_unlink_one_run (st : State) (slot : Z) (r : logistic_slot.t) :
  slot_row st slot = Some r →
  Slot.unlink [slot] st
  = if bool_decide (logistic_slot.status r ≠ logistic_slot.cancelled)
    then (st, Raise (UserError "Cannot delete a slot that is not in Canclled state"))
    else (on_slots (delete_all logistic_slot.id [slot]) st, Ok true).
Proof.
  unfold slot_row. intros Hr. unfold Slot.unlink, read_slot. cbn [for_each]. run.
  rewrite Hr. run. by case_bool_decide; run.
Qed.

(** The loop of [Delivery.unlink] on slots that are all cancelled. *)
Lemma unlink_slots_run (st : State) (ids : list Z) :
  NoDup ids →
  (∀ slot, slot ∈ ids → ∃ r, slot_row st slot = Some r
                             ∧ logistic_slot.status r = logistic_slot.cancelled) →
  for_each ids (λ item, Slot.unlink [item] ;;; ret tt) st
  = (on_slots (delete_all logistic_slot.id ids) st, Ok tt).
Proof.
  intros Hnd Hall.
  cut (∀ done rest, NoDup (done ++ rest) → (∀ slot, slot ∈ rest → slot ∈ ids) →
         for_each rest (λ item, Slot.unlink [item] ;;; ret tt)
           (on_slots (delete_all logistic_slot.id done) st)
         = (on_slots (delete_all logistic_slot.id (done ++ rest)) st, Ok tt)).
  { intros Hgen. specialize (Hgen [] ids Hnd (λ _ H, H)).
    replace (on_slots (delete_all logistic_slot.id []) st) with st in Hgen; [done|].
    destruct st. unfold on_slots. simpl. by rewrite delete_all_nil. }
  intros done rest. revert done. induction rest as [|x rest IH]; intros done Hnd' Hsub.
  - cbn [for_each]. run. by rewrite app_nil_r.
  - cbn [for_each]. run.
    destruct (Hall x) as (r & Hr & Hs); [apply Hsub, list_elem_of_here|].
    assert (x ∉ done) as Hx.
    { apply NoDup_app in Hnd' as (_ & Hdis & _). intros Hin. apply (Hdis x Hin), list_elem_of_here. }
    rewrite (Slot_unlink_one_run _ x r).
    + rewrite bool_decide_eq_false_2 by (by intros ?). run.
      replace (on_slots (delete_all logistic_slot.id [x])
                 (on_slots (delete_all logistic_slot.id done) st))
        with (on_slots (delete_all logistic_slot.id (done ++ [x])) st).
      * rewrite IH.
        -- by rewrite <- app_assoc.
        -- by rewrite <- app_assoc.
        -- intros slot Hin. apply Hsub. by apply list_elem_of_further.
      * fields. by rewrite delete_all_app.
    + unfold slot_row in *. fields. rewrite browse_delete_all.
      by rewrite bool_decide_eq_false_2.
Qed.

(** X2.  [Delivery.unlink] on one cancelled delivery whose slots are all
    cancelled returns True and deletes the delivery and its slots, and
    no other delivery or slot. *)
Theorem Delivery_unlink_one (st : State) (delivery : Z) (d : logistic_delivery.t) :
  delivery_row st delivery = Some d →
  logistic_delivery.status d = logistic_delivery.cancelled →
  NoDup (slot_ids st delivery) →
  (∀ slot r, slot ∈ slot_ids st delivery → slot_row st slot = Some r →
     logistic_slot.status r = logistic_slot.cancelled) →
  let st' := (Delivery.unlink [delivery] st).1 in
  (Delivery.unlink [delivery] st).2 = Ok true ∧
  delivery_row st' delivery = None ∧
  (∀ other, other ≠ delivery → delivery_row st' other = delivery_row st other) ∧
  (∀ slot, slot ∈ slot_ids st delivery → slot_row st' slot = None) ∧
  (∀ slot, slot ∉ slot_ids st delivery → slot_row st' slot = slot_row st slot).
Proof.
  intros Hd Hs Hnd Hall.
  assert (Hrun : Delivery.unlink [delivery] st
    = (on_deliveries (delete_all logistic_delivery.id [delivery])
         (on_slots (delete_all logistic_slot.id (slot_ids st delivery)) st), Ok true)).
  { unfold Delivery.unlink, read_delivery, loop_variable. cbn [for_each last]. run.
    unfold delivery_row in Hd. rewrite Hd. run.
    rewrite bool_decide_eq_false_2 by (by intros ?). run.
    rewrite unlink_slots_run; [by run|done|].
    intros slot Hin. destruct (slot_ids_exist st delivery slot Hin) as [r Hr].
    exists r. split; [done|]. by apply (Hall slot). }
  cbv zeta. rewrite Hrun. cbn [fst snd]. unfold delivery_row, slot_row. fields.
  split; [done|]. split.
  { rewrite browse_delete_all. by rewrite bool_decide_eq_true_2 by apply list_elem_of_here. }
  split.
  { intros other Hne. rewrite browse_delete_all.
    by rewrite bool_decide_eq_false_2 by (by rewrite list_elem_of_singleton). }
  split; intros slot Hin; rewrite browse_delete_all.
  - by rewrite bool_decide_eq_true_2.
  - by rewrite bool_decide_eq_false_2.
Qed.

(** X3.  On the empty recordset [Delivery.unlink] and
    [Slot.reset_to_scheduled] read a loop variable that was never bound,
    and [onchange_vehicle_id] takes the None of [ensure_fits] for a
    vehicle that does not fit; none changes the database. *)
Theorem empty_recordset (st : State) :
  Delivery.unlink [] st = (st, Raise UnboundLocalError) ∧
  Slot.reset_to_scheduled [] st = (st, Raise UnboundLocalError) ∧
  Delivery.ensure_fits [] st = (st, Ok None) ∧
  is_UserError (Delivery.onchange_vehicle_id [] st).2 ∧
  (Delivery.onchange_vehicle_id [] st).1 = st.
Proof. done. Qed.

End unlink.

(** ** Loops that only check *)

Section checks.
Context `{Platform}.

(** A loop whose body reads and either goes on or raises. *)
Lemma for_each_check {A} (l : list A) (body : A → M unit) (ok : A → Prop) (st : State) :
  (∀ x, x ∈ l → (body x st = (st, Ok tt) ∧ ok x)
                ∨ (∃ msg, body x st = (st, Raise (UserError msg)) ∧ ¬ ok x)) →
  (for_each l body st).1 = st ∧
  (((for_each l body st).2 = Ok tt ∧ ∀ x, x ∈ l → ok x)
   ∨ (is_UserError (for_each l body st).2 ∧ ∃ x, x ∈ l ∧ ¬ ok x)).
Proof.
  induction l as [|x l IH]; intros Hbody.
  - split; [done|]. left. split; [done|]. intros ? Hin. by apply elem_of_nil in Hin.
  - cbn [for_each]. run.
    destruct (Hbody x) as [[-> Hok]|(msg & -> & Hno)]; [apply list_elem_of_here|..]; run.
    + destruct IH as [Hst [[Hr Hall]|[Hr (y & Hy & Hno)]]].
      { intros y Hy. apply Hbody. by apply list_elem_of_further. }
      * split; [exact Hst|]. left. split; [exact Hr|].
        intros y [->|Hy]%elem_of_cons; [done|by apply Hall].
      * split; [exact Hst|]. right. split; [exact Hr|]. exists y.
        split; [by apply list_elem_of_further|done].
    + split; [done|]. right. split; [done|]. exists x. split; [apply list_elem_of_here|done].
Qed.

End checks.

(** ** Resetting slots, and recordsets of several records *)

Section reset_slots.
Context `{Platform}.

Lemma reset_check_body (st : State) (slot : Z) :
  reset_allowed st slot ∨ reset_blocked st slot →
  let body :=
    r <- read_slot slot ;;
    match logistic_slot.delivery_id r with
    | Some d =>
        delivery <- read_delivery d ;;
        if bool_decide (logistic_delivery.status delivery ≠ logistic_delivery.scheduled) then
          raise (UserError "Please reset the delivery to scheduled status before resetting the slot")
        else ret tt
    | None => ret tt
    end in
  (body st = (st, Ok tt) ∧ reset_allowed st slot)
  ∨ (∃ msg, body st = (st, Raise (UserError msg)) ∧ ¬ reset_allowed st slot).
Proof.
  cbv zeta. unfold reset_allowed, reset_blocked, slot_row, delivery_row, read_slot, read_delivery.
  intros [(r & Hr & Hd)|(r & d & dr & Hr & Hd & Hdr & Hs)]; run; rewrite Hr; run.
  - left. split; [|eauto]. destruct Hd as [->|(d & dr & -> & Hdr & Hs)]; run; [done|].
    rewrite Hdr. run. by rewrite bool_decide_eq_false_2 by (by intros ?).
  - right. rewrite Hd. run. rewrite Hdr. run. rewrite bool_decide_eq_true_2 by done. run.
    eexists. split; [done|]. intros (r' & Hr' & [Hn|(d' & dr' & Hd' & Hdr' & Hs')]); congruence.
Qed.

(** X4.  [Slot.reset_to_scheduled] on a recordset of slots that it
    accepts sets the status of the last slot only: the assignment is
    after the loop.  When it refuses a slot it raises UserError and
    changes nothing. *)
Theorem Slot_reset_to_scheduled_last (st : State) (init : list Z) (last : Z) :
  (∀ slot, slot ∈ init ++ [last] → reset_allowed st slot ∨ reset_blocked st slot) →
  ((∀ slot, slot ∈ init ++ [last] → reset_allowed st slot) →
     Slot.reset_to_scheduled (init ++ [last]) st
     = (on_slots (write_all logistic_slot.id [last]
          (logistic_slot.with_status logistic_slot.scheduled)) st, Ok tt) ∧
     ∀ slot, slot ≠ last →
       slot_row (Slot.reset_to_scheduled (init ++ [last]) st).1 slot = slot_row st slot) ∧
  ((∃ slot, slot ∈ init ++ [last] ∧ reset_blocked st slot) →
     is_UserError (Slot.reset_to_scheduled (init ++ [last]) st).2 ∧
     (Slot.reset_to_scheduled (init ++ [last]) st).1 = st).
Proof.
  intros Hcases.
  unfold Slot.reset_to_scheduled. run.
  match goal with |- context [for_each (init ++ [last]) ?b st] =>
    destruct (for_each_check (init ++ [last]) b (reset_allowed st) st) as [Hst Hres]
  end.
  { intros slot Hin. apply (reset_check_body st slot (Hcases slot Hin)). }
  destruct (for_each (init ++ [last]) _ st) as [st' [[]|e]]; cbn [fst snd] in *; subst st'.
  - destruct Hres as [[_ Hall]|[[] _]]. split.
    + intros _. unfold loop_variable. rewrite last_snoc. run. unfold write_slots. run.
      split; [done|]. intros slot Hne. unfold slot_row. cbn [fst]. fields.
      rewrite browse_write_all by done.
      destruct (browse logistic_slot.id (slots st) slot); [|done]. cbn.
      by rewrite bool_decide_eq_false_2 by (by rewrite list_elem_of_singleton).
    + intros (slot & Hin & r & d & dr & Hr & Hd & Hdr & Hs). exfalso.
      destruct (Hall slot Hin) as (r' & Hr' & [Hn|(d' & dr' & Hd' & Hdr' & Hs')]); congruence.
  - destruct Hres as [[[=] _]|[Herr (slot & Hin & Hno)]]. split.
    + intros Hall. by destruct (Hno (Hall slot Hin)).
    + done.
Qed.

(** X5.  A recordset of several deliveries: [reallocate_to] moves the
    slots of its first delivery only, and [ensure_fits] and
    [date_in_past] answer for the first delivery only, because they
    return inside the loop. *)
Theorem first_record_only (st : State) (first : Z) (others : list Z) (target : Z) :
  Delivery.reallocate_to (first :: others) target st = Delivery.reallocate_to [first] target st ∧
  Delivery.ensure_fits (first :: others) st = Delivery.ensure_fits [first] st ∧
  Delivery.date_in_past (first :: others) st = Delivery.date_in_past [first] st.
Proof.
  split; [|split].
  - unfold Delivery.reallocate_to, read_delivery. cbn [for_each_ret]. run.
    destruct (browse logistic_delivery.id (deliveries st) target) as [t|] eqn:Ht; run; [|done].
    case_bool_decide as Hs; run.
    + destruct (browse logistic_delivery.id (deliveries st) first); run; [|done].
      by destruct (for_each _ _ st) as [st' [[]|e]]; run.
    + induction others as [|d others IH]; [done|]. cbn [for_each_ret]. run.
      rewrite Ht. run. rewrite bool_decide_eq_false_2 by done. run. apply IH.
  - unfold Delivery.ensure_fits, read_delivery. cbn [for_each_ret]. run.
    destruct (browse _ _ first) as [d|]; run; [|done].
    destruct (logistic_delivery.vehicle_id d); run; [|done]. by destruct (f_gt _ _); run.
  - unfold Delivery.date_in_past, read_delivery, date_today. cbn [for_each_ret]. run.
    destruct (browse _ _ first) as [d|]; run; [|done].
    by destruct (logistic_delivery.date d); run.
Qed.

(** X6.  A delivered slot cannot be cancelled, but a cancelled slot can be
    delivered: [cancel_action] refuses a slot after [set_delivered], and
    [set_delivered] has no guard. *)
Theorem delivered_then_cancelled (st : State) (slot : Z) (r : logistic_slot.t) :
  slot_row st slot = Some r →
  is_UserError (Slot.cancel_action [slot] (Slot.set_delivered [slot] st).1).2 ∧
  slot_row (Slot.cancel_action [slot] (Slot.set_delivered [slot] st).1).1 slot
  = Some (delivered_at (now st) r) ∧
  (¬ delivered_or_returned r →
     (Slot.cancel_action [slot] st).2 = Ok tt ∧
     slot_row (Slot.set_delivered [slot] (Slot.cancel_action [slot] st).1).1 slot
     = Some (delivered_at (now st) (cancelled_row r r))).
Proof.
  intros Hr. rewrite set_delivered_run. cbn [fst].
  assert (Hr' : slot_row (on_slots (write_all logistic_slot.id [slot] (delivered_at (now st))) st)
                  slot = Some (delivered_at (now st) r)).
  { unfold slot_row in *. fields. rewrite browse_write_all by done. rewrite Hr. cbn.
    by rewrite bool_decide_eq_true_2 by apply list_elem_of_here. }
  rewrite (cancel_one_run _ slot _ Hr').
  rewrite bool_decide_eq_true_2
    by (unfold delivered_or_returned; cbn; apply list_elem_of_here).
  split; [done|]. split; [done|]. intros Hgood.
  rewrite (cancel_one_run st slot r Hr), bool_decide_eq_false_2 by done.
  split; [done|]. cbn [fst]. rewrite set_delivered_run. cbn [fst]. unfold slot_row in *. fields.
  rewrite !browse_write_all by (done || apply cancelled_row_id). rewrite Hr. cbn.
  by rewrite bool_decide_eq_true_2 by apply list_elem_of_here.
Qed.

End reset_slots.

(** ** Status records *)

Section status_records.
Context `{Platform}.

(** X7.  On a database with at most one status record for a zone and a
    date, [get_or_create_status_record] returns True, registers the slot
    in the record of the order's zone and the slot's date, creates a
    record only when there was none, keeps the records unique, and
    called again changes nothing. *)
Theorem get_or_create_status_record_once (st : State) (slot order : Z)
    (r : logistic_slot.t) (ord : sale_order.t) :
  slot_row st slot = Some r →
  browse sale_order.id (orders st) order = Some ord →
  status_unique st →
  let st' := (Slot.get_or_create_status_record slot (Some order) st).1 in
  (Slot.get_or_create_status_record slot (Some order) st).2 = Ok true ∧
  status_unique st' ∧
  (∃ r', slot_row st' slot = Some r' ∧
     registered_in st' (sale_order.zone_id ord) (logistic_slot.date r) r') ∧
  (search_zone_status st (sale_order.zone_id ord) (logistic_slot.date r) ≠ [] →
     zone_statuses st' = zone_statuses st) ∧
  Slot.get_or_create_status_record slot (Some order) st' = (st', Ok true).
Proof.
  intros Hr Hord Huniq.
  destruct (get_or_create_status_record_run st slot (Some order) (sale_order.zone_id ord) r Hr)
    as (zs & new & Hrun & Hcase); [by exists ord|done|].
  destruct (registered_state st
              (write_all logistic_slot.id [slot] (logistic_slot.with_zone_status_id (Some zs)))
              (sale_order.zone_id ord) (logistic_slot.date r) zs new Huniq Hcase)
    as (Huniq' & Hfound & (row & Hrow & Hid & Hz & Hd) & Hnew).
  cbv zeta. rewrite Hrun. cbn [fst snd].
  set (st' := on_slots _ (on_zone_statuses _ st)) in *.
  assert (Hr' : slot_row st' slot = Some (logistic_slot.with_zone_status_id (Some zs) r)).
  { unfold slot_row, st' in *. fields. rewrite browse_write_all by done. rewrite Hr. cbn.
    by rewrite bool_decide_eq_true_2 by apply list_elem_of_here. }
  split; [done|]. split; [done|]. split.
  { eexists. split; [exact Hr'|]. exists row. cbn. by rewrite Hid. }
  split.
  { intros Hsome. unfold st'. fields. by rewrite (Hnew Hsome), app_nil_r. }
  destruct (get_or_create_status_record_run st' slot (Some order) (sale_order.zone_id ord) _ Hr')
    as (zs2 & new2 & Hrun2 & Hcase2); [by exists ord|done|].
  cbn [logistic_slot.date logistic_slot.with_zone_status_id] in Hcase2.
  rewrite Hfound in Hcase2. destruct Hcase2 as [[[= <-] ->]|[[=] _]].
  rewrite Hrun2. f_equal. unfold st'. unfold on_slots, on_zone_statuses.
  cbn [slots deliveries clusters zone_statuses vehicles lines orders pickings
       sequences uuid_draws chatter now].
  rewrite !app_nil_r. f_equal. rewrite write_all_compose by done.
  unfold write_all. apply list_fmap_ext. intros _ x _. by destruct (bool_decide _).
Qed.

(** With two status records for the zone and the date,
    [get_or_create_status_record] raises ValueError and changes nothing:
    the search result is not one record. *)
Lemma get_or_create_status_record_two_run (st : State) (slot order : Z)
    (r : logistic_slot.t) (ord : sale_order.t) (zs1 zs2 : Z) (more : list Z) :
  slot_row st slot = Some r →
  browse sale_order.id (orders st) order = Some ord →
  search_zone_status st (sale_order.zone_id ord) (logistic_slot.date r) = zs1 :: zs2 :: more →
  ∃ msg, Slot.get_or_create_status_record slot (Some order) st = (st, Raise (ValueError msg)).
Proof.
  unfold slot_row. intros Hr Hord Hs.
  unfold Slot.get_or_create_status_record, read_order, read_slot. run.
  rewrite Hord. run. rewrite Hr. run. rewrite Hs. run. eauto.
Qed.

(** The loop of [create_slots] returns, whatever happens in its body. *)
Lemma create_slots_loop_returns (order : Z) (date : option Z)
    (todo : list sale_order_line.t) (st : State) (acc : list Z) :
  ∃ res, (Slot.create_slots_loop order date todo acc st).2 = Ok res.
Proof.
  revert st acc. induction todo as [|line todo IH]; intros st acc; cbn [Slot.create_slots_loop].
  - by eexists.
  - run. rewrite try_except_run. run.
    destruct (Slot.create_slot_of_line order date line st) as [st' [slot|e]]; run.
    + apply IH.
    + by eexists.
Qed.

(** X8.  [create_slots] on an order of the database never raises: an
    error in the making of a slot is returned as its text.  With two
    status records for the order's zone and the date, it returns the text
    of the ValueError after it has made the slot of the first line, which
    is left without status record, and makes no slot for the other
    lines. *)
Theorem create_slots_returns_errors (st : State) (order : Z) (ord : sale_order.t)
    (date : option Z) :
  browse sale_order.id (orders st) order = Some ord →
  (∃ res, (Slot.create_slots order date st).2 = Ok res) ∧
  ((2 ≤ length (search_zone_status st (sale_order.zone_id ord) date))%nat →
   order_line st order ≠ [] →
     (∃ msg, (Slot.create_slots order date st).2 = Ok (Slot.ErrorText (ValueError msg))) ∧
     length (slots (Slot.create_slots order date st).1) = S (length (slots st)) ∧
     ∃ r, slot_row (Slot.create_slots order date st).1 (fresh_id logistic_slot.id (slots st))
          = Some r ∧ logistic_slot.zone_status_id r = None).
Proof.
  intros Hord. unfold Slot.create_slots, read_order. run. rewrite Hord. run.
  split; [apply create_slots_loop_returns|].
  intros Htwo Hlines.
  destruct (order_line st order) as [|line todo] eqn:Hol; [done|].
  assert (line ∈ order_line st order) as [Hlo _]%order_line_elem
    by (rewrite Hol; apply list_elem_of_here).
  cbn [Slot.create_slots_loop]. run. rewrite try_except_run.
  unfold Slot.create_slot_of_line, read_order. run. rewrite Hlo. run. rewrite Hord. run.
  rewrite Slot_create_dict_run. run.
  destruct (bump_sequence_fields "logistic.slot.code" st) as (Hbs & Hbz & Hbl & Hbo & _).
  set (i := fresh_id logistic_slot.id (slots st)).
  match goal with |- context [slot_of_values i ?d] => set (r0 := slot_of_values i d) end.
  set (st1 := on_slots (λ tbl, tbl ++ [r0]) (on_uuid_draws S (bump_sequence "logistic.slot.code" st))).
  assert (Hdate : logistic_slot.date r0 = date).
  { unfold r0, slot_of_values. cbn [logistic_slot.date]. unfold get_int.
    rewrite !lookup_insert_ne by done. rewrite lookup_insert_eq. by destruct date. }
  assert (Hr0 : slot_row st1 i = Some r0).
  { unfold slot_row, st1. fields. rewrite Hbs, browse_app.
    unfold i. rewrite browse_fresh_id. unfold browse. cbn [List.find].
    by rewrite bool_decide_eq_true_2. }
  assert (Hsearch : search_zone_status st1 (sale_order.zone_id ord) (logistic_slot.date r0)
                    = search_zone_status st (sale_order.zone_id ord) date).
  { rewrite Hdate. unfold search_zone_status, st1. fields. by rewrite Hbz. }
  destruct (search_zone_status st (sale_order.zone_id ord) date) as [|zs1 [|zs2 more]] eqn:Hs;
    [simpl in Htwo; lia..|].
  destruct (get_or_create_status_record_two_run st1 i order r0 ord zs1 zs2 more Hr0) as [msg Hrun].
  { unfold st1. fields. by rewrite Hbo. }
  { done. }
  rewrite Hrun. run. cbn [fst snd].
  split; [by eexists|]. split.
  { unfold st1. fields. rewrite length_app, Hbs. simpl. lia. }
  exists r0. split; [exact Hr0|]. done.
Qed.

End status_records.

(** ** Fulfilled orders, loading, and the zone of a delivery *)

Section delivery_actions.
Context `{Platform}.

Lemma status_key_not_delivered (s : logistic_delivery.STATUS) :
  Delivery_actions.status_key s ≠ "delivered".
Proof. by destruct s. Qed.

Lemma pickings_done_run (pickings : list stock_picking.t) (st : State) :
  for_each_ret pickings (λ picking,
    if negb (stock_picking.done picking) then ret (Some false) else ret None) st
  = (st, Ok (if forallb stock_picking.done pickings then None else Some false)).
Proof.
  induction pickings as [|p pickings IH]; [done|]. cbn [for_each_ret forallb]. run.
  destruct (stock_picking.done p); cbn [negb andb]; run; [apply IH|done].
Qed.

Lemma read_deliveries_run (ids : list Z) (st : State) :
  (∀ d, d ∈ ids → is_Some (delivery_row st d)) →
  ∃ rows, for_map ids read_delivery st = (st, Ok rows) ∧ length rows = length ids.
Proof.
  unfold delivery_row, read_delivery. induction ids as [|d ids IH]; intros Hex.
  - by exists [].
  - cbn [for_map]. run. destruct (Hex d) as [r Hr]; [apply list_elem_of_here|].
    rewrite Hr. run. destruct IH as (rows & Hrun & Hlen).
    { intros d' Hin. apply Hex. by apply list_elem_of_further. }
    rewrite Hrun. run. exists (r :: rows). split; [done|]. simpl. by rewrite Hlen.
Qed.

(** X9.  [_is_sale_order_fulfilled] compares the status of the order's
    deliveries with 'delivered', which is not a status of a delivery: it
    returns False for every order that has a delivery, and for an order
    without delivery it returns whether the transfers to the customer are
    all done. *)
Theorem _is_sale_order_fulfilled_deliveries (st : State) (order : Z) (ids : list Z) :
  (∀ d, d ∈ ids → is_Some (delivery_row st d)) →
  (ids ≠ [] → Delivery_actions._is_sale_order_fulfilled order ids st = (st, Ok false)) ∧
  Delivery_actions._is_sale_order_fulfilled order [] st
  = (st, Ok (forallb stock_picking.done
               (filter (λ picking, stock_picking.location_dest_usage picking = stock_picking.customer)
                  (picking_ids st order)))).
Proof.
  intros Hex. unfold Delivery_actions._is_sale_order_fulfilled. split.
  - intros Hne. run. rewrite pickings_done_run. run.
    destruct (forallb _ _); run; [|done].
    destruct (read_deliveries_run ids st Hex) as (rows & -> & Hlen). run.
    do 2 f_equal. apply bool_decide_eq_false_2.
    destruct ids as [|d ids]; [done|]. destruct rows as [|r rows]; [done|].
    rewrite filter_cons, decide_True by apply status_key_not_delivered. done.
  - run. rewrite pickings_done_run. run. by destruct (forallb _ _); run.
Qed.

(** The whole of [set_all_slots_delivered] when it goes through. *)
Lemma set_all_slots_delivered_run (st : State) (delivery : Z) (d : logistic_delivery.t) :
  delivery_row st delivery = Some d →
  logistic_delivery.status d ∉ [logistic_delivery.scheduled; logistic_delivery.loaded] →
  Exists (λ r, logistic_slot.status r = logistic_slot.scheduled) (slot_records st delivery) →
  Delivery.set_all_slots_delivered [delivery] st
  = (on_chatter (λ log, log ++ [("logistic.delivery", delivery)])
       (on_slots (write_all logistic_slot.id (slot_ids st delivery) (delivered_at (now st))) st),
     Ok tt).
Proof.
  intros Hd Hvalid Hsome. unfold delivery_row in Hd.
  unfold Delivery.set_all_slots_delivered, Delivery.VALID_STATUSES_SLOT_STATUS_CHANGE,
    read_delivery, message_post.
  cbn [for_each]. run. rewrite Hd. run. rewrite bool_decide_eq_true_2 by done. run.
  destruct (filter _ (slot_records st delivery)) as [|r0 l0] eqn:Hf.
  { exfalso. apply Exists_exists in Hsome as (r & Hin & Hr).
    assert (r ∈ filter (λ slot, logistic_slot.status slot = logistic_slot.scheduled)
              (slot_records st delivery)) as Hin' by (by apply list_elem_of_filter).
    rewrite Hf in Hin'. by apply not_elem_of_nil in Hin'. }
  run. rewrite _set_slots_delivered_run. by run.
Qed.

(** X10.  After [set_all_slots_delivered] went through, no slot of the
    delivery waits for a status: [ensure_slot_status_update] returns the
    empty list, so [end_trip] finds nothing to refuse. *)
Theorem delivered_slots_are_updated (st : State) (delivery : Z) (d : logistic_delivery.t) :
  delivery_row st delivery = Some d →
  logistic_delivery.status d ∉ [logistic_delivery.scheduled; logistic_delivery.loaded] →
  Exists (λ r, logistic_slot.status r = logistic_slot.scheduled) (slot_records st delivery) →
  let st' := (Delivery.set_all_slots_delivered [delivery] st).1 in
  Delivery_actions.ensure_slot_status_update delivery st' = (st', Ok []).
Proof.
  intros Hd Hvalid Hsome. cbv zeta.
  rewrite (set_all_slots_delivered_run st delivery d Hd Hvalid Hsome). cbn [fst].
  unfold Delivery_actions.ensure_slot_status_update, read_delivery. run.
  unfold delivery_row in Hd. fields. rewrite Hd. run. do 2 f_equal.
  replace (filter _ (slot_records _ delivery)) with (@nil logistic_slot.t); [done|].
  symmetry. apply filter_none. intros r' Hin [Hdel _].
  unfold slot_records in Hin. revert Hin. fields. intros Hin.
  apply list_elem_of_filter in Hin as [Hdid Hin].
  unfold write_all in Hin. apply list_elem_of_fmap in Hin as (r & -> & Hr).
  case_bool_decide as Hid; [done|].
  apply Hid. unfold slot_ids, slot_records. apply list_elem_of_fmap. exists r.
  split; [done|]. by apply list_elem_of_filter.
Qed.

End delivery_actions.

Section loading.
Context `{Platform}.

(** A loop whose body is decided by a check that reads only. *)
Lemma for_each_check_run {A} (l : list A) (body : A → M unit) (ok : A → Prop) (st : State) :
  (∀ x, x ∈ l → (body x st = (st, Ok tt) ∧ ok x)
                ∨ (∃ msg, body x st = (st, Raise (UserError msg)) ∧ ¬ ok x)) →
  (for_each l body st = (st, Ok tt) ∧ ∀ x, x ∈ l → ok x)
  ∨ (∃ msg, for_each l body st = (st, Raise (UserError msg)) ∧ ∃ x, x ∈ l ∧ ¬ ok x).
Proof.
  intros Hbody. destruct (for_each_check l body ok st Hbody) as [Hst Hres].
  destruct (for_each l body st) as [st' [[]|e]]; cbn [fst snd] in *; subst st'.
  - destruct Hres as [[_ Hall]|[[] _]]. by left.
  - destruct Hres as [[[=] _]|[Herr Hno]]. right. destruct e; try done. eauto.
Qed.

(** X11.  [set_loaded] on a delivery raises UserError, changing nothing,
    when the delivery has no vehicle and when a sale order of its slots
    has a transfer to transit that is not validated; otherwise it sets
    the status to loaded, whatever the status was, and nothing else. *)
Theorem set_loaded_one (st : State) (delivery : Z) (d : logistic_delivery.t) :
  delivery_row st delivery = Some d →
  (logistic_delivery.vehicle_id d = None →
     is_UserError (Delivery_actions.set_loaded [delivery] st).2 ∧
     (Delivery_actions.set_loaded [delivery] st).1 = st) ∧
  (has_open_transit_transfer st delivery →
     is_UserError (Delivery_actions.set_loaded [delivery] st).2 ∧
     (Delivery_actions.set_loaded [delivery] st).1 = st) ∧
  (is_Some (logistic_delivery.vehicle_id d) → ¬ has_open_transit_transfer st delivery →
     Delivery_actions.set_loaded [delivery] st
     = (on_deliveries (write_all logistic_delivery.id [delivery]
          (logistic_delivery.with_status logistic_delivery.loaded)) st, Ok tt)).
Proof.
  intros Hd. unfold delivery_row in Hd.
  unfold Delivery_actions.set_loaded, read_delivery, write_deliveries. cbn [for_each]. run.
  rewrite Hd. run.
  destruct (logistic_delivery.vehicle_id d) as [v|]; run.
  2:{ split; [done|]. split; [done|]. by intros [? [=]]. }
  split; [done|].
  pose (ok := λ order : Z, ∀ picking, picking ∈ picking_ids st order →
     stock_picking.location_dest_usage picking = stock_picking.transit →
     stock_picking.done picking = true).
  match goal with |- context [for_each (Delivery_fields._compute_sale_order_ids st delivery) ?b st] =>
    destruct (for_each_check_run (Delivery_fields._compute_sale_order_ids st delivery) b ok st)
      as [[-> Hall]|(msg & -> & order & Hin & Hno)]
  end.
  { intros order _. run.
    match goal with |- context [for_each ?l ?b st] =>
      destruct (for_each_check_run l b (λ p, stock_picking.done p = true) st)
        as [[-> Hall]|(msg & -> & p & Hin & Hno)]
    end.
    - intros p _. destruct (stock_picking.done p); cbn [negb]; run; [by left|].
      right. eexists. split; [done|]. done.
    - left. split; [done|]. intros p Hp Hu. apply Hall. by apply list_elem_of_filter.
    - right. exists msg. split; [done|]. intros Hok.
      apply list_elem_of_filter in Hin as [Hu Hp]. by apply Hno, Hok. }
  - run. split.
    + intros (order & p & Hin & Hp & Hu & Hnd). rewrite (Hall order Hin p Hp Hu) in Hnd. done.
    + done.
  - run. split; [done|]. intros _ Hopen. exfalso. apply Hno. intros p Hp Hu.
    destruct (stock_picking.done p) eqn:Hdone; [done|]. exfalso. apply Hopen.
    by exists order, p.
Qed.

Lemma write_each_run (st : State) (f : logistic_slot.t → logistic_slot.t) (ids : list Z) :
  (∀ r, logistic_slot.id (f r) = logistic_slot.id r) → (∀ r, f (f r) = f r) →
  for_each ids (λ slot, write_slots [slot] f) st
  = (on_slots (write_all logistic_slot.id ids f) st, Ok tt).
Proof.
  intros Hid Hidem.
  cut (∀ done rest,
         for_each rest (λ slot, write_slots [slot] f)
           (on_slots (write_all logistic_slot.id done f) st)
         = (on_slots (write_all logistic_slot.id (done ++ rest) f) st, Ok tt)).
  { intros Hgen. specialize (Hgen [] ids).
    replace (on_slots (write_all logistic_slot.id [] f) st) with st in Hgen; [done|].
    destruct st. unfold on_slots. simpl. by rewrite write_all_nil. }
  intros done rest. revert done. induction rest as [|x rest IH]; intros done.
  - cbn [for_each]. run. by rewrite app_nil_r.
  - cbn [for_each]. unfold write_slots at 1. run.
    replace (on_slots (write_all logistic_slot.id [x] f)
               (on_slots (write_all logistic_slot.id done f) st))
      with (on_slots (write_all logistic_slot.id (done ++ [x]) f) st).
    + rewrite IH. by rewrite <- app_assoc.
    + fields. by rewrite write_all_app.
Qed.

(** X12.  [Delivery.reset_to_scheduled] on a delivery raises UserError,
    changing nothing, when a slot of the delivery is delivered or
    returned; otherwise it sets every slot of the delivery and the
    delivery to scheduled, and nothing else: [cancelled_date] stays. *)
Theorem Delivery_reset_to_scheduled_one (st : State) (delivery : Z) (d : logistic_delivery.t) :
  delivery_row st delivery = Some d →
  ((∃ r, r ∈ slot_records st delivery ∧ delivered_or_returned r) →
     is_UserError (Delivery_actions.reset_to_scheduled [delivery] st).2 ∧
     (Delivery_actions.reset_to_scheduled [delivery] st).1 = st) ∧
  ((∀ r, r ∈ slot_records st delivery → ¬ delivered_or_returned r) →
     Delivery_actions.reset_to_scheduled [delivery] st
     = (on_deliveries (write_all logistic_delivery.id [delivery]
          (logistic_delivery.with_status logistic_delivery.scheduled))
          (on_slots (write_all logistic_slot.id (slot_ids st delivery)
             (logistic_slot.with_status logistic_slot.scheduled)) st), Ok tt)).
Proof.
  intros Hd. unfold delivery_row in Hd.
  unfold Delivery_actions.reset_to_scheduled, read_delivery, write_deliveries.
  cbn [for_each]. run. rewrite Hd. run.
  assert (Hbad : ∀ r, delivered_or_returned r ↔
            logistic_slot.status r = logistic_slot.delivered
            ∨ logistic_slot.status r = logistic_slot.returned).
  { intros r. unfold delivered_or_returned.
    rewrite elem_of_cons, list_elem_of_singleton. done. }
  split.
  - intros (r & Hin & Hr).
    destruct (filter _ (slot_records st delivery)) as [|r0 l0] eqn:Hf; run; [|done].
    exfalso.
    assert (r ∈ filter (λ slot, logistic_slot.status slot = logistic_slot.delivered
                                ∨ logistic_slot.status slot = logistic_slot.returned)
              (slot_records st delivery)) as Hin'
      by (apply list_elem_of_filter; split; [by apply Hbad|done]).
    rewrite Hf in Hin'. by apply elem_of_nil in Hin'.
  - intros Hgood. rewrite filter_none by (intros r Hin Hr; apply (Hgood r Hin), Hbad, Hr).
    run. rewrite write_each_run by done. by run.
Qed.

End loading.

Section zone_of_delivery.
Context `{Platform}.

Lemma ordered_set_NoDup (seen l : list Z) : NoDup (ordered_set seen l).
Proof.
  revert seen. induction l as [|x l IH]; intros seen; cbn [ordered_set]; [constructor|].
  case_bool_decide; [apply IH|]. apply NoDup_cons. split; [|apply IH].
  rewrite ordered_set_elem. intros [_ Hx]. apply Hx, list_elem_of_here.
Qed.

(** X13.  [_compute_zone_id] flags mismatched zones exactly when two
    slots of the delivery are in different zones, and assigns a zone
    exactly when the slots that have a zone all have that one. *)
Theorem _compute_zone_id_mismatched (st : State) (delivery : Z) :
  ((Delivery_actions._compute_zone_id st delivery).2 = true ↔
     ∃ z1 z2, z1 ≠ z2 ∧ zone_of_delivery st delivery z1 ∧ zone_of_delivery st delivery z2) ∧
  (∀ z, (Delivery_actions._compute_zone_id st delivery).1 = Some z ↔
     zone_of_delivery st delivery z ∧ ∀ z', zone_of_delivery st delivery z' → z' = z).
Proof.
  unfold Delivery_actions._compute_zone_id.
  pose proof (ordered_set_NoDup []
    (omap (Delivery_actions.slot_zone_id st) (slot_records st delivery))) as Hnd.
  assert (Hin : ∀ z, zone_of_delivery st delivery z ↔
    z ∈ ordered_set [] (omap (Delivery_actions.slot_zone_id st) (slot_records st delivery))).
  { intros z. unfold zone_of_delivery. rewrite ordered_set_elem, list_elem_of_omap.
    split; [intros ?; split; [done|apply not_elem_of_nil]|by intros [? _]]. }
  destruct (ordered_set [] _) as [|z [|y rest]]; cbv zeta.
  - cbn [fst snd]. split.
    + split; [done|]. intros (z1 & _ & _ & H1%Hin & _). by apply elem_of_nil in H1.
    + intros z. split; [done|]. intros [H1%Hin _]. by apply elem_of_nil in H1.
  - rewrite filter_cons, decide_True, filter_nil by done. cbn [length].
    rewrite bool_decide_eq_true_2 by done. cbn [fst snd]. split.
    + split; [done|]. intros (z1 & z2 & Hne & H1%Hin & H2%Hin).
      apply list_elem_of_singleton in H1, H2. congruence.
    + intros z0. split.
      * intros [= <-]. split; [apply Hin, list_elem_of_here|].
        intros z' Hz'%Hin. by apply list_elem_of_singleton in Hz'.
      * intros [Hz0%Hin _]. apply list_elem_of_singleton in Hz0. by subst.
  - apply NoDup_cons in Hnd as [Hz _].
    rewrite filter_cons, decide_True by done.
    rewrite (filter_none (λ x, x = z) (y :: rest)) by (intros x Hx ->; done).
    cbn [length]. rewrite bool_decide_eq_false_2 by lia. cbn [fst snd]. split.
    + split; [|done]. intros _. exists z, y. split; [|split].
      * intros ->. apply Hz, list_elem_of_here.
      * apply Hin, list_elem_of_here.
      * apply Hin, list_elem_of_further, list_elem_of_here.
    + intros z0. split; [done|]. intros [_ Hall]. exfalso. apply Hz.
      rewrite (Hall z), <- (Hall y).
      * apply list_elem_of_here.
      * apply Hin, list_elem_of_further, list_elem_of_here.
      * apply Hin, list_elem_of_here.
Qed.

End zone_of_delivery.

(** ** Cancelling, then more *)

Section cancel_more.
Context `{Platform}.

Lemma kept_or_cancelled_refl (tbl : list logistic_slot.t) : Forall2 kept_or_cancelled tbl tbl.
Proof. induction tbl; constructor; [|done]. split; [done|by left]. Qed.

Lemma kept_or_cancelled_write (ids : list Z) (f : logistic_slot.t → logistic_slot.t)
    (tbl tbl' : list logistic_slot.t) :
  (∀ r, same_slot r (f r) ∧ logistic_slot.status (f r) = logistic_slot.cancelled) →
  Forall2 kept_or_cancelled tbl tbl' →
  Forall2 kept_or_cancelled tbl (write_all logistic_slot.id ids f tbl').
Proof.
  intros Hf. unfold write_all. induction 1 as [|r r' tbl tbl' [Hs Hr] _ IH]; [constructor|].
  rewrite fmap_cons. constructor; [|done].
  destruct (bool_decide _); [|done].
  destruct (Hf r') as [(H1 & H2 & H3) Hc], Hs as (H1' & H2' & H3').
  split; [|by right]. unfold same_slot. by rewrite H1, H2, H3.
Qed.

Lemma kept_or_cancelled_same (tbl tbl' : list logistic_slot.t) :
  Forall2 kept_or_cancelled tbl tbl' → Forall2 same_slot tbl tbl'.
Proof. induction 1 as [|r r' tbl tbl' [Hs _] _ IH]; constructor; done. Qed.

Lemma Forall2_elem_r {A B} (R : A → B → Prop) (l : list A) (l' : list B) (y : B) :
  Forall2 R l l' → y ∈ l' → ∃ x, x ∈ l ∧ R x y.
Proof.
  induction 1 as [|x y' l l' Hxy _ IH]; [by intros ?%elem_of_nil|].
  intros [->|Hin]%elem_of_cons.
  - exists x. split; [apply list_elem_of_here|done].
  - destruct (IH Hin) as (x' & Hx' & Hr). exists x'. split; [by apply list_elem_of_further|done].
Qed.

Lemma kept_or_cancelled_browse (tbl tbl' : list logistic_slot.t) (i : Z) (r : logistic_slot.t) :
  Forall2 kept_or_cancelled tbl tbl' →
  browse logistic_slot.id tbl i = Some r →
  ∃ r', browse logistic_slot.id tbl' i = Some r' ∧ kept_or_cancelled r r'.
Proof.
  unfold browse. induction 1 as [|r0 r0' tbl tbl' Hr _ IH]; [done|]. cbn [List.find].
  destruct Hr as [(H1 & H2 & H3) Hk]. rewrite H1.
  destruct (bool_decide (logistic_slot.id r0 = i)); [|done].
  intros [= <-]. exists r0'. split; [done|]. by split.
Qed.

(** The loop that cancels slots leaves every table but the slots as it
    is, and every slot row as it was or cancelled, whether it ends or
    raises. *)
Lemma cancel_slots_rows (st : State) (ids : list Z) :
  let st' := (for_each ids (λ slot, Slot.cancel_action [slot]) st).1 in
  deliveries st' = deliveries st ∧ chatter st' = chatter st ∧ now st' = now st ∧
  lines st' = lines st ∧ orders st' = orders st ∧ pickings st' = pickings st ∧
  Forall2 kept_or_cancelled (slots st) (slots st').
Proof.
  cbv zeta.
  apply (for_each_keeps (λ st', deliveries st' = deliveries st ∧ chatter st' = chatter st ∧
           now st' = now st ∧ lines st' = lines st ∧ orders st' = orders st ∧
           pickings st' = pickings st ∧ Forall2 kept_or_cancelled (slots st) (slots st'))).
  - repeat (split; [done|]). apply kept_or_cancelled_refl.
  - intros slot st' (Hd & Hc & Hn & Hl & Ho & Hp & Hrows).
    destruct (slot_row st' slot) as [r|] eqn:Hr.
    + rewrite (cancel_one_run st' slot r Hr). case_bool_decide; cbn [fst]; [done|].
      fields. repeat (split; [done|]). apply kept_or_cancelled_write; [|done].
      intros r'. split; [|apply cancelled_row_status].
      unfold cancelled_row. by destruct (logistic_slot.fsm_id r).
    + unfold Slot.cancel_action, read_slot. cbn [for_each]. run.
      unfold slot_row in Hr. rewrite Hr. by run.
Qed.

(** When the loop ends, every row of a slot of the list is cancelled. *)
Lemma cancel_slots_cancelled (ids : list Z) (st st1 : State) :
  for_each ids (λ slot, Slot.cancel_action [slot]) st = (st1, Ok tt) →
  ∀ r', r' ∈ slots st1 → logistic_slot.id r' ∈ ids →
    logistic_slot.status r' = logistic_slot.cancelled.
Proof.
  revert st. induction ids as [|x ids IH]; intros st Hrun r' Hin Hid;
    [by apply elem_of_nil in Hid|].
  cbn [for_each] in Hrun. rewrite bind_run in Hrun.
  destruct (slot_row st x) as [r|] eqn:Hr.
  - rewrite (cancel_one_run st x r Hr) in Hrun. case_bool_decide; [done|].
    destruct (decide (logistic_slot.id r' ∈ ids)) as [Hi|Hi]; [by eapply IH|].
    apply elem_of_cons in Hid as [Hid|Hid]; [|done].
    pose proof (cancel_slots_rows
      (on_slots (write_all logistic_slot.id [x] (cancelled_row r)) st) ids) as Hrows.
    cbv zeta in Hrows. rewrite Hrun in Hrows. cbn [fst] in Hrows.
    destruct Hrows as (_ & _ & _ & _ & _ & _ & Hrel).
    destruct (Forall2_elem_r _ _ _ r' Hrel Hin) as (r0 & Hr0 & (Hid0 & _) & [->|Hc]); [|done].
    fields. unfold write_all in Hr0. apply list_elem_of_fmap in Hr0 as (r1 & -> & _).
    destruct (decide (logistic_slot.id r1 ∈ [x])) as [Hb|Hb].
    + rewrite bool_decide_eq_true_2 by done. apply cancelled_row_status.
    + rewrite bool_decide_eq_false_2 in Hid by done. exfalso. apply Hb.
      by apply list_elem_of_singleton.
  - unfold Slot.cancel_action, read_slot in Hrun. cbn [for_each] in Hrun.
    revert Hrun. run. unfold slot_row in Hr. rewrite Hr. by run.
Qed.

(** The state after [cancel_action] on one delivery went through. *)
Lemma cancel_action_state (st : State) (delivery : Z) :
  (Delivery.cancel_action [delivery] st).2 = Ok tt →
  ∃ st1, for_each (slot_ids st delivery) (λ slot, Slot.cancel_action [slot]) st = (st1, Ok tt) ∧
    (Delivery.cancel_action [delivery] st).1
    = on_deliveries (write_all logistic_delivery.id [delivery]
        (logistic_delivery.with_cancelled_date (Some (now st1))))
        (on_deliveries (write_all logistic_delivery.id [delivery]
           (logistic_delivery.with_status logistic_delivery.cancelled)) st1).
Proof.
  unfold Delivery.cancel_action, read_delivery, write_deliveries, datetime_now.
  cbn [for_each]. run.
  destruct (browse logistic_delivery.id (deliveries st) delivery) as [d|]; run; [|done].
  pose proof (check_orders_run st (Delivery_fields._compute_sale_order_ids st delivery)) as Hchk.
  cbv zeta in Hchk.
  case_bool_decide as Hst; run.
  - destruct (for_each (Delivery_fields._compute_sale_order_ids st delivery) _ st)
      as [st0 [[]|e]]; cbn [fst snd] in Hchk; destruct Hchk as [-> _]; run; [|done].
    case_bool_decide; run; [done|].
    destruct (for_each (slot_ids st delivery) _ st) as [st1 [[]|e]]; run; [|done].
    intros _. by exists st1.
  - case_bool_decide; run; [done|].
    destruct (for_each (slot_ids st delivery) _ st) as [st1 [[]|e]]; run; [|done].
    intros _. by exists st1.
Qed.

Lemma Delivery_reset_to_scheduled_run (st : State) (delivery : Z) (d : logistic_delivery.t) :
  delivery_row st delivery = Some d →
  (∀ r, r ∈ slot_records st delivery → ¬ delivered_or_returned r) →
  Delivery_actions.reset_to_scheduled [delivery] st
  = (on_deliveries (write_all logistic_delivery.id [delivery]
       (logistic_delivery.with_status logistic_delivery.scheduled))
       (on_slots (write_all logistic_slot.id (slot_ids st delivery)
          (logistic_slot.with_status logistic_slot.scheduled)) st), Ok tt).
Proof.
  intros Hd Hgood. unfold delivery_row in Hd.
  unfold Delivery_actions.reset_to_scheduled, read_delivery, write_deliveries.
  cbn [for_each]. run. rewrite Hd. run.
  rewrite filter_none.
  - run. rewrite write_each_run by done. by run.
  - intros r Hin Hr. apply (Hgood r Hin). unfold delivered_or_returned.
    rewrite elem_of_cons, list_elem_of_singleton. done.
Qed.

(** X14.  A delivery that was cancelled can be reset: after
    [cancel_action] went through, [Delivery.reset_to_scheduled] goes
    through too and the delivery and all its slots are scheduled again,
    with the [cancelled_date] of the cancelling still set. *)
Theorem cancel_then_reset (st : State) (delivery : Z) (d : logistic_delivery.t) :
  delivery_row st delivery = Some d →
  (Delivery.cancel_action [delivery] st).2 = Ok tt →
  let st1 := (Delivery.cancel_action [delivery] st).1 in
  let st2 := (Delivery_actions.reset_to_scheduled [delivery] st1).1 in
  (Delivery_actions.reset_to_scheduled [delivery] st1).2 = Ok tt ∧
  delivery_row st2 delivery
  = Some (logistic_delivery.with_status logistic_delivery.scheduled
            (logistic_delivery.with_cancelled_date (Some (now st)) d)) ∧
  slot_ids st2 delivery = slot_ids st delivery ∧
  ∀ r, r ∈ slot_records st2 delivery → logistic_slot.status r = logistic_slot.scheduled.
Proof.
  intros Hd Hok. destruct (cancel_action_state st delivery Hok) as (st1 & Hloop & Hst1).
  pose proof (cancel_slots_rows st (slot_ids st delivery)) as Hrows. cbv zeta in Hrows.
  pose proof (cancel_slots_run st (slot_ids st delivery) (slot_ids_exist st delivery)) as Hrun.
  unfold wp in Hrun. rewrite Hloop in Hrows, Hrun. cbn [fst snd] in Hrows, Hrun.
  destruct Hrows as (Hdel & _ & Hnow & _ & _ & _ & Hrel).
  destruct Hrun as (_ & _ & _ & Hcancelled).
  cbv zeta. rewrite Hst1. clear Hst1 Hok.
  set (stc := on_deliveries _ (on_deliveries _ st1)).
  assert (Hslots : slots stc = slots st1) by done.
  assert (Hids : slot_ids stc delivery = slot_ids st delivery).
  { apply same_slot_ids. rewrite Hslots. by apply kept_or_cancelled_same. }
  assert (Hdc : delivery_row stc delivery
            = Some (logistic_delivery.with_cancelled_date (Some (now st))
                      (logistic_delivery.with_status logistic_delivery.cancelled d))).
  { unfold delivery_row, stc in *. fields. rewrite !browse_write_all by done.
    rewrite Hdel, Hd, Hnow. cbn.
    by rewrite bool_decide_eq_true_2 by apply list_elem_of_here. }
  assert (Hgood : ∀ r, r ∈ slot_records stc delivery → ¬ delivered_or_returned r).
  { intros r' Hin Hbad. unfold slot_records in Hin. rewrite Hslots in Hin.
    apply list_elem_of_filter in Hin as [Hdid Hin].
    destruct (Forall2_elem_r _ _ _ r' Hrel Hin) as (r & Hr & (Hid & Hsd & _) & Hk).
    assert (logistic_slot.id r' ∈ slot_ids st delivery) as Hin'.
    { unfold slot_ids, slot_records. rewrite Hid. apply list_elem_of_fmap_2.
      apply list_elem_of_filter. split; [congruence|done]. }
    apply (cancel_slots_cancelled _ _ _ Hloop) in Hin; [|done].
    unfold delivered_or_returned in Hbad. rewrite Hin in Hbad.
    by repeat (apply elem_of_cons in Hbad as [?|Hbad]); try apply elem_of_nil in Hbad. }
  rewrite (Delivery_reset_to_scheduled_run stc delivery _ Hdc Hgood). cbn [fst snd].
  split; [done|]. fields. split; [|split].
  - unfold delivery_row in *. fields. rewrite browse_write_all by done.
    rewrite Hdc. cbn [fmap option_fmap option_map].
    rewrite bool_decide_eq_true_2 by apply list_elem_of_here. by destruct d.
  - rewrite <- Hids. apply same_slot_ids. fields.
    apply same_slot_write_all; [done|apply same_slot_refl].
  - intros r Hin. unfold slot_records in Hin. fields.
    apply list_elem_of_filter in Hin as [Hdid Hin].
    unfold write_all in Hin. apply list_elem_of_fmap in Hin as (r1 & -> & Hr1).
    destruct (decide (logistic_slot.id r1 ∈ slot_ids stc delivery)) as [Hb|Hb].
    + by rewrite bool_decide_eq_true_2 by done.
    + rewrite bool_decide_eq_false_2 in Hdid by done. exfalso. apply Hb.
      unfold slot_ids, slot_records. apply list_elem_of_fmap_2.
      by apply list_elem_of_filter.
Qed.


End cancel_more.

(** ** Scheduling an order *)

Section scheduling.
Context `{Platform}.









(** X16.  [schedule] never raises: whatever goes wrong is returned.  On
    an order that is not in the database the result is the
    AttributeError of reading [date] on the text returned by
    [create_delivery], not the error of the order, and the database is
    unchanged. *)
Theorem schedule_never_raises (st : State) (order : Z) :
  ∃ r, (Slot_scheduling.schedule order st).2 = Ok r ∧
    (browse sale_order.id (orders st) order = None →
     r = Slot_scheduling.Failed Slot_scheduling.AttributeError ∧
     (Slot_scheduling.schedule order st).1 = st).
Proof.
  unfold Slot_scheduling.schedule. run.
  assert (Hc : ∃ r, (Slot_scheduling.create_delivery order st).2 = Ok r ∧
            (browse sale_order.id (orders st) order = None →
             (∃ e, r = Slot_scheduling.DeliveryText e) ∧
             (Slot_scheduling.create_delivery order st).1 = st)).
  { unfold Slot_scheduling.create_delivery, read_order. rewrite try_except_run. run.
    destruct (browse sale_order.id (orders st) order) as [o|]; run.
    - destruct (Delivery.create _ st) as [st' [ids|e]]; run; cbn [fst snd]; by eexists.
    - cbn [fst snd]. eexists. split; [done|]. intros _. split; [by eexists|done]. }
  destruct Hc as (r & Hr & Hmissing).
  destruct (Slot_scheduling.create_delivery order st) as [st1 r1]. cbn [fst snd] in *. subst r1.
  destruct r as [[|delivery [|? ?]]|e]; run; cbn [fst snd].
  - eexists. split; [done|]. by intros [[? [=]] _]%Hmissing.
  - rewrite try_except_run.
    match goal with |- context [match ?m st1 with _ => _ end] => destruct (m st1) as [st2 [r|e]] end;
      run; cbn [fst snd]; (eexists; split; [done|]); by intros [[? [=]] _]%Hmissing.
  - eexists. split; [done|]. by intros [[? [=]] _]%Hmissing.
  - eexists. split; [done|]. intros [_ ->]%Hmissing. done.
Qed.

End scheduling.

(** ** Cancelling all slots of a delivery *)

Section cancel_all_slots.
Context `{Platform}.

(** One turn of the loop of [set_all_slots_cancelled] on a delivery
    without a delivered or returned slot. *)
Lemma cancel_and_post_run (st : State) (delivery : Z) :
  cancellable_slots st delivery →
  ∃ st1,
    (Delivery_actions._set_slots_cancelled delivery ;;;
     message_post "logistic.delivery" [delivery]) st
    = (on_chatter (λ log, log ++ [("logistic.delivery", delivery)]) st1, Ok tt) ∧
    deliveries st1 = deliveries st ∧ chatter st1 = chatter st ∧
    Forall2 same_slot (slots st) (slots st1) ∧
    ∀ r, r ∈ slots st1 → logistic_slot.id r ∈ slot_ids st delivery →
      logistic_slot.status r = logistic_slot.cancelled.
Proof.
  intros Hgood. unfold Delivery_actions._set_slots_cancelled, message_post. run.
  pose proof (cancel_slots_run st (slot_ids st delivery) (slot_ids_exist st delivery)) as Hrun.
  pose proof (cancel_slots_rows st (slot_ids st delivery)) as Hrows.
  pose proof (cancel_slots_cancelled (slot_ids st delivery) st) as Hall.
  unfold wp in Hrun. cbv zeta in Hrows.
  destruct (for_each (slot_ids st delivery) _ st) as [st1 [[]|e]]; cbn [fst snd] in *; run.
  - exists st1. destruct Hrows as (Hd & Hc & _ & _ & _ & _ & Hrel).
    split; [done|]. split; [done|]. split; [done|].
    split; [by apply kept_or_cancelled_same|]. by apply Hall.
  - destruct Hrun as (_ & _ & _ & slot & r0 & Hin & Hr0 & Hbad). by destruct (Hgood slot r0).
Qed.

Lemma same_slot_trans (tbl tbl1 tbl2 : list logistic_slot.t) :
  Forall2 same_slot tbl tbl1 → Forall2 same_slot tbl1 tbl2 → Forall2 same_slot tbl tbl2.
Proof.
  intros H1. revert tbl2. induction H1 as [|r r1 tbl tbl1 Hr _ IH]; intros tbl2 H2.
  - by inversion H2.
  - inversion H2 as [|? r2 ? tbl2' Hr' Hrest]; subst. constructor; [|by apply IH].
    destruct Hr as (? & ? & ?), Hr' as (? & ? & ?). unfold same_slot.
    split; [|split]; congruence.
Qed.

Lemma cancel_and_post_loop (delivery : Z) (turns : list logistic_slot.t) :
  ∀ st : State, cancellable_slots st delivery →
  ∃ st',
    for_each turns (λ _, Delivery_actions._set_slots_cancelled delivery ;;;
                         message_post "logistic.delivery" [delivery]) st = (st', Ok tt) ∧
    deliveries st' = deliveries st ∧
    chatter st' = chatter st ++ replicate (length turns) ("logistic.delivery", delivery) ∧
    Forall2 same_slot (slots st) (slots st') ∧
    (turns ≠ [] →
     ∀ r, r ∈ slots st' → logistic_slot.id r ∈ slot_ids st delivery →
       logistic_slot.status r = logistic_slot.cancelled).
Proof.
  induction turns as [|turn turns IH]; intros st Hgood.
  - exists st. cbn [for_each]. run. split; [done|]. split; [done|].
    split; [by rewrite app_nil_r|]. split; [apply same_slot_refl|done].
  - destruct (cancel_and_post_run st delivery Hgood) as (st1 & Hrun & Hd1 & Hc1 & Hsame1 & Hall1).
    set (st2 := on_chatter (λ log, log ++ [("logistic.delivery", delivery)]) st1) in *.
    assert (Hids : slot_ids st2 delivery = slot_ids st delivery) by by apply same_slot_ids.
    destruct (IH st2) as (st' & Hloop & Hd' & Hc' & Hsame' & Hall').
    { intros slot r Hin Hr Hbad. rewrite Hids in Hin.
      apply browse_Some in Hr as [Hid Hr]. rewrite <- Hid in Hin.
      unfold delivered_or_returned in Hbad. rewrite (Hall1 r Hr Hin) in Hbad.
      by repeat (apply elem_of_cons in Hbad as [?|Hbad]); try apply elem_of_nil in Hbad. }
    exists st'. cbn [for_each]. rewrite bind_run, Hrun. split; [done|].
    split; [by rewrite Hd'|].
    split. { rewrite Hc'. unfold st2. fields. rewrite Hc1. cbn [length replicate].
             by rewrite <- app_assoc. }
    split.
    { by apply (same_slot_trans _ (slots st1)). }
    intros _ r Hr Hin. destruct turns as [|turn' turns].
    + cbn [for_each] in Hloop. revert Hloop. run. intros [= <-]. by apply Hall1.
    + apply Hall'; [done|done|]. by rewrite Hids.
Qed.

Lemma set_all_slots_cancelled_run (st : State) (delivery : Z) (d : logistic_delivery.t) :
  delivery_row st delivery = Some d →
  logistic_delivery.status d ∉ Delivery.VALID_STATUSES_SLOT_STATUS_CHANGE →
  Delivery_actions.set_all_slots_cancelled [delivery] st
  = match filter (λ r, logistic_slot.status r = logistic_slot.scheduled)
            (slot_records st delivery) with
    | [] => (st, Raise (UserError "No Scheduled Slots!"))
    | turns =>
        for_each turns (λ _, Delivery_actions._set_slots_cancelled delivery ;;;
                             message_post "logistic.delivery" [delivery]) st
    end.
Proof.
  intros Hd Hst. unfold delivery_row in Hd.
  unfold Delivery_actions.set_all_slots_cancelled, read_delivery. cbn [for_each]. run.
  rewrite Hd. run. rewrite bool_decide_eq_true_2 by done. run.
  destruct (filter _ (slot_records st delivery)) as [|turn turns]; [done|].
  cbn [for_each]. run.
  match goal with |- _ = ?x => by destruct x as [st' [[]|e]] end.
Qed.

(** X17.  [set_all_slots_cancelled] on a delivery that is neither
    scheduled nor loaded: without a scheduled slot it raises UserError,
    changing nothing; when a slot of the delivery is delivered or
    returned it raises UserError too, with no message posted; otherwise
    it cancels every slot of the delivery, whatever its status, and posts
    one message per slot that was scheduled.  The deliveries are as they
    were in every case. *)
Theorem set_all_slots_cancelled_one (st : State) (delivery : Z) (d : logistic_delivery.t) :
  delivery_row st delivery = Some d →
  logistic_delivery.status d ∉ Delivery.VALID_STATUSES_SLOT_STATUS_CHANGE →
  let scheduled := filter (λ r, logistic_slot.status r = logistic_slot.scheduled)
                     (slot_records st delivery) in
  let run := Delivery_actions.set_all_slots_cancelled [delivery] st in
  deliveries run.1 = deliveries st ∧
  (scheduled = [] → run = (st, Raise (UserError "No Scheduled Slots!"))) ∧
  (scheduled ≠ [] → cancellable_slots st delivery →
   run.2 = Ok tt ∧
   chatter run.1 = chatter st ++ replicate (length scheduled) ("logistic.delivery", delivery) ∧
   slot_ids run.1 delivery = slot_ids st delivery ∧
   ∀ r, r ∈ slot_records run.1 delivery → logistic_slot.status r = logistic_slot.cancelled) ∧
  (scheduled ≠ [] →
   ∀ slot r, slot ∈ slot_ids st delivery → slot_row st slot = Some r → delivered_or_returned r →
   (∃ msg, run.2 = Raise (UserError msg)) ∧ chatter run.1 = chatter st).
Proof.
  intros Hd Hst. cbv zeta. rewrite (set_all_slots_cancelled_run st delivery d Hd Hst).
  destruct (filter _ (slot_records st delivery)) as [|turn turns] eqn:Hsched.
  { split; [done|]. split; [done|]. split; [done|]. done. }
  pose proof (cancel_slots_run st (slot_ids st delivery) (slot_ids_exist st delivery)) as Hrun.
  pose proof (cancel_slots_rows st (slot_ids st delivery)) as Hrows.
  unfold wp in Hrun. cbv zeta in Hrows.
  split; [|split; [done|split]].
  - apply (for_each_keeps (λ st', deliveries st' = deliveries st)); [done|].
    intros _ st' Hst'. unfold Delivery_actions._set_slots_cancelled. run.
    pose proof (cancel_slots_rows st' (slot_ids st' delivery)) as Hrows'. cbv zeta in Hrows'.
    destruct (for_each (slot_ids st' delivery) _ st') as [st1 [[]|e]]; cbn [fst snd] in *;
      run; unfold message_post; run; cbn [fst]; fields; destruct Hrows' as [-> _]; done.
  - intros _ Hgood.
    destruct (cancel_and_post_loop delivery (turn :: turns) st Hgood)
      as (st' & Hloop & Hd' & Hc' & Hsame' & Hall').
    rewrite Hloop. cbn [fst snd]. split; [done|]. split; [done|].
    assert (Hids : slot_ids st' delivery = slot_ids st delivery) by by apply same_slot_ids.
    split; [done|]. intros r Hin. unfold slot_records in Hin.
    apply list_elem_of_filter in Hin as [Hdid Hin].
    apply Hall'; [done|done|]. rewrite <- Hids. unfold slot_ids, slot_records.
    apply list_elem_of_fmap_2. by apply list_elem_of_filter.
  - intros _ slot r Hin Hr Hbad. cbn [for_each]. run.
    assert (Hfirst : Delivery_actions._set_slots_cancelled delivery st
              = for_each (slot_ids st delivery) (λ slot, Slot.cancel_action [slot]) st) by done.
    rewrite !Hfirst. clear Hfirst.
    destruct (for_each (slot_ids st delivery) _ st) as [st1 [[]|e]]; cbn [fst snd] in *; run.
    + destruct Hrun as (_ & _ & Hnone & _). by destruct (Hnone slot r).
    + cbn [fst snd]. destruct Hrun as (_ & _ & [msg ->] & _).
      split; [by eexists|]. by destruct Hrows as (_ & -> & _).
Qed.

End cancel_all_slots.

(** ** Cancelling several deliveries *)

Section cancel_several.
Context `{Platform}.

(** X18.  [cancel_action] on two deliveries checks only the first: when
    the first alone can be cancelled and no slot of the second is
    delivered or returned, the call goes through and cancels the second
    delivery and its slots whatever its status was, fulfilled or with
    validated transfers included, because the first turn of the loop
    has set the status of both. *)
Theorem cancel_action_second_delivery (st : State) (d1 d2 : Z) (r2 : logistic_delivery.t) :
  delivery_row st d2 = Some r2 →
  (Delivery.cancel_action [d1] st).2 = Ok tt →
  cancellable_slots st d2 →
  let run := Delivery.cancel_action [d1; d2] st in
  run.2 = Ok tt ∧
  delivery_row run.1 d2
  = Some (logistic_delivery.with_cancelled_date (Some (now st))
            (logistic_delivery.with_status logistic_delivery.cancelled r2)) ∧
  ∀ r, r ∈ slot_records run.1 d2 → logistic_slot.status r = logistic_slot.cancelled.
Proof.
  intros Hd2 Hok Hgood. cbv zeta. revert Hok.
  unfold Delivery.cancel_action, read_delivery, write_deliveries, datetime_now.
  cbn [for_each]. run.
  destruct (browse logistic_delivery.id (deliveries st) d1) as [r1|]; run; [|done].
  pose proof (check_orders_run st (Delivery_fields._compute_sale_order_ids st d1)) as Hchk.
  cbv zeta in Hchk.
  pose proof (cancel_slots_rows st (slot_ids st d1)) as Hrows. cbv zeta in Hrows.
  match goal with |- context [(if bool_decide ?P then ?a else ?b) st] =>
    assert (HX : ((if bool_decide P then a else b) st).1 = st);
      [case_bool_decide; run; [apply Hchk|done]|];
    destruct ((if bool_decide P then a else b) st) as [st0 [[]|e]] end;
    cbn [fst] in HX; subst st0; run; [|done].
  case_bool_decide; run; [done|].
  destruct (for_each (slot_ids st d1) _ st) as [st1 [[]|e]] eqn:Hloop; run; [|done].
  intros _. cbn [fst] in Hrows. destruct Hrows as (Hdel & _ & Hnow & _ & _ & _ & Hrel).
  set (stA := on_deliveries _ (on_deliveries _ st1)).
  set (rA := logistic_delivery.with_cancelled_date (Some (now st))
               (logistic_delivery.with_status logistic_delivery.cancelled r2)).
  assert (HdA : browse logistic_delivery.id (deliveries stA) d2 = Some rA).
  { unfold stA. fields. rewrite !browse_write_all by done. rewrite Hdel.
    unfold delivery_row in Hd2. rewrite Hd2, Hnow. cbn [fmap option_fmap option_map].
    rewrite bool_decide_eq_true_2; [done|]. apply list_elem_of_further, list_elem_of_here. }
  rewrite HdA. run.
  rewrite (bool_decide_eq_false_2 (logistic_delivery.status rA ∈ _)).
  2:{ unfold rA. cbn. intros Hin.
      by repeat (apply elem_of_cons in Hin as [?|Hin]); try apply elem_of_nil in Hin. }
  run. rewrite (bool_decide_eq_false_2 (logistic_delivery.status rA = _)) by done. run.
  assert (Hids : slot_ids stA d2 = slot_ids st d2).
  { apply same_slot_ids. by apply kept_or_cancelled_same. }
  assert (HgoodA : cancellable_slots stA d2).
  { intros slot r' Hin Hr' Hbad. rewrite Hids in Hin.
    destruct (slot_ids_exist st d2 slot Hin) as [r Hr].
    destruct (kept_or_cancelled_browse _ _ _ _ Hrel Hr) as (r'' & Hr'' & _ & Hk).
    unfold slot_row in Hr'. change (slots stA) with (slots st1) in Hr'.
    assert (r'' = r') as -> by congruence.
    destruct Hk as [->|Hc]; [by apply (Hgood slot r)|].
    unfold delivered_or_returned in Hbad. rewrite Hc in Hbad.
    by repeat (apply elem_of_cons in Hbad as [?|Hbad]); try apply elem_of_nil in Hbad. }
  pose proof (cancel_slots_run stA (slot_ids stA d2) (slot_ids_exist stA d2)) as Hrun.
  pose proof (cancel_slots_rows stA (slot_ids stA d2)) as HrowsA.
  pose proof (cancel_slots_cancelled (slot_ids stA d2) stA) as Hall.
  unfold wp in Hrun. cbv zeta in HrowsA.
  destruct (for_each (slot_ids stA d2) _ stA) as [stB [[]|e]]; cbn [fst snd] in *; run.
  2:{ destruct Hrun as (_ & _ & _ & slot & r0 & Hin & Hr0 & Hbad). by destruct (HgoodA slot r0). }
  cbn [fst snd]. split; [done|].
  destruct HrowsA as (HdelB & _ & HnowB & _ & _ & _ & HrelB).
  split.
  - unfold delivery_row. fields. rewrite !browse_write_all by done.
    rewrite HdelB, HdA, HnowB. cbn [fmap option_fmap option_map].
    rewrite bool_decide_eq_true_2 by apply list_elem_of_further, list_elem_of_here.
    unfold rA, stA. fields. rewrite Hnow. by destruct r2.
  - intros r Hin. unfold slot_records in Hin. fields.
    apply list_elem_of_filter in Hin as [Hdid Hin].
    apply (Hall stB eq_refl r Hin).
    assert (slot_ids stB d2 = slot_ids stA d2) as <-
      by (apply same_slot_ids; by apply kept_or_cancelled_same).
    unfold slot_ids, slot_records. apply list_elem_of_fmap_2. by apply list_elem_of_filter.
Qed.


End cancel_several.

(** ** Deleting several slots *)

Section unlink_slots.
Context `{Platform}.

(** X19.  [Slot.unlink] on a recordset of two slots or more whose first
    slot is cancelled raises MissingError: the first turn of the loop
    deletes the whole recordset, and the second turn reads the status of
    a slot that is gone.  The state at the raise has no slot of the
    recordset left. *)
Theorem Slot_unlink_several (st : State) (first second : Z) (others : list Z)
    (r : logistic_slot.t) :
  slot_row st first = Some r →
  logistic_slot.status r = logistic_slot.cancelled →
  Slot.unlink (first :: second :: others) st
  = (on_slots (delete_all logistic_slot.id (first :: second :: others)) st, Raise MissingError).
Proof.
  unfold slot_row. intros Hr Hc. unfold Slot.unlink, read_slot. cbn [for_each]. run.
  rewrite Hr. run. rewrite bool_decide_eq_false_2 by (intros Hne; by apply Hne). run.
  fields. rewrite browse_delete_all.
  by rewrite bool_decide_eq_true_2 by apply list_elem_of_further, list_elem_of_here.
Qed.

End unlink_slots.

(** ** Creating several slots *)

Section create_list.
Context `{Platform}.

(** X20.  [Slot.create] on a list of dictionaries creates one slot per
    dictionary: the slots are new, the slot of the k-th dictionary has
    the k-th uuid drawn from the call on as [guid] and the k-th next
    number of the sequence in its [name], and the slots that were there
    are unchanged. *)
Theorem Slot_create_list (ds : list (gmap string value)) (st : State) :
  ∃ ids,
    (Slot.create (AList ds) st).2 = Ok ids ∧
    length ids = length ds ∧
    (∀ s r, slot_row st s = Some r → slot_row (Slot.create (AList ds) st).1 s = Some r) ∧
    ∀ (k : nat) (i : Z), ids !! k = Some i →
      slot_row st i = None ∧
      ∃ r, slot_row (Slot.create (AList ds) st).1 i = Some r ∧
        logistic_slot.guid r = Some (uuid4_at (uuid_draws st + k)) ∧
        logistic_slot.name r
        = seq_render "logistic.slot.code" <$>
            ((λ n, n + k)%nat <$> sequences st !! "logistic.slot.code").
Proof.
  destruct (Slot_create_list_run ds st) as (st' & ids & Hrun & Hrest).
  exists ids. by rewrite Hrun.
Qed.

End create_list.

(** * More of the code on a database *)

(** X1: the first delivery is in transit, so nothing is deleted. *)
Lemma Delivery_unlink_not_cancelled_witness :
  delivery_row demo_state 1 = Some (demo_delivery 1 (Some 1) logistic_delivery.in_transit) ∧
  is_UserError (Delivery.unlink [1; 2] demo_state).2 ∧
  (Delivery.unlink [1; 2] demo_state).1 = demo_state.
Proof.
  split; [reflexivity|].
  eapply (Delivery_unlink_not_cancelled demo_state [1; 2] 1).
  - intros d' Hin. apply elem_of_cons in Hin as [->|Hin]; [by eexists|].
    apply list_elem_of_singleton in Hin as ->. by eexists.
  - apply list_elem_of_here.
  - reflexivity.
  - discriminate.
Defined.

(** X2: the first cancelled delivery is deleted with its slot. *)
Lemma Delivery_unlink_one_witness :
  delivery_row unlink_state 1 = Some (demo_delivery 1 None logistic_delivery.cancelled) ∧
  slot_ids unlink_state 1 = [1] ∧
  (Delivery.unlink [1] unlink_state).2 = Ok true ∧
  delivery_row (Delivery.unlink [1] unlink_state).1 1 = None ∧
  slot_row (Delivery.unlink [1] unlink_state).1 1 = None.
Proof.
  destruct (Delivery_unlink_one unlink_state 1 _ eq_refl eq_refl) as (Hok & Hgone & _ & Hslots & _).
  - apply NoDup_singleton.
  - intros slot r Hin Hr. change (slot ∈ [1]) in Hin. apply list_elem_of_singleton in Hin as ->.
    vm_compute in Hr. by injection Hr as <-.
  - split; [reflexivity|]. split; [reflexivity|]. split; [exact Hok|]. split; [exact Hgone|].
    apply Hslots. apply list_elem_of_here.
Defined.

(** X4: slots 1 and 2 of a scheduled delivery; only slot 2, the last, is
    reset. *)
Lemma Slot_reset_to_scheduled_last_witness :
  Slot.reset_to_scheduled [1; 2] scheduled_state
  = (on_slots (write_all logistic_slot.id [2]
       (logistic_slot.with_status logistic_slot.scheduled)) scheduled_state, Ok tt).
Proof.
  assert (Hallowed : ∀ slot, slot ∈ [1; 2] → reset_allowed scheduled_state slot).
  { intros slot Hin. apply elem_of_cons in Hin as [->|Hin];
      [|apply list_elem_of_singleton in Hin as ->];
      (eexists; split; [reflexivity|]; right; eexists _, _; split; [reflexivity|];
       split; reflexivity). }
  refine (proj1 (proj1 (Slot_reset_to_scheduled_last scheduled_state [1] 2 _) Hallowed)).
  intros slot Hin. left. by apply Hallowed.
Defined.

(** X6: slot 1, scheduled. *)
Lemma delivered_then_cancelled_witness :
  slot_row demo_state 1 = Some (demo_slot 1 (Some 1) (Some 1) logistic_slot.scheduled) ∧
  is_UserError (Slot.cancel_action [1] (Slot.set_delivered [1] demo_state).1).2 ∧
  slot_row (Slot.cancel_action [1] (Slot.set_delivered [1] demo_state).1).1 1
  = Some (delivered_at (now demo_state) (demo_slot 1 (Some 1) (Some 1) logistic_slot.scheduled)).
Proof.
  destruct (delivered_then_cancelled demo_state 1 _ eq_refl) as (Hraise & Hrow & _).
  split; [reflexivity|]. split; [exact Hraise|exact Hrow].
Defined.

(** X7: slot 1 and order 1, of zone 1, on a database without status
    record. *)
Lemma get_or_create_status_record_once_witness :
  status_unique demo_state ∧
  (Slot.get_or_create_status_record 1 (Some 1) demo_state).2 = Ok true ∧
  status_unique (Slot.get_or_create_status_record 1 (Some 1) demo_state).1 ∧
  ∃ r', slot_row (Slot.get_or_create_status_record 1 (Some 1) demo_state).1 1 = Some r' ∧
    registered_in (Slot.get_or_create_status_record 1 (Some 1) demo_state).1 (Some 1) None r'.
Proof.
  destruct (get_or_create_status_record_once demo_state 1 1 _ _ eq_refl eq_refl demo_status_unique)
    as (Hok & Huniq & Hreg & _).
  split; [exact demo_status_unique|]. split; [exact Hok|]. split; [exact Huniq|exact Hreg].
Defined.

(** X8: order 1 on the database with two status records for its zone. *)
Lemma create_slots_returns_errors_witness :
  (∃ res, (Slot.create_slots 1 None twin_status_state).2 = Ok res) ∧
  (∃ msg, (Slot.create_slots 1 None twin_status_state).2 = Ok (Slot.ErrorText (ValueError msg))) ∧
  length (slots (Slot.create_slots 1 None twin_status_state).1) = 3%nat.
Proof.
  destruct (create_slots_returns_errors twin_status_state 1 _ None eq_refl) as [Hres Herr].
  destruct Herr as (Hmsg & Hlen & _).
  - vm_compute. lia.
  - discriminate.
  - split; [exact Hres|]. split; [exact Hmsg|exact Hlen].
Defined.

(** X9: order 1 with the first delivery. *)
Lemma _is_sale_order_fulfilled_deliveries_witness :
  Delivery_actions._is_sale_order_fulfilled 1 [1] demo_state = (demo_state, Ok false) ∧
  Delivery_actions._is_sale_order_fulfilled 1 [] demo_state = (demo_state, Ok true).
Proof.
  destruct (_is_sale_order_fulfilled_deliveries demo_state 1 [1]) as [Hsome _].
  - intros d Hin. apply list_elem_of_singleton in Hin as ->. by eexists.
  - split; [apply Hsome; discriminate|reflexivity].
Defined.

(** X10: the first delivery, in transit with a scheduled slot. *)
Lemma delivered_slots_are_updated_witness :
  delivery_row demo_state 1 = Some (demo_delivery 1 (Some 1) logistic_delivery.in_transit) ∧
  Delivery_actions.ensure_slot_status_update 1 (Delivery.set_all_slots_delivered [1] demo_state).1
  = ((Delivery.set_all_slots_delivered [1] demo_state).1, Ok []).
Proof.
  split; [reflexivity|].
  eapply (delivered_slots_are_updated demo_state 1); [reflexivity| |].
  - intros Hin. repeat (apply elem_of_cons in Hin as [Hin|Hin]; [discriminate|]).
    by apply elem_of_nil in Hin.
  - by apply Exists_cons_hd.
Defined.

Lemma demo_no_open_transfer : ¬ has_open_transit_transfer demo_state 1.
Proof. intros (order & picking & _ & Hp & _). by apply elem_of_nil in Hp. Qed.

(** X11: the first delivery has a vehicle and no transfer. *)
Lemma set_loaded_one_witness :
  delivery_row demo_state 1 = Some (demo_delivery 1 (Some 1) logistic_delivery.in_transit) ∧
  Delivery_actions.set_loaded [1] demo_state
  = (on_deliveries (write_all logistic_delivery.id [1]
       (logistic_delivery.with_status logistic_delivery.loaded)) demo_state, Ok tt).
Proof.
  destruct (set_loaded_one demo_state 1 _ eq_refl) as (_ & _ & Hloaded).
  split; [reflexivity|]. apply Hloaded; [by eexists|exact demo_no_open_transfer].
Defined.

Lemma demo_slots_not_delivered (r : logistic_slot.t) :
  r ∈ slot_records demo_state 1 → ¬ delivered_or_returned r.
Proof.
  intros Hin Hbad. unfold delivered_or_returned in Hbad.
  change (r ∈ [demo_slot 1 (Some 1) (Some 1) logistic_slot.scheduled;
               demo_slot 2 (Some 1) (Some 2) logistic_slot.cancelled]) in Hin.
  apply elem_of_cons in Hin as [->|Hin]; [|apply list_elem_of_singleton in Hin as ->];
    repeat (apply elem_of_cons in Hbad as [Hbad|Hbad]; [discriminate|]);
    by apply elem_of_nil in Hbad.
Qed.

(** X12: the first delivery and its two slots are set to scheduled. *)
Lemma Delivery_reset_to_scheduled_one_witness :
  delivery_row demo_state 1 = Some (demo_delivery 1 (Some 1) logistic_delivery.in_transit) ∧
  Delivery_actions.reset_to_scheduled [1] demo_state
  = (on_deliveries (write_all logistic_delivery.id [1]
       (logistic_delivery.with_status logistic_delivery.scheduled))
       (on_slots (write_all logistic_slot.id [1; 2]
          (logistic_slot.with_status logistic_slot.scheduled)) demo_state), Ok tt).
Proof.
  destruct (Delivery_reset_to_scheduled_one demo_state 1 _ eq_refl) as [_ Hreset].
  split; [reflexivity|]. exact (Hreset demo_slots_not_delivered).
Defined.

(** X14: the first delivery, cancelled and reset. *)
Lemma cancel_then_reset_witness :
  (Delivery.cancel_action [1] demo_state).2 = Ok tt ∧
  (Delivery_actions.reset_to_scheduled [1] (Delivery.cancel_action [1] demo_state).1).2 = Ok tt ∧
  delivery_row
    (Delivery_actions.reset_to_scheduled [1] (Delivery.cancel_action [1] demo_state).1).1 1
  = Some (logistic_delivery.with_status logistic_delivery.scheduled
            (logistic_delivery.with_cancelled_date (Some (now demo_state))
               (demo_delivery 1 (Some 1) logistic_delivery.in_transit))).
Proof.
  assert (Hok : (Delivery.cancel_action [1] demo_state).2 = Ok tt) by (by vm_compute).
  destruct (cancel_then_reset demo_state 1 _ eq_refl Hok) as (Hreset & Hrow & _).
  split; [exact Hok|]. split; [exact Hreset|exact Hrow].
Defined.





(** X17: the first delivery, in transit with a scheduled and a cancelled
    slot. *)
Lemma set_all_slots_cancelled_one_witness :
  delivery_row demo_state 1 = Some (demo_delivery 1 (Some 1) logistic_delivery.in_transit) ∧
  (Delivery_actions.set_all_slots_cancelled [1] demo_state).2 = Ok tt ∧
  chatter (Delivery_actions.set_all_slots_cancelled [1] demo_state).1
  = [("logistic.delivery", 1)].
Proof.
  destruct (set_all_slots_cancelled_one demo_state 1 _ eq_refl) as (_ & _ & Hcancel & _).
  - intros Hin. repeat (apply elem_of_cons in Hin as [Hin|Hin]; [discriminate|]).
    by apply elem_of_nil in Hin.
  - destruct Hcancel as (Hok & Hchatter & _).
    + discriminate.
    + intros slot r Hin Hr. apply demo_slots_not_delivered.
      apply browse_Some in Hr as [<- Hr]. unfold slot_records.
      apply list_elem_of_filter. split; [|exact Hr].
      change (r ∈ [demo_slot 1 (Some 1) (Some 1) logistic_slot.scheduled;
                   demo_slot 2 (Some 1) (Some 2) logistic_slot.cancelled]) in Hr.
      apply elem_of_cons in Hr as [->|Hr]; [reflexivity|].
      by apply list_elem_of_singleton in Hr as ->.
    + split; [reflexivity|]. split; [exact Hok|exact Hchatter].
Defined.

(** X18: the second delivery is fulfilled: alone it is refused, after the
    first it is cancelled. *)
Lemma cancel_action_second_delivery_witness :
  delivery_row fulfilled_state 2 = Some (demo_delivery 2 (Some 1) logistic_delivery.fulfilled) ∧
  is_UserError (Delivery.cancel_action [2] fulfilled_state).2 ∧
  (Delivery.cancel_action [1; 2] fulfilled_state).2 = Ok tt ∧
  delivery_row (Delivery.cancel_action [1; 2] fulfilled_state).1 2
  = Some (logistic_delivery.with_cancelled_date (Some (now fulfilled_state))
            (logistic_delivery.with_status logistic_delivery.cancelled
               (demo_delivery 2 (Some 1) logistic_delivery.fulfilled))).
Proof.
  assert (Hok : (Delivery.cancel_action [1] fulfilled_state).2 = Ok tt) by (by vm_compute).
  destruct (cancel_action_second_delivery fulfilled_state 1 2 _ eq_refl Hok) as (Hboth & Hrow & _).
  - intros slot r Hin. by apply elem_of_nil in Hin.
  - split; [reflexivity|]. split; [by vm_compute|]. split; [exact Hboth|exact Hrow].
Defined.

(** X19: the cancelled slot 2 and slot 1. *)
Lemma Slot_unlink_several_witness :
  slot_row demo_state 2 = Some (demo_slot 2 (Some 1) (Some 2) logistic_slot.cancelled) ∧
  Slot.unlink [2; 1] demo_state
  = (on_slots (delete_all logistic_slot.id [2; 1]) demo_state, Raise MissingError) ∧
  slots (Slot.unlink [2; 1] demo_state).1 = [].
Proof.
  split; [reflexivity|].
  split; [exact (Slot_unlink_several demo_state 2 1 [] _ eq_refl eq_refl)|].
  by vm_compute.
Defined.
